(** * TECA CF reader: a shallow embedding of [teca_cf_reader]

    The development follows io/teca_cf_writer.cxx (the file that holds the
    CF reader): the helpers [crtrim], [netcdf_handle] and
    [teca_cf_reader_internals], the task [read_variable], and the two
    pipeline phases [teca_cf_reader::get_output_metadata] and
    [teca_cf_reader::execute].

    Conventions.
    - [unsigned long] and [size_t] values are integers in [Z] reduced modulo
      2^64 wherever the source computes on them; [unsigned int] modulo 2^32.
    - NetCDF and the file system are the environment: a value of type
      [environment] answers the calls the reader makes, and [nc_lib] is the
      set of files the library holds open.
    - [TECA_ERROR] only reports; it is modelled by appending a message tag to
      the log carried in the [state].
    - A null pointer dereference or an access through an end iterator is
      undefined behaviour in the source; the embedding stops there with
      [Fault].
    - The build is the one without MPI and without TECA_DEBUG.  Mutexes are
      kept as data of the handle cache; locking is not modelled.  The tasks
      of the thread pool take effect one after the other, and the order in
      which their results reach the assembler is a parameter.
    - [teca_variant_array], [teca_metadata] and [teca_array_collection] are
      not among the sources at hand; they are modelled from the
      specification, and marked so. *)

From Stdlib Require Import ZArith Ascii String Lia.
From stdpp Require Import base option list strings gmap fin_maps.

Local Open Scope string_scope.
Local Open Scope list_scope.
Local Open Scope Z_scope.

(** ** Machine integers *)

Definition wrap64 (z : Z) : Z := z mod 2 ^ 64.
Definition wrap32 (z : Z) : Z := z mod 2 ^ 32.

Definition is_u64 (z : Z) : Prop := 0 <= z < 2 ^ 64.

Fixpoint sum_list (l : list Z) : Z :=
  match l with
  | [] => 0
  | x :: r => x + sum_list r
  end.

(** ** [crtrim]: fixed length Fortran strings *)

Module Trim.

Definition NUL : ascii := Ascii.zero.

(** The four characters the loop of [crtrim] tests for:
    [' '], ['\n'], ['\t'], ['\r']. *)
Definition is_trim_char (c : ascii) : bool :=
  (c =? " ")%char || (c =? "010")%char || (c =? "009")%char || (c =? "013")%char.

(** [s[i]] on a character buffer.  Reads outside the buffer do not occur in
    [crtrim] when [n] is at most the buffer length. *)
Definition buf_get (s : list ascii) (i : nat) : ascii := nth i s NUL.

(** The [while] loop of [crtrim].  On entry [n] is the index that was just
    read into [c].  [n > 0] is the match on [S m]; [c = s[--n]] reads
    [s[m]] after [s[n]] was overwritten. *)
Fixpoint crtrim_loop (s : list ascii) (n : nat) (c : ascii) : list ascii :=
  match n with
  | O => s
  | S m =>
      if is_trim_char c then
        let s1 := <[n := NUL]> s in
        crtrim_loop s1 m (buf_get s1 m)
      else s
  end.

(** [static void crtrim(char *s, long n)].  The buffer pointer is [None] for
    a null pointer.  [n] is a length, hence a natural number. *)
Definition crtrim (s : option (list ascii)) (n : nat) : option (list ascii) :=
  match s with
  | None => None
  | Some buf =>
      match n with
      | O => Some buf
      | S m => Some (crtrim_loop buf m (buf_get buf m))
      end
  end.

(** [std::string(const char * )]: the characters before the first NUL. *)
Fixpoint c_str (s : list ascii) : string :=
  match s with
  | [] => ""
  | c :: r => if (c =? NUL)%char then "" else String c (c_str r)
  end.

(** The body of the [att_type == NC_CHAR] branch of the attribute loop:
    [buffer] gets [att_len + 1] bytes, the last one NUL, the text is copied
    in front, the buffer is trimmed and converted. *)
Definition read_char_att (text : list ascii) : string :=
  let att_len := length text in
  let buffer := text ++ [NUL] in
  match crtrim (Some buffer) att_len with
  | Some b => c_str b
  | None => ""
  end.

(** A text without NUL characters. *)
Definition no_nul (l : list ascii) : Prop := Forall (fun c => c <> NUL) l.

(** Right trimming as the specification words it: every trailing space,
    newline, tab and carriage return removed. *)
Fixpoint drop_trim (l : list ascii) : list ascii :=
  match l with
  | c :: r => if is_trim_char c then drop_trim r else l
  | [] => []
  end.

Definition rtrim (text : list ascii) : list ascii :=
  reverse (drop_trim (reverse text)).

End Trim.

(** ** NetCDF: type codes, files and the library state *)

Module NC.

(** The external type codes of netcdf.h. *)
Definition NC_BYTE : Z := 1.
Definition NC_CHAR : Z := 2.
Definition NC_SHORT : Z := 3.
Definition NC_INT : Z := 4.
Definition NC_FLOAT : Z := 5.
Definition NC_DOUBLE : Z := 6.
Definition NC_UBYTE : Z := 7.
Definition NC_USHORT : Z := 8.
Definition NC_UINT : Z := 9.
Definition NC_INT64 : Z := 10.
Definition NC_UINT64 : Z := 11.
Definition NC_STRING : Z := 12.

Record nc_dim := { dim_name : string; dim_len : Z }.

(** An attribute of a variable.  [att_text] is the text of a character
    valued attribute; its length is the [att_len] that [nc_inq_att]
    reports. *)
Record nc_att := { att_name : string; att_type : Z; att_text : list ascii }.

Record nc_var := {
  var_name : string;
  var_type : Z;
  var_dim_ids : list nat;
  var_atts : list nc_att
}.

(** The content of one file.  Dimension and variable identifiers are the
    positions in [nc_dims] and [nc_vars].  [nc_data id start count] is the
    answer of [nc_get_vara]: the values of the hyperslab, or [None] when
    the library reports an error. *)
Record nc_file := {
  nc_dims : list nc_dim;
  nc_vars : list nc_var;
  nc_data : nat -> list Z -> list Z -> option (list Z)
}.

Fixpoint index_of {A} (p : A -> bool) (l : list A) : option nat :=
  match l with
  | [] => None
  | a :: r => if p a then Some O else S <$> index_of p r
  end.

Definition nc_inq_dimid (f : nc_file) (name : string) : option nat :=
  index_of (fun d => String.eqb (dim_name d) name) (nc_dims f).

Definition nc_inq_dimlen (f : nc_file) (id : nat) : option Z :=
  dim_len <$> nc_dims f !! id.

Definition nc_inq_varid (f : nc_file) (name : string) : option nat :=
  index_of (fun v => String.eqb (var_name v) name) (nc_vars f).

Definition nc_inq_vartype (f : nc_file) (id : nat) : option Z :=
  var_type <$> nc_vars f !! id.

Definition nc_inq_nvars (f : nc_file) : option nat :=
  Some (length (nc_vars f)).

Definition nc_inq_var (f : nc_file) (id : nat) : option nc_var :=
  nc_vars f !! id.

Definition nc_inq_dim (f : nc_file) (id : nat) : option (string * Z) :=
  (fun d => (dim_name d, dim_len d)) <$> nc_dims f !! id.

Definition nc_inq_attname (f : nc_file) (var ii : nat) : option string :=
  v ← nc_vars f !! var; att_name <$> var_atts v !! ii.

Definition find_att (f : nc_file) (var : nat) (name : string) : option nc_att :=
  v ← nc_vars f !! var;
  List.find (fun a => String.eqb (att_name a) name) (var_atts v).

Definition nc_inq_att (f : nc_file) (var : nat) (name : string)
  : option (Z * nat) :=
  (fun a => (att_type a, length (att_text a))) <$> find_att f var name.

Definition nc_get_att_text (f : nc_file) (var : nat) (name : string)
  : list ascii :=
  from_option att_text [] (find_att f var name).

(** The state of the library: the files that are open, by [ncid], and the
    next identifier [nc_open] hands out. *)
Record nc_lib := {
  nc_open_files : gmap Z string;
  nc_next_id : Z
}.

Definition nc_open (fs : string -> option nc_file) (path : string)
    (lib : nc_lib) : option Z * nc_lib :=
  match fs path with
  | None => (None, lib)
  | Some _ =>
      let id := nc_next_id lib in
      (Some id, {| nc_open_files := <[id := path]> (nc_open_files lib);
                   nc_next_id := id + 1 |})
  end.

Definition nc_close (id : Z) (lib : nc_lib) : nc_lib :=
  {| nc_open_files := delete id (nc_open_files lib);
     nc_next_id := nc_next_id lib |}.

(** The file behind an open identifier; calls on an identifier that is not
    open fail. *)
Definition nc_file_of (fs : string -> option nc_file) (lib : nc_lib) (id : Z)
  : option nc_file :=
  path ← nc_open_files lib !! id; fs path.

End NC.

Export NC.

(** ** Variant arrays *)

(** The element types the reader instantiates [teca_variant_array_impl]
    with. *)
Inductive elem_type :=
  | T_char | T_unsigned_char | T_short | T_unsigned_short
  | T_int | T_unsigned_int | T_long_long | T_unsigned_long_long
  | T_unsigned_long | T_float | T_double.

Global Instance elem_type_eq_dec : EqDecision elem_type.
Proof. solve_decision. Defined.

(** A variant array: numeric (the element type and the elements, each
    element value written as an integer; nothing below inspects a value,
    only positions and lengths) or an array of strings. *)
Inductive variant_array :=
  | VA_num (t : elem_type) (data : list Z)
  | VA_str (data : list string).

(** [p_teca_variant_array]: a shared pointer, [None] when null. *)
Definition p_teca_variant_array := option variant_array.

Definition va_size (a : variant_array) : Z :=
  match a with
  | VA_num _ d => Z.of_nat (length d)
  | VA_str d => Z.of_nat (length d)
  end.

(** [teca_variant_array_impl<NC_T>::New(n)]: [n] default valued elements. *)
Definition va_new (t : elem_type) (n : Z) : variant_array :=
  VA_num t (replicate (Z.to_nat n) 0).

(** Writing [vals] through the pointer [a->get()]: the array keeps its
    length, the leading elements are overwritten. *)
Definition va_fill (a : variant_array) (vals : list Z) : variant_array :=
  match a with
  | VA_num t d =>
      VA_num t (take (length d) (vals ++ drop (length vals) d))
  | VA_str d => VA_str d
  end.

Inductive container_error := KindMismatch | OutOfBounds.

(** Modelled from the spec: [teca_variant_array::append] is not in the
    sources at hand; the specification has "in-order append of another
    variant array of the same element kind", failing with KindMismatch
    otherwise. *)
Definition va_append (a b : variant_array) : container_error + variant_array :=
  match a, b with
  | VA_num t d, VA_num t' d' =>
      if decide (t = t') then inr (VA_num t (d ++ d')) else inl KindMismatch
  | VA_str d, VA_str d' => inr (VA_str (d ++ d'))
  | _, _ => inl KindMismatch
  end.

(** Modelled from the spec: [teca_variant_array::new_copy(lo, hi)] is not in
    the sources at hand; the specification has a sliced copy over an
    inclusive index range, failing with OutOfBounds if [hi >= size] or
    [lo > hi]. *)
Definition va_new_copy (a : variant_array) (lo hi : Z)
  : container_error + variant_array :=
  if (va_size a <=? hi) || (hi <? lo) then inl OutOfBounds
  else
    let n := Z.to_nat (hi - lo + 1) in
    match a with
    | VA_num t d => inr (VA_num t (take n (drop (Z.to_nat lo) d)))
    | VA_str d => inr (VA_str (take n (drop (Z.to_nat lo) d)))
    end.

(** [NC_DISPATCH_FP]: the element type selected for a type code, [None] in
    the [default] branch. *)
Definition NC_DISPATCH_FP (tc : Z) : option elem_type :=
  if tc =? NC_FLOAT then Some T_float
  else if tc =? NC_DOUBLE then Some T_double
  else None.

(** [NC_DISPATCH], cases in the order of the macro. *)
Definition NC_DISPATCH (tc : Z) : option elem_type :=
  if tc =? NC_BYTE then Some T_char
  else if tc =? NC_UBYTE then Some T_unsigned_char
  else if tc =? NC_CHAR then Some T_char
  else if tc =? NC_SHORT then Some T_short
  else if tc =? NC_USHORT then Some T_unsigned_short
  else if tc =? NC_INT then Some T_int
  else if tc =? NC_UINT then Some T_unsigned_int
  else if tc =? NC_INT64 then Some T_long_long
  else if tc =? NC_UINT64 then Some T_unsigned_long_long
  else if tc =? NC_FLOAT then Some T_float
  else if tc =? NC_DOUBLE then Some T_double
  else None.

(** ** Metadata bags *)

(** A value of a bag: a variant array (possibly a null pointer) or a nested
    bag. *)
#[warnings="-register-all"]
Inductive md_value :=
  | MdArray (a : p_teca_variant_array)
  | MdBag (b : list (string * md_value)).

(** Modelled from the spec: [teca_metadata] is not in the sources at hand;
    the specification has an ordered mapping from string keys to values,
    keys unique per bag, insertion order preserved.  A bag is the list of
    its entries in insertion order. *)
Definition teca_metadata := list (string * md_value).

Fixpoint md_lookup (k : string) (m : teca_metadata) : option md_value :=
  match m with
  | [] => None
  | (k', v) :: r => if String.eqb k' k then Some v else md_lookup k r
  end.

(** Insertion keeps keys unique: an existing entry is replaced in place, a
    new key goes to the end. *)
Fixpoint md_insert (k : string) (v : md_value) (m : teca_metadata)
  : teca_metadata :=
  match m with
  | [] => [(k, v)]
  | (k', v') :: r =>
      if String.eqb k' k then (k, v) :: r else (k', v') :: md_insert k v r
  end.

(** [operator bool] of a bag: it holds at least one entry. *)
Definition md_nonempty (m : teca_metadata) : bool :=
  match m with [] => false | _ => true end.

Definition md_strings (l : list string) : md_value := MdArray (Some (VA_str l)).
Definition md_string (s : string) : md_value := md_strings [s].
Definition md_nums (t : elem_type) (l : list Z) : md_value :=
  MdArray (Some (VA_num t l)).

(** The typed getters; [None] stands for the non-zero return value. *)
Definition md_get_bag (k : string) (m : teca_metadata) : option teca_metadata :=
  match md_lookup k m with
  | Some (MdBag b) => Some b
  | _ => None
  end.

Definition md_get_array (k : string) (m : teca_metadata) : p_teca_variant_array :=
  match md_lookup k m with
  | Some (MdArray a) => a
  | _ => None
  end.

Definition md_get_nums (k : string) (m : teca_metadata) : option (list Z) :=
  match md_get_array k m with
  | Some (VA_num _ d) => Some d
  | _ => None
  end.

Definition md_get_strings (k : string) (m : teca_metadata)
  : option (list string) :=
  match md_get_array k m with
  | Some (VA_str d) => Some d
  | _ => None
  end.

(** [get(name, i, val)]: element [i] of the array under [name]. *)
Definition md_get_num_at (k : string) (i : nat) (m : teca_metadata) : option Z :=
  d ← md_get_nums k m; d !! i.

Definition md_get_string_at (k : string) (i : nat) (m : teca_metadata)
  : option string :=
  d ← md_get_strings k m; d !! i.

(** [get(name, vals, n)]: the first [n] elements into a C array. *)
Definition md_get_nums_n (k : string) (n : nat) (m : teca_metadata)
  : option (list Z) :=
  d ← md_get_nums k m;
  if decide (n <= length d)%nat then Some (take n d) else None.

(** ** The reader object, the world around it, and control flow *)

Inductive mutex := Mutex.

(** [class netcdf_handle]: the RAII wrapper of an [ncid]. *)
Record netcdf_handle := { m_handle : Z }.

(** An entry of the handle map: the owned mutex and the handle pointer. *)
Definition handle_map_elem_t : Type := option mutex * option netcdf_handle.

Record teca_cf_reader_internals := {
  metadata : teca_metadata;
  handles : gmap string handle_map_elem_t
}.

Record teca_cf_reader := {
  files_regex : string;
  file_name : string;
  x_axis_variable : string;
  y_axis_variable : string;
  z_axis_variable : string;
  t_axis_variable : string;
  thread_pool_size : Z;
  internals : teca_cf_reader_internals
}.

(** The constructor. *)
Definition teca_cf_reader_new : teca_cf_reader :=
  {| files_regex := ""; file_name := "";
     x_axis_variable := "lon"; y_axis_variable := "lat";
     z_axis_variable := ""; t_axis_variable := "time";
     thread_pool_size := -1;
     internals := {| metadata := []; handles := ∅ |} |}.

(** What [TECA_ERROR] reports, one tag per call site. *)
Inductive message :=
  | E_not_floating_point (tc : Z)
  | E_not_supported (tc : Z)
  | E_failed_to_open (file : string)
  | E_task_get_handle (file : string)
  | E_task_read_metadata (file : string)
  | E_task_read_variable (file : string)
  | E_task_unsupported_type (file : string)
  | E_locate_files
  | E_open_first_file
  | E_query_x_axis
  | E_query_y_axis
  | E_query_z_axis
  | E_number_of_variables
  | E_query_variable (i : nat)
  | E_query_dimension (i ii : nat)
  | E_query_attribute (i ii : nat)
  | E_read_x_axis
  | E_read_y_axis
  | E_read_z_axis
  | E_read_time_axis
  | E_missing_coordinates
  | E_missing_coordinate_arrays
  | E_missing_whole_extent
  | E_missing_step_count
  | E_locate_file_for_step
  | E_get_handle
  | E_missing_attributes
  | E_metadata_issue (name : string)
  | E_dimension_mismatch (name : string)
  | E_failed_to_read (name : string)
  | E_time_var_metadata_issue (name : string)
  | E_time_var_failed_to_read (name : string).

(** The calls into the rest of the system that the reader makes:
    [teca_file_util::locate_files] ([None] for its error return),
    [teca_file_util::path], [teca_file_util::filename], and the files NetCDF
    can open, by path. *)
Record environment := {
  locate_files : string -> string -> option (list string);
  file_util_path : string -> string;
  file_util_filename : string -> string;
  fs : string -> option nc_file
}.

Definition PATH_SEP : string := "/".

(** The state a member function runs in: the object, the library, the
    log. *)
Record state := {
  reader : teca_cf_reader;
  lib : nc_lib;
  log : list message
}.

(** How a piece of code ends: it falls through with a value, it executes
    [return] (or [continue], in a loop body), it runs into undefined
    behaviour, or a container operation fails. *)
Inductive flow (R A : Type) :=
  | Next (a : A)
  | Return (r : R)
  | Fault
  | Raise (e : container_error).
Arguments Next {R A} a.
Arguments Return {R A} r.
Arguments Fault {R A}.
Arguments Raise {R A} e.

Definition M (R A : Type) : Type := state -> flow R A * state.

Definition ret {R A} (a : A) : M R A := fun s => (Next a, s).

Definition bind {R A B} (m : M R A) (k : A -> M R B) : M R B :=
  fun s =>
    match m s with
    | (Next a, s1) => k a s1
    | (Return r, s1) => (Return r, s1)
    | (Fault, s1) => (Fault, s1)
    | (Raise e, s1) => (Raise e, s1)
    end.

Notation "'do' x <- m ; k" := (bind m (fun x => k))
  (at level 20, x name, m at level 100, k at level 200, only parsing).
Notation "'do' ' p <- m ; k" := (bind m (fun x => match x with p => k end))
  (at level 20, p pattern, m at level 100, k at level 200, only parsing).
Notation "m ;; k" := (bind m (fun _ => k))
  (at level 100, k at level 200, right associativity, only parsing).

Definition return_ {R A} (r : R) : M R A := fun s => (Return r, s).
Definition fault {R A} : M R A := fun s => (Fault, s).

(** A call: the callee's [return] value, or the value it falls through
    with, is the caller's next value. *)
Definition call {R R' : Type} (body : M R' R') : M R R' :=
  fun s =>
    match body s with
    | (Next a, s1) => (Next a, s1)
    | (Return a, s1) => (Next a, s1)
    | (Fault, s1) => (Fault, s1)
    | (Raise e, s1) => (Raise e, s1)
    end.

(** A container operation that may fail. *)
Definition try {R A} (x : container_error + A) : M R A :=
  fun s => match x with inl e => (Raise e, s) | inr a => (Next a, s) end.

Definition get_reader {R} : M R teca_cf_reader := fun s => (Next (reader s), s).
Definition get_lib {R} : M R nc_lib := fun s => (Next (lib s), s).

Definition TECA_ERROR {R} (m : message) : M R unit :=
  fun s => (Next tt, {| reader := reader s; lib := lib s; log := log s ++ [m] |}).

Definition set_lib {R} (l : nc_lib) : M R unit :=
  fun s => (Next tt, {| reader := reader s; lib := l; log := log s |}).

Definition with_internals (r : teca_cf_reader) (i : teca_cf_reader_internals)
  : teca_cf_reader :=
  {| files_regex := files_regex r; file_name := file_name r;
     x_axis_variable := x_axis_variable r; y_axis_variable := y_axis_variable r;
     z_axis_variable := z_axis_variable r; t_axis_variable := t_axis_variable r;
     thread_pool_size := thread_pool_size r;
     internals := i |}.

Definition set_internals {R} (i : teca_cf_reader_internals) : M R unit :=
  fun s => (Next tt, {| reader := with_internals (reader s) i;
                        lib := lib s; log := log s |}).

Definition get_metadata {R} : M R teca_metadata :=
  fun s => (Next (metadata (internals (reader s))), s).
Definition get_handles {R} : M R (gmap string handle_map_elem_t) :=
  fun s => (Next (handles (internals (reader s))), s).

Definition set_metadata {R} (m : teca_metadata) : M R unit :=
  do r <- get_reader;
  set_internals {| metadata := m; handles := handles (internals r) |}.
Definition set_handles {R} (h : gmap string handle_map_elem_t) : M R unit :=
  do r <- get_reader;
  set_internals {| metadata := metadata (internals r); handles := h |}.

(** How the body of a [for] loop leaves an iteration early: [continue]
    (with the loop carried variables as they are then) or a [return] of the
    enclosing function. *)
Inductive loop_exit (R Acc : Type) :=
  | Continue (acc : Acc)
  | Exit (r : R).
Arguments Continue {R Acc} acc.
Arguments Exit {R Acc} r.

Definition continue {R Acc A} (acc : Acc) : M (loop_exit R Acc) A :=
  return_ (Continue acc).
Definition exit {R Acc A} (r : R) : M (loop_exit R Acc) A :=
  return_ (Exit r).

(** A [for] loop over the elements of [l], with the variables it updates
    carried in [acc]. *)
Fixpoint for_loop {R Acc A} (l : list A) (acc : Acc)
    (body : A -> Acc -> M (loop_exit R Acc) Acc) : M R Acc :=
  match l with
  | [] => ret acc
  | a :: rest =>
      fun s =>
        match body a acc s with
        | (Next acc1, s1) => for_loop rest acc1 body s1
        | (Return (Continue acc1), s1) => for_loop rest acc1 body s1
        | (Return (Exit r), s1) => (Return r, s1)
        | (Fault, s1) => (Fault, s1)
        | (Raise e, s1) => (Raise e, s1)
        end
  end.

(** ** Outcomes of commands *)

(** [wp m s Q]: the outcome of running [m] from [s] satisfies [Q]. *)
Definition wp {R A} (m : M R A) (s : state) (Q : flow R A -> state -> Prop)
  : Prop :=
  Q (m s).1 (m s).2.

(** The log only grows: [log_le s s'] when [s'] has at least as many
    messages as [s], [log_lt s s'] when it has more. *)
Definition log_le (s s' : state) : Prop := (length (log s) <= length (log s'))%nat.
Definition log_lt (s s' : state) : Prop := (length (log s) < length (log s'))%nat.

(** The outcome of a piece of the metadata phase: the log has not shrunk
    and an early [return] carries the empty record. *)
Definition quiet {A} (s : state) (f : flow teca_metadata A) (s' : state) : Prop :=
  log_le s s' /\ match f with Return r => r = [] | _ => True end.

(** The same for a piece that cannot [return]. *)
Definition steady {R A} (s : state) (f : flow R A) (s' : state) : Prop :=
  log_le s s' /\ match f with Return _ => False | _ => True end.

(** ** The handle cache: [teca_cf_reader_internals] *)

(** A handle pointer of the cache is valid when it is null or wraps an
    [ncid] other than [0]: [netcdf_handle] "should only be initialized with
    an valid handle" and uses [0] for a handle that was moved from or
    closed. *)
Definition valid_handle (e : handle_map_elem_t) : Prop :=
  match e.2 with
  | Some hd => m_handle hd <> 0
  | None => True
  end.

Global Instance valid_handle_dec e : Decision (valid_handle e).
Proof. unfold valid_handle. destruct e.2; apply _. Defined.

(** [netcdf_handle::close]. *)
Definition netcdf_handle_close (h : netcdf_handle) (l : nc_lib) : nc_lib :=
  if m_handle h =? 0 then l else nc_close (m_handle h) l.

(** [delete p] on a handle pointer: the destructor closes the file. *)
Definition delete_handle (p : option netcdf_handle) (l : nc_lib) : nc_lib :=
  match p with
  | Some h => netcdf_handle_close h l
  | None => l
  end.

(** [teca_cf_reader_internals::close_handles].  The loop visits the
    entries of the map one by one; the files left open do not depend on the
    order of the visits. *)
Definition close_handles {R} : M R unit :=
  do h <- get_handles;
  do l <- get_lib;
  set_lib (map_fold (fun _ e l => delete_handle e.2 l) l h);;
  set_handles ((fun e : handle_map_elem_t => (e.1, None)) <$> h).

(** [teca_cf_reader_internals::clear_handles]. *)
Definition clear_handles {R} : M R unit :=
  do h <- get_handles;
  do l <- get_lib;
  set_lib (map_fold (fun _ e l => delete_handle e.2 l) l h);;
  set_handles ∅.

(** [teca_cf_reader_internals::initialize_handles]. *)
Definition initialize_handles {R} (files : list string) : M R unit :=
  clear_handles;;
  do _ <- for_loop (R := R) files tt (fun file _ =>
    do h <- get_handles;
    set_handles (<[file := (Some Mutex, None)]> h));
  ret tt.

(** [teca_cf_reader_internals::close_handle] (TECA_DEBUG is not defined:
    a file that is not in the map is reached through the end iterator). *)
Definition close_handle {R} (file : string) : M R Z :=
  do h <- get_handles;
  match h !! file with
  | None => fault
  | Some e =>
      do l <- get_lib;
      set_lib (delete_handle e.2 l);;
      set_handles (<[file := (e.1, None)]> h);;
      ret 0
  end.

(** [teca_cf_reader_internals::get_handle]: the return value, and the file
    identifier when it is [0]. *)
Definition get_handle {R} (env : environment) (path file : string)
  : M R (Z * Z) :=
  call (
    do h <- get_handles;
    match h !! file with
    | None => fault
    | Some e =>
        match e.2 with
        | Some hd => return_ (0, m_handle hd)
        | None =>
            let file_path := (path +:+ PATH_SEP +:+ file)%string in
            do l <- get_lib;
            match nc_open (fs env) file_path l with
            | (None, _) =>
                TECA_ERROR (E_failed_to_open file);;
                return_ (-1, 0)
            | (Some file_id, l1) =>
                set_lib l1;;
                set_handles (<[file := (e.1, Some {| m_handle := file_id |})]> h);;
                ret (0, file_id)
            end
        end
    end).

(** ** Calls into NetCDF on an open file *)

(** A library call on [file_id]: it fails when the identifier is not open. *)
Definition nc_call {R A} (env : environment) (file_id : Z)
    (q : nc_file -> option A) : M R (option A) :=
  do l <- get_lib;
  ret (nc_file_of (fs env) l file_id ≫= q).

(** The chain [nc_inq_dimid || nc_inq_dimlen || nc_inq_varid ||
    nc_inq_vartype] on one name: the variable identifier, the length of the
    dimension (a [size_t]) and the type code, or [None] as soon as one call
    fails. *)
Definition inq_axis (name : string) (f : nc_file) : option (nat * Z * Z) :=
  dim_id ← nc_inq_dimid f name;
  n ← nc_inq_dimlen f dim_id;
  var_id ← nc_inq_varid f name;
  t ← nc_inq_vartype f var_id;
  Some (var_id, wrap64 n, t).

(** ** [read_variable]: the task that reads one file's time axis *)

Definition read_variable {R} (env : environment) (m_path m_file : string)
    (m_id : nat) (m_variable : string) : M R (nat * p_teca_variant_array) :=
  call (
    do '(ierr, file_id) <- get_handle env m_path m_file;
    if negb (ierr =? 0) then
      TECA_ERROR (E_task_get_handle m_file);;
      return_ (m_id, None)
    else
    do q <- nc_call env file_id (inq_axis m_variable);
    match q with
    | None =>
        do _ <- close_handle m_file;
        TECA_ERROR (E_task_read_metadata m_file);;
        return_ (m_id, None)
    | Some (var_id, var_size, var_type) =>
        (match NC_DISPATCH_FP var_type with
         | Some t =>
             (* New() followed by resize(var_size) *)
             let var := va_new t var_size in
             do d <- nc_call env file_id (fun f => nc_data f var_id [0] [var_size]);
             match d with
             | None =>
                 do _ <- close_handle m_file;
                 TECA_ERROR (E_task_read_variable m_file);;
                 return_ (m_id, None)
             | Some vals =>
                 do _ <- close_handle m_file;
                 return_ (m_id, Some (va_fill var vals))
             end
         | None => TECA_ERROR (E_not_floating_point var_type)
         end);;
        do _ <- close_handle m_file;
        TECA_ERROR (E_task_unsupported_type m_file);;
        return_ (m_id, None)
    end).

(** ** [teca_cf_reader]: cache invalidation *)

(** [teca_cf_reader::clear_cached_metadata]. *)
Definition clear_cached_metadata {R} : M R unit :=
  set_metadata [];;
  clear_handles.

(** [teca_cf_reader::set_modified].  The base class [teca_algorithm] is not
    in the sources at hand: its state [base] and its [set_modified] are
    parameters. *)
Definition set_modified {R A} (teca_algorithm_set_modified : A -> A) (base : A)
  : M R A :=
  clear_cached_metadata;;
  ret (teca_algorithm_set_modified base).

(** ** The metadata phase: [teca_cf_reader::get_output_metadata] *)

(** The attribute loop of one variable: the character valued attributes go
    into [atts], trimmed. *)
Definition read_attributes (env : environment) (file_id : Z) (i : nat)
    (n_atts : nat) (atts : teca_metadata)
  : M (loop_exit teca_metadata (teca_metadata * list string * list string))
      teca_metadata :=
  for_loop (seq 0 n_atts) atts (fun ii atts =>
    do q <- nc_call env file_id (fun f =>
              name ← nc_inq_attname f i ii;
              a ← nc_inq_att f i name;
              Some (name, a));
    match q with
    | None =>
        clear_cached_metadata;;
        TECA_ERROR (E_query_attribute i ii);;
        exit (Exit [])
    | Some (att_name, (att_type, att_len)) =>
        if att_type =? NC_CHAR then
          do text <- nc_call env file_id (fun f =>
                       Some (nc_get_att_text f i att_name));
          ret (md_insert att_name
                 (md_string (Trim.read_char_att (default [] text))) atts)
        else ret atts
    end).

(** The loop over the variables of the first file.  It carries [atrs],
    [vars] and [time_vars]. *)
Definition enumerate_variables (env : environment) (file_id : Z)
    (t_axis : string) (n_vars : nat)
  : M teca_metadata (teca_metadata * list string * list string) :=
  for_loop (seq 0 n_vars) ([], [], []) (fun i '(atrs, vars, time_vars) =>
    do q <- nc_call env file_id (fun f => nc_inq_var f i);
    match q with
    | None =>
        clear_cached_metadata;;
        TECA_ERROR (E_query_variable i);;
        exit []
    | Some v =>
        let n_dims := length (var_dim_ids v) in
        (* skip scalars *)
        if decide (n_dims = 0%nat) then continue (atrs, vars, time_vars) else
        do '(dims, dim_names) <-
          for_loop (imap pair (var_dim_ids v)) ([], [])
            (fun '(ii, dim_id) '(dims, dim_names) =>
               do d <- nc_call env file_id (fun f => nc_inq_dim f dim_id);
               match d with
               | None =>
                   clear_cached_metadata;;
                   TECA_ERROR (E_query_dimension i ii);;
                   exit (Exit [])
               | Some (dim_name, dim) =>
                   ret (dims ++ [wrap64 dim], dim_names ++ [dim_name])
               end);
        let vars := vars ++ [var_name v] in
        let time_vars :=
          if bool_decide (n_dims = 1%nat) &&
             bool_decide (dim_names !! 0%nat = Some t_axis)
          then time_vars ++ [var_name v] else time_vars in
        let atts : teca_metadata := [] in
        let atts := md_insert "id" (md_nums T_int [Z.of_nat i]) atts in
        let atts := md_insert "dims" (md_nums T_unsigned_long dims) atts in
        let atts := md_insert "dim_names" (md_strings dim_names) atts in
        let atts := md_insert "type" (md_nums T_int [var_type v]) atts in
        let atts := md_insert "centering" (md_string "point") atts in
        do atts <- read_attributes env file_id i (length (var_atts v)) atts;
        ret (md_insert (var_name v) (MdBag atts) atrs, vars, time_vars)
    end).

(** Reading one spatial axis: the [NC_DISPATCH_FP] block over [New(n)] and
    [nc_get_vara].  In the [default] branch the error is reported and the
    axis pointer stays null. *)
Definition read_axis (env : environment) (file_id : Z) (id : nat) (n tc : Z)
    (err : message) : M teca_metadata p_teca_variant_array :=
  match NC_DISPATCH_FP tc with
  | Some t =>
      let a := va_new t n in
      do d <- nc_call env file_id (fun f => nc_data f id [0] [n]);
      match d with
      | None =>
          clear_cached_metadata;;
          TECA_ERROR err;;
          return_ []
      | Some vals => ret (Some (va_fill a vals))
      end
  | None =>
      TECA_ERROR (E_not_floating_point tc);;
      ret None
  end.

(** The axis of a direction that is not configured: one default valued
    element of the element type of the x axis. *)
Definition default_axis {R} (x_t : Z) : M R p_teca_variant_array :=
  match NC_DISPATCH_FP x_t with
  | Some t => ret (Some (va_fill (va_new t 1) [0]))
  | None =>
      TECA_ERROR (E_not_floating_point x_t);;
      ret None
  end.

(** The query of the y or z axis, made when the axis variable is
    configured; otherwise the identifier, the size and the type code keep
    their initial values [0], [1] and [0]. *)
Definition inq_optional_axis (env : environment) (file_id : Z)
    (name : string) (err : message) : M teca_metadata (nat * Z * Z) :=
  if negb (String.eqb name "") then
    do q <- nc_call env file_id (inq_axis name);
    match q with
    | None =>
        clear_cached_metadata;;
        TECA_ERROR err;;
        return_ []
    | Some q => ret q
    end
  else ret (0%nat, 1, 0).

(** The y or z axis: read when the axis variable is configured, the default
    axis otherwise. *)
Definition read_optional_axis (env : environment) (file_id : Z)
    (name : string) (id : nat) (n tc x_t : Z) (err : message)
  : M teca_metadata p_teca_variant_array :=
  if negb (String.eqb name "") then read_axis env file_id id n tc err
  else default_axis x_t.

(** [time_arrays[i]] on the [std::map]: a missing key reads as a null
    pointer. *)
Definition map_at (time_arrays : gmap nat p_teca_variant_array) (i : nat)
  : p_teca_variant_array :=
  default None (time_arrays !! i).

(** The loop [for (size_t i = 1; i < n_files; ++i)] of the time axis
    assembly, over the indices [indices]: [tmp] is dereferenced as it
    is. *)
Fixpoint append_time_arrays {R}
    (time_arrays : gmap nat p_teca_variant_array) (indices : list nat)
    (t_axis : variant_array) (step_count : list Z)
  : M R (variant_array * list Z) :=
  match indices with
  | [] => ret (t_axis, step_count)
  | i :: rest =>
      match map_at time_arrays i with
      | None => fault
      | Some tmp =>
          do t_axis1 <- try (va_append t_axis tmp);
          append_time_arrays time_arrays rest t_axis1
            (step_count ++ [va_size tmp])
      end
  end.

(** Unpacking the results: [std::map<unsigned long, p_teca_variant_array>
    time_arrays(tmp.begin(), tmp.end())], where [tmp] holds the results of
    the tasks in the order [order] in which the pool hands them over.  Of
    two entries with one key the map keeps the first. *)
Definition unpack_results (results : list (nat * p_teca_variant_array))
    (order : list nat) : gmap nat p_teca_variant_array :=
  let tmp := omap (fun k => results !! k) order in
  list_to_map tmp.

(** Task [i] hands back the pair [(i, array)]: the results of the tasks, in
    submission order, carry their own positions. *)
Definition tagged_by_position (results : list (nat * p_teca_variant_array))
  : Prop :=
  forall i r, results !! i = Some r -> r.1 = i.

(** The results of tasks that all succeed with element type [t], file [i]
    holding the time values [datas !! i]. *)
Definition successful_results (t : elem_type) (datas : list (list Z))
  : list (nat * p_teca_variant_array) :=
  imap (fun i d => (i, Some (VA_num t d))) datas.

(** The assembly of the global time axis and of [step_count] from the
    unpacked results. *)
Definition assemble_time_axis
    (time_arrays : gmap nat p_teca_variant_array) (n_files : nat)
  : M teca_metadata (p_teca_variant_array * list Z) :=
  match map_at time_arrays 0 with
  | None =>
      TECA_ERROR E_read_time_axis;;
      return_ []
  | Some t0 =>
      let step_count := [va_size t0] in
      do '(t_axis, step_count) <-
        append_time_arrays time_arrays (seq 1 (n_files - 1)) t0 step_count;
      ret (Some t_axis, step_count)
  end.

(** The time axis when [t_axis_variable] is set: one task per file, then
    the assembly.  The tasks take effect on the handle cache, on the library
    and on the log in submission order. *)
Definition read_time_axis (env : environment) (order : list nat)
    (path : string) (files : list string) (t_axis : string)
  : M teca_metadata (p_teca_variant_array * list Z) :=
  let n_files := length files in
  do results <- for_loop (imap pair files) []
    (fun '(i, file) results =>
       do r <- read_variable env path file i t_axis;
       ret (results ++ [r]));
  assemble_time_axis (unpack_results results order) n_files.

(** The [coordinates] bag. *)
Definition make_coordinates (r : teca_cf_reader)
    (x_axis y_axis z_axis t_axis : p_teca_variant_array) : teca_metadata :=
  let z_empty := String.eqb (z_axis_variable r) "" in
  let coords : teca_metadata := [] in
  let coords := md_insert "x_variable" (md_string (x_axis_variable r)) coords in
  let coords := md_insert "y_variable"
    (md_string (if z_empty then "y" else z_axis_variable r)) coords in
  let coords := md_insert "z_variable"
    (md_string (if z_empty then "z" else z_axis_variable r)) coords in
  let coords := md_insert "t_variable"
    (md_string (if z_empty then "t" else z_axis_variable r)) coords in
  let coords := md_insert "x" (MdArray x_axis) coords in
  let coords := md_insert "y" (MdArray y_axis) coords in
  let coords := md_insert "z" (MdArray z_axis) coords in
  md_insert "t" (MdArray t_axis) coords.

Definition make_whole_extent (n_x n_y n_z : Z) : list Z :=
  let whole_extent := replicate 6 0 in
  let whole_extent := <[1%nat := wrap64 (n_x - 1)]> whole_extent in
  let whole_extent := <[3%nat := wrap64 (n_y - 1)]> whole_extent in
  <[5%nat := wrap64 (n_z - 1)]> whole_extent.

(** The body of [teca_cf_reader::get_output_metadata] after the test of the
    cache, in a build without MPI: the one rank is the root rank. *)
Definition compute_output_metadata (env : environment) (order : list nat)
  : M teca_metadata teca_metadata :=
    do this <- get_reader;
    (* the file set *)
    do '(path, files) <-
      (if negb (String.eqb (file_name this) "") then
         ret (file_util_path env (file_name this),
              [file_util_filename env (file_name this)])
       else
         let regex := file_util_filename env (files_regex this) in
         let path := file_util_path env (files_regex this) in
         match locate_files env path regex with
         | None =>
             TECA_ERROR E_locate_files;;
             return_ []
         | Some files => ret (path, files)
         end);
    match files with
    | [] => fault
    | file0 :: _ =>
      let file := (path +:+ PATH_SEP +:+ file0)%string in
      do l <- get_lib;
      match nc_open (fs env) file l with
      | (None, _) =>
          TECA_ERROR E_open_first_file;;
          return_ []
      | (Some file_id, l1) =>
        set_lib l1;;
        (* initialize the file map *)
        initialize_handles files;;
        do h <- get_handles;
        set_handles (<[file0 := (Some Mutex, None)]> h);;
        (* query mesh axes *)
        do qx <- nc_call env file_id (inq_axis (x_axis_variable this));
        match qx with
        | None =>
            clear_cached_metadata;;
            TECA_ERROR E_query_x_axis;;
            return_ []
        | Some (x_id, n_x, x_t) =>
        do '(y_id, n_y, y_t) <-
          inq_optional_axis env file_id (y_axis_variable this) E_query_y_axis;
        do '(z_id, n_z, z_t) <-
          inq_optional_axis env file_id (z_axis_variable this) E_query_z_axis;
        (* enumerate mesh arrays and their attributes *)
        do qn <- nc_call env file_id nc_inq_nvars;
        match qn with
        | None =>
            clear_cached_metadata;;
            TECA_ERROR E_number_of_variables;;
            return_ []
        | Some n_vars =>
        do '(atrs, vars, time_vars) <-
          enumerate_variables env file_id (t_axis_variable this) n_vars;
        do md <- get_metadata;
        set_metadata (md_insert "time variables" (md_strings time_vars)
                     (md_insert "attributes" (MdBag atrs)
                     (md_insert "variables" (md_strings vars) md)));;
        (* read spatial coordinate arrays *)
        do x_axis <- read_axis env file_id x_id n_x x_t E_read_x_axis;
        do y_axis <-
          read_optional_axis env file_id (y_axis_variable this)
            y_id n_y y_t x_t E_read_y_axis;
        do z_axis <-
          read_optional_axis env file_id (z_axis_variable this)
            z_id n_z z_t x_t E_read_z_axis;
        (* collect time steps from this and the rest of the files *)
        do '(t_axis, step_count) <-
          (if negb (String.eqb (t_axis_variable this) "") then
             read_time_axis env order path files (t_axis_variable this)
           else
             do t <- default_axis x_t;
             ret (t, [1]));
        let coords := make_coordinates this x_axis y_axis z_axis t_axis in
        let whole_extent := make_whole_extent n_x n_y n_z in
        do md <- get_metadata;
        let md := md_insert "whole_extent"
                    (md_nums T_unsigned_long whole_extent) md in
        let md := md_insert "coordinates" (MdBag coords) md in
        let md := md_insert "files" (md_strings files) md in
        let md := md_insert "root" (md_string path) md in
        let md := md_insert "step_count"
                    (md_nums T_unsigned_long step_count) md in
        set_metadata md;;
        match t_axis with
        | None => fault (* t_axis->size() on a null pointer *)
        | Some t =>
            set_metadata (md_insert "number_of_time_steps"
                            (md_nums T_unsigned_long [va_size t]) md);;
            get_metadata
        end
        end
        end
      end
    end.

(** The record a phase leaves when it runs to its end: the six entries added
    last, on top of the entries [md0] of the schema. *)
Definition final_record (this : teca_cf_reader) (path : string)
    (files : list string) (x_axis y_axis z_axis : p_teca_variant_array)
    (t : variant_array) (step_count : list Z) (n_x n_y n_z : Z)
    (md0 : teca_metadata) : teca_metadata :=
  md_insert "number_of_time_steps" (md_nums T_unsigned_long [va_size t])
    (md_insert "step_count" (md_nums T_unsigned_long step_count)
      (md_insert "root" (md_string path)
        (md_insert "files" (md_strings files)
          (md_insert "coordinates"
             (MdBag (make_coordinates this x_axis y_axis z_axis (Some t)))
            (md_insert "whole_extent"
               (md_nums T_unsigned_long (make_whole_extent n_x n_y n_z))
               md0))))).

(** [teca_cf_reader::get_output_metadata]: the cached record when there is
    one. *)
Definition get_output_metadata (env : environment) (order : list nat)
  : M teca_metadata teca_metadata :=
  call (
    do cached <- get_metadata;
    if md_nonempty cached then return_ cached
    else compute_output_metadata env order).

(** A run of the metadata phase: the cache is empty, so the record is
    computed, and a record comes back (the empty record is what the phase
    returns when it gives up). *)
Definition metadata_phase (env : environment) (order : list nat)
    (s : state) (md : teca_metadata) (s' : state) : Prop :=
  md_nonempty (metadata (internals (reader s))) = false
  /\ get_output_metadata env order s = (Next md, s')
  /\ md_nonempty md = true.

(** A successful run: moreover no error was reported. *)
Definition successful_metadata_phase (env : environment) (order : list nat)
    (s : state) (md : teca_metadata) (s' : state) : Prop :=
  metadata_phase env order s md s' /\ log s' = log s.

(** The parts of a global metadata record. *)
Definition md_coordinate (key : string) (md : teca_metadata)
  : p_teca_variant_array :=
  coords ← md_get_bag "coordinates" md; md_get_array key coords.

Definition coordinate_name (key : string) (md : teca_metadata) : option string :=
  coords ← md_get_bag "coordinates" md; md_get_string_at key 0 coords.

(** [a.len - 1] as the source computes it, on [size_t]. *)
Definition size_minus_one (a : variant_array) : Z := wrap64 (va_size a - 1).

(** ** The execute phase: [teca_cf_reader::execute] *)

(** The loop that locates the file of a time step:
    [for (unsigned int i = 1; (i < step_count.size()) &&
          ((count + step_count[i-1]) <= time_step); ++idx, ++i)
       count += step_count[i-1];]
    [i] is an [unsigned int], [idx] and [count] are [unsigned long].  The
    result is [(idx, count)] when the loop ends within [fuel] iterations. *)
Fixpoint locate_loop (fuel : nat) (step_count : list Z) (time_step : Z)
    (i idx count : Z) : option (Z * Z) :=
  let elt := nth (Z.to_nat (wrap32 (i - 1))) step_count 0 in
  if (i <? Z.of_nat (length step_count)) && (wrap64 (count + elt) <=? time_step)
  then
    match fuel with
    | O => None
    | S fuel' =>
        locate_loop fuel' step_count time_step
          (wrap32 (i + 1)) (wrap64 (idx + 1)) (wrap64 (count + elt))
    end
  else Some (idx, count).

(** The file index [idx] and the offset [offs = time_step - count]. *)
Definition locate_step (step_count : list Z) (time_step : Z) : option (Z * Z) :=
  match locate_loop (length step_count) step_count time_step 1 0 0 with
  | Some (idx, count) => Some (idx, wrap64 (time_step - count))
  | None => None
  end.

(** The number of steps in the files before file [idx]: the sum of
    [step_count[0..idx)]. *)
Definition steps_before (step_count : list Z) (idx : nat) : Z :=
  sum_list (take idx step_count).

(** [step_count[last]]. *)
Definition last_count (step_count : list Z) : Z :=
  nth (length step_count - 1) step_count 0.

(** [teca_array_collection] is not in the sources at hand: a collection is
    the list of the (name, array pointer) pairs appended to it, in order. *)
Definition teca_array_collection : Type := list (string * p_teca_variant_array).

Record teca_cartesian_mesh := {
  x_coordinates : p_teca_variant_array;
  y_coordinates : p_teca_variant_array;
  z_coordinates : p_teca_variant_array;
  mesh_time : Z;
  mesh_time_step : Z;
  mesh_whole_extent : list Z;
  mesh_extent : list Z;
  mesh_calendar : option string;
  mesh_time_units : option string;
  point_arrays : teca_array_collection;
  information_arrays : teca_array_collection
}.

(** The test that a variable is a mesh variable: the sizes agree and the
    names agree position by position. *)
Definition is_mesh_variable (dim_names mesh_dim_names : list string) : bool :=
  bool_decide (length dim_names = length mesh_dim_names) &&
  forallb (fun ii => bool_decide (dim_names !! ii = mesh_dim_names !! ii))
          (seq 0 (length dim_names)).

(** [nc_get_vara] with the variable identifier found in the metadata (an
    [int]; a negative one is no variable). *)
Definition get_vara (id : Z) (starts counts : list Z) (f : nc_file)
  : option (list Z) :=
  if id <? 0 then None else nc_data f (Z.to_nat id) starts counts.

(** The metadata of a requested array: its attribute bag, and in it the
    type code, the variable identifier and the dimension names; [None] when
    one of the four lookups fails. *)
Definition array_metadata (atrs : teca_metadata) (name : string)
  : option (Z * Z * list string) :=
  atts ← md_get_bag name atrs;
  type ← md_get_num_at "type" 0 atts;
  id ← md_get_num_at "id" 0 atts;
  dim_names ← md_get_strings "dim_names" atts;
  Some (type, id, dim_names).

(** The state after one more message. *)
Definition logged (s : state) (m : message) : state :=
  {| reader := reader s; lib := lib s; log := log s ++ [m] |}.

(** The loop over the requested arrays; it carries the point arrays of the
    mesh, [attached] at its start (the empty collection of a new mesh). *)
Definition read_arrays {R} (env : environment) (file_id : Z)
    (atrs : teca_metadata) (mesh_dim_names : list string)
    (starts counts : list Z) (mesh_size : Z) (arrays : list string)
    (attached : teca_array_collection)
  : M R teca_array_collection :=
  for_loop arrays attached (fun name point_arrays =>
    match array_metadata atrs name with
    | None =>
        TECA_ERROR (E_metadata_issue name);;
        continue point_arrays
    | Some (type, id, dim_names) =>
        (* check if it's a mesh variable *)
        if negb (is_mesh_variable dim_names mesh_dim_names) then
          TECA_ERROR (E_dimension_mismatch name);;
          continue point_arrays
        else
        (* read *)
        do array <-
          match NC_DISPATCH type with
          | Some t =>
              let a := va_new t mesh_size in
              do d <- nc_call env file_id (get_vara id starts counts);
              match d with
              | None =>
                  TECA_ERROR (E_failed_to_read name);;
                  continue point_arrays
              | Some vals => ret (Some (va_fill a vals))
              end
          | None =>
              TECA_ERROR (E_not_supported type);;
              ret None
          end;
        ret (point_arrays ++ [(name, array)])
    end).

(** The loop over the time variables; it carries the information arrays. *)
Definition read_time_vars {R} (env : environment) (file_id : Z)
    (atrs : teca_metadata) (starts : list Z) (time_vars : list string)
  : M R teca_array_collection :=
  for_loop time_vars [] (fun name info_arrays =>
    match (atts ← md_get_bag name atrs;
           type ← md_get_num_at "type" 0 atts;
           id ← md_get_num_at "id" 0 atts;
           Some (type, id)) with
    | None =>
        TECA_ERROR (E_time_var_metadata_issue name);;
        continue info_arrays
    | Some (type, id) =>
        do array <-
          match NC_DISPATCH type with
          | Some t =>
              let a := va_new t 1 in
              do d <- nc_call env file_id (get_vara id (take 1 starts) [1]);
              match d with
              | None =>
                  TECA_ERROR (E_time_var_failed_to_read name);;
                  continue info_arrays
              | Some vals => ret (Some (va_fill a vals))
              end
          | None =>
              TECA_ERROR (E_not_supported type);;
              ret None
          end;
        ret (info_arrays ++ [(name, array)])
    end).

(** [extent[k]]. *)
Definition at_ (l : list Z) (k : nat) : Z := nth k l 0.

Definition execute (env : environment) (request : teca_metadata)
  : M (option teca_cartesian_mesh) (option teca_cartesian_mesh) :=
  call (
    do this <- get_reader;
    do md <- get_metadata;
    (* get coordinates *)
    match md_get_bag "coordinates" md with
    | None =>
        TECA_ERROR E_missing_coordinates;;
        return_ None
    | Some coords =>
    match md_get_array "x" coords, md_get_array "y" coords,
          md_get_array "z" coords, md_get_array "t" coords with
    | Some in_x, Some in_y, Some in_z, Some in_t =>
    (* get request *)
    let time_step := default 0 (md_get_num_at "time_step" 0 request) in
    match md_get_nums_n "whole_extent" 6 md with
    | None =>
        TECA_ERROR E_missing_whole_extent;;
        return_ None
    | Some whole_extent =>
    let extent := default whole_extent (md_get_nums_n "extent" 6 request) in
    let arrays := default [] (md_get_strings "arrays" request) in
    (* slice axes on the requested extent *)
    do out_x <- try (va_new_copy in_x (at_ extent 0) (at_ extent 1));
    do out_y <- try (va_new_copy in_y (at_ extent 2) (at_ extent 3));
    do out_z <- try (va_new_copy in_z (at_ extent 4) (at_ extent 5));
    let t :=
      if time_step <? va_size in_t then
        match in_t with
        | VA_num _ d => nth (Z.to_nat time_step) d 0
        | VA_str _ => 0
        end
      else 0 in
    (* locate file with this time step *)
    match md_get_nums "step_count" md with
    | None =>
        TECA_ERROR E_missing_step_count;;
        return_ None
    | Some step_count =>
    match locate_step step_count time_step with
    | None => fault (* the scan does not end: not reached below 2^32 files *)
    | Some (idx, offs) =>
    match md_get_string_at "root" 0 md,
          md_get_string_at "files" (Z.to_nat idx) md with
    | Some path, Some file =>
    (* get the file handle for this step *)
    do '(ierr, file_id) <- get_handle env path file;
    if negb (ierr =? 0) then
      TECA_ERROR E_get_handle;;
      return_ None
    else
    match md_get_bag "attributes" md with
    | None =>
        TECA_ERROR E_missing_attributes;;
        return_ None
    | Some atrs =>
    let '(calendar, units) :=
      match md_get_bag "time" atrs with
      | Some time_atts =>
          match md_get_string_at "calendar" 0 time_atts,
                md_get_string_at "units" 0 time_atts with
          | Some c, Some u => (Some c, Some u)
          | _, _ => (None, None)
          end
      | None => (None, None)
      end in
    (* the mapping between our extent and the netcdf representation *)
    let dims0 : list string * list Z * list Z * Z := ([], [], [], 1) in
    let dims1 :=
      if negb (String.eqb (t_axis_variable this) "") then
        let '(names, starts, counts, mesh_size) := dims0 in
        (names ++ [t_axis_variable this], starts ++ [offs], counts ++ [1],
         mesh_size)
      else dims0 in
    let add_axis (name : string) (lo hi : Z)
        (d : list string * list Z * list Z * Z) :=
      if negb (String.eqb name "") then
        let '(names, starts, counts, mesh_size) := d in
        let count := wrap64 (hi - lo + 1) in
        (names ++ [name], starts ++ [lo], counts ++ [count],
         wrap64 (mesh_size * count))
      else d in
    let dims2 := add_axis (z_axis_variable this) (at_ extent 4) (at_ extent 5) dims1 in
    let dims3 := add_axis (y_axis_variable this) (at_ extent 2) (at_ extent 3) dims2 in
    let '(mesh_dim_names, starts, counts, mesh_size) :=
      add_axis (x_axis_variable this) (at_ extent 0) (at_ extent 1) dims3 in
    (* read requested arrays *)
    do point_arrays <-
      read_arrays env file_id atrs mesh_dim_names starts counts mesh_size
        arrays [];
    (* read time vars *)
    let time_vars := default [] (md_get_strings "time variables" md) in
    do info_arrays <- read_time_vars env file_id atrs starts time_vars;
    ret (Some {| x_coordinates := Some out_x;
                 y_coordinates := Some out_y;
                 z_coordinates := Some out_z;
                 mesh_time := t;
                 mesh_time_step := time_step;
                 mesh_whole_extent := whole_extent;
                 mesh_extent := extent;
                 mesh_calendar := calendar;
                 mesh_time_units := units;
                 point_arrays := point_arrays;
                 information_arrays := info_arrays |})
    end
    | _, _ =>
        TECA_ERROR E_locate_file_for_step;;
        return_ None
    end
    end
    end
    end
    | _, _, _, _ =>
        TECA_ERROR E_missing_coordinate_arrays;;
        return_ None
    end
    end).

(** ** A small dataset: two files with a concatenated time axis *)

Module Sample.

(** One file with dimensions [lon = 4], [lat = 3], [time = n_t] and
    [plev = 2], the four coordinate variables, the field
    [tas(time, lat, lon)] with a blank padded [units] attribute, and a
    variable [label] of type NC_STRING.  The time values are
    [t0, t0 + 1, ...]. *)
Definition sample_file (t0 : Z) (n_t : nat) : nc_file :=
  {| nc_dims := [ {| dim_name := "lon"; dim_len := 4 |};
                  {| dim_name := "lat"; dim_len := 3 |};
                  {| dim_name := "time"; dim_len := Z.of_nat n_t |};
                  {| dim_name := "plev"; dim_len := 2 |} ];
     nc_vars := [ {| var_name := "lon"; var_type := NC_DOUBLE;
                     var_dim_ids := [0%nat]; var_atts := [] |};
                  {| var_name := "lat"; var_type := NC_DOUBLE;
                     var_dim_ids := [1%nat]; var_atts := [] |};
                  {| var_name := "time"; var_type := NC_DOUBLE;
                     var_dim_ids := [2%nat];
                     var_atts := [ {| att_name := "calendar"; att_type := NC_CHAR;
                                      att_text := list_ascii_of_string "noleap  " |};
                                   {| att_name := "units"; att_type := NC_CHAR;
                                      att_text := list_ascii_of_string "days" |} ] |};
                  {| var_name := "tas"; var_type := NC_FLOAT;
                     var_dim_ids := [2%nat; 1%nat; 0%nat];
                     var_atts := [ {| att_name := "units"; att_type := NC_CHAR;
                                      att_text := list_ascii_of_string "K   " |};
                                   {| att_name := "level"; att_type := NC_INT;
                                      att_text := [] |} ] |};
                  {| var_name := "label"; var_type := NC_STRING;
                     var_dim_ids := [2%nat; 1%nat; 0%nat]; var_atts := [] |};
                  {| var_name := "plev"; var_type := NC_FLOAT;
                     var_dim_ids := [3%nat]; var_atts := [] |} ];
     nc_data := fun id starts counts =>
       match id with
       | 0%nat => Some (take (Z.to_nat (at_ counts 0)) [0; 90; 180; 270])
       | 1%nat => Some (take (Z.to_nat (at_ counts 0)) [-45; 0; 45])
       | 2%nat => Some ((fun k => t0 + Z.of_nat k) <$>
                          seq (Z.to_nat (at_ starts 0)) (Z.to_nat (at_ counts 0)))
       | 3%nat => Some (replicate
                          (Z.to_nat (at_ counts 0 * at_ counts 1 * at_ counts 2)) 7)
       | 5%nat => Some (take (Z.to_nat (at_ counts 0)) [850; 500])
       | _ => None
       end |}.

Definition env (files : list string) (n_last : nat) : environment :=
  {| locate_files := fun _ _ => Some files;
     file_util_path := fun _ => "/data";
     file_util_filename := fun _ => "regex";
     fs := fun p =>
       if String.eqb p "/data/A.nc" then Some (sample_file 0 3)
       else if String.eqb p "/data/B.nc" then Some (sample_file 3 n_last)
       else None |}.

Definition lib0 : nc_lib := {| nc_open_files := ∅; nc_next_id := 65536 |}.

Definition with_axes (x y z t : string) : teca_cf_reader :=
  {| files_regex := "/data/regex"; file_name := "";
     x_axis_variable := x; y_axis_variable := y;
     z_axis_variable := z; t_axis_variable := t;
     thread_pool_size := -1;
     internals := {| metadata := []; handles := ∅ |} |}.

Definition start (r : teca_cf_reader) : state :=
  {| reader := r; lib := lib0; log := [] |}.

(** The default configuration on the two files, and a configuration with
    all four axes set. *)
Definition two_files : environment := env ["A.nc"; "B.nc"] 2.
Definition reader_2d : teca_cf_reader := with_axes "lon" "lat" "" "time".
Definition reader_3d : teca_cf_reader := with_axes "lon" "lat" "plev" "time".
Definition reader_no_time : teca_cf_reader := with_axes "lon" "lat" "" "".

(** The attribute bag the metadata phase records for [label]. *)
Definition label_atts : teca_metadata :=
  [("id", md_nums T_int [4]);
   ("dims", md_nums T_unsigned_long [3; 3; 4]);
   ("dim_names", md_strings ["time"; "lat"; "lon"]);
   ("type", md_nums T_int [NC_STRING]);
   ("centering", md_string "point")].

(** A reader in the middle of its life: the record is cached and the file
    of the last request is open. *)
Definition in_use : state :=
  {| reader :=
       with_internals reader_2d
         {| metadata := [("variables", md_strings ["tas"])];
            handles :=
              <["B.nc" := (Some Mutex, Some {| m_handle := 65539 |})]>
                (<["A.nc" := (Some Mutex, None)]> ∅) |};
     lib := {| nc_open_files :=
                 <[65539 := "/data/B.nc"]> (<[65536 := "/data/A.nc"]> ∅);
               nc_next_id := 65540 |};
     log := [] |}.

(** The record a run hands back. *)
Definition record_of (out : flow teca_metadata teca_metadata * state)
  : teca_metadata :=
  match out.1 with
  | Next md => md
  | _ => []
  end.

(** The metadata phase of [reader_2d], the results arriving in the order
    [1, 0]: the record and the state after it. *)
Definition record_2d : teca_metadata :=
  record_of (get_output_metadata two_files [1; 0]%nat (start reader_2d)).
Definition after_metadata : state :=
  (get_output_metadata two_files [1; 0]%nat (start reader_2d)).2.

(** The metadata phase without a time axis. *)
Definition record_no_time : teca_metadata :=
  record_of (get_output_metadata two_files [0; 1]%nat (start reader_no_time)).
Definition after_no_time : state :=
  (get_output_metadata two_files [0; 1]%nat (start reader_no_time)).2.

End Sample.


(** ** More of the handle class and of the cache *)

(** [netcdf_handle::close] as it leaves the object: the handle is zeroed
    once the file is closed. *)
Definition netcdf_handle_close_object (h : netcdf_handle) (l : nc_lib)
  : netcdf_handle * nc_lib :=
  if m_handle h =? 0 then (h, l)
  else ({| m_handle := 0 |}, nc_close (m_handle h) l).

(** The move constructor: the new object, and what is left of [other]. *)
Definition netcdf_handle_move (other : netcdf_handle)
  : netcdf_handle * netcdf_handle :=
  ({| m_handle := m_handle other |}, {| m_handle := 0 |}).

(** Move assignment [this = std::move(other)]: [this] is closed first. *)
Definition netcdf_handle_move_assign (this other : netcdf_handle) (l : nc_lib)
  : netcdf_handle * netcdf_handle * nc_lib :=
  let '(_, l1) := netcdf_handle_close_object this l in
  ({| m_handle := m_handle other |}, {| m_handle := 0 |}, l1).

(** The library hands out identifiers that are not zero and not in use, now
    and later. *)
Definition lib_wf (l : nc_lib) : Prop :=
  0 < nc_next_id l
  /\ forall id, nc_next_id l <= id -> nc_open_files l !! id = None.

(** The state with another handle map, and with another library state. *)
Definition with_handles (s : state) (h : gmap string handle_map_elem_t)
  : state :=
  {| reader := with_internals (reader s)
                 {| metadata := metadata (internals (reader s));
                    handles := h |};
     lib := lib s; log := log s |}.

Definition with_lib (s : state) (l : nc_lib) : state :=
  {| reader := reader s; lib := l; log := log s |}.

(** The handle map right after [initialize_handles]: one entry per file, a
    mutex and no handle. *)
Definition handle_skeleton (files : list string)
  : gmap string handle_map_elem_t :=
  gset_to_gmap (Some Mutex, None) (list_to_set files).

(** ** What the metadata phase keeps *)

(** The file set of the phase: the path and the file names, from
    [file_name] when it is set and from [files_regex] otherwise;  [None]
    when [locate_files] fails. *)
Definition data_set (env : environment) (this : teca_cf_reader)
  : option (string * list string) :=
  if negb (String.eqb (file_name this) "") then
    Some (file_util_path env (file_name this),
          [file_util_filename env (file_name this)])
  else
    let regex := file_util_filename env (files_regex this) in
    let path := file_util_path env (files_regex this) in
    match locate_files env path regex with
    | None => None
    | Some files => Some (path, files)
    end.

(** Two readers with one configuration: they differ in their internals at
    most. *)
Definition same_configuration (r r' : teca_cf_reader) : Prop :=
  with_internals r (internals r') = r'.

(** No entry of the handle map holds a handle. *)
Definition all_closed (h : gmap string handle_map_elem_t) : Prop :=
  forall file e, h !! file = Some e -> e.2 = None.

(** The library is in order and has the same files open. *)
Definition same_files (s s' : state) : Prop :=
  lib_wf (lib s') /\ nc_open_files (lib s') = nc_open_files (lib s).

(** The cache was cleared: no record and no handle map. *)
Definition cleared (s s' : state) : Prop :=
  metadata (internals (reader s')) = []
  /\ handles (internals (reader s')) = ∅
  /\ same_configuration (reader s) (reader s').

(** A piece of the phase that goes on: the reader is as it was, and so are
    the open files when no handle was cached. *)
Definition still (s s' : state) : Prop :=
  reader s' = reader s
  /\ log_le s s'
  /\ (lib_wf (lib s) -> all_closed (handles (internals (reader s))) ->
      same_files s s').

(** A piece of the phase that gives up: the cache is cleared and an error
    is logged. *)
Definition gave_up (s s' : state) : Prop :=
  cleared s s'
  /\ log_lt s s'
  /\ (lib_wf (lib s) -> all_closed (handles (internals (reader s))) ->
      same_files s s').

Definition kept {A} (s : state) (f : flow teca_metadata A) (s' : state)
  : Prop :=
  match f with
  | Return r => r = [] /\ gave_up s s'
  | _ => still s s'
  end.

(** The record once the schema of the first file is stored. *)
Definition schema_record (atrs : teca_metadata) (vars time_vars : list string)
    (md : teca_metadata) : teca_metadata :=
  md_insert "time variables" (md_strings time_vars)
    (md_insert "attributes" (MdBag atrs)
      (md_insert "variables" (md_strings vars) md)).

(** Handles are held only while a record is cached. *)
Definition cache_coherent (s : state) : Prop :=
  md_nonempty (metadata (internals (reader s))) = false ->
  all_closed (handles (internals (reader s))).

(** ** What the execute phase keeps *)

(** The handle map [h'] is [h] but for entries that have got a handle. *)
Definition handles_added (l' : nc_lib) (h h' : gmap string handle_map_elem_t)
  : Prop :=
  forall file,
    h' !! file = h !! file
    \/ exists mu hd,
         h !! file = Some (mu, None)
         /\ h' !! file = Some (mu, Some hd)
         /\ is_Some (nc_open_files l' !! m_handle hd).

(** The library [l'] has every file open that [l] has. *)
Definition files_kept_open (l l' : nc_lib) : Prop :=
  forall id p, nc_open_files l !! id = Some p -> nc_open_files l' !! id = Some p.

(** From [s] to [s'] the record and the configuration are kept, handles
    are only added, and no file is closed. *)
Definition execute_frame (s s' : state) : Prop :=
  metadata (internals (reader s')) = metadata (internals (reader s))
  /\ same_configuration (reader s) (reader s')
  /\ handles_added (lib s') (handles (internals (reader s)))
       (handles (internals (reader s')))
  /\ (lib_wf (lib s) -> lib_wf (lib s') /\ files_kept_open (lib s) (lib s')).

(** ** The variables of the first file *)

(** The test the schema loop makes before it records a time variable: the
    variable has one dimension, and that dimension is named as the time
    axis. *)
Definition is_time_variable (f : nc_file) (t_axis : string) (v : nc_var)
  : bool :=
  match var_dim_ids v with
  | [d] => bool_decide (dim_name <$> nc_dims f !! d = Some t_axis)
  | _ => false
  end.

(** The test it makes before it records a variable at all: the variable is
    not a scalar. *)
Definition is_array_variable (v : nc_var) : bool :=
  negb (bool_decide (length (var_dim_ids v) = 0%nat)).

(** The number of points of an extent, as [execute] computes [mesh_size]:
    for the z, the y and the x axis in turn, when the axis is configured,
    [mesh_size *= extent[hi] - extent[lo] + 1] on [size_t]. *)
Definition mesh_points (this : teca_cf_reader) (extent : list Z) : Z :=
  let scale (name : string) (lo hi mesh_size : Z) :=
    if negb (String.eqb name "") then wrap64 (mesh_size * wrap64 (hi - lo + 1))
    else mesh_size in
  scale (x_axis_variable this) (at_ extent 0) (at_ extent 1)
    (scale (y_axis_variable this) (at_ extent 2) (at_ extent 3)
       (scale (z_axis_variable this) (at_ extent 4) (at_ extent 5) 1)).
(** * Properties *)

(** ** Sums of step counts *)

Section Sums.

Implicit Types (l : list Z) (n : nat).

Lemma sum_list_app l1 l2 : sum_list (l1 ++ l2) = sum_list l1 + sum_list l2.
Proof. induction l1 as [|x l1 IH]; simpl; lia. Qed.

Lemma sum_list_nonneg l : Forall is_u64 l -> 0 <= sum_list l.
Proof.
  induction 1 as [|x l Hx _ IH]; simpl; [lia|].
  unfold is_u64 in Hx. lia.
Qed.

Lemma sum_list_take_S l n :
  (n < length l)%nat ->
  sum_list (take (S n) l) = sum_list (take n l) + nth n l 0.
Proof.
  revert n. induction l as [|x l IH]; intros n Hn; simpl in *; [lia|].
  destruct n as [|n]; simpl.
  - lia.
  - rewrite <- Z.add_assoc. f_equal. apply IH. lia.
Qed.

Lemma sum_list_take_le l n m :
  Forall is_u64 l -> (n <= m)%nat ->
  sum_list (take n l) <= sum_list (take m l).
Proof.
  intros Hl Hnm.
  replace m with (n + (m - n))%nat by lia.
  rewrite <- take_take_drop, sum_list_app.
  assert (0 <= sum_list (take (m - n) (drop n l))); [|lia].
  apply sum_list_nonneg, Forall_take, Forall_drop, Hl.
Qed.

Lemma sum_list_take_all l : sum_list (take (length l) l) = sum_list l.
Proof. by rewrite firstn_all. Qed.

Lemma nth_is_u64 l n : Forall is_u64 l -> is_u64 (nth n l 0).
Proof.
  intros Hl. destruct (decide (n < length l)%nat) as [Hn|Hn].
  - rewrite Forall_forall in Hl. apply Hl, list_elem_of_In, nth_In, Hn.
  - rewrite nth_overflow by lia. unfold is_u64. lia.
Qed.

End Sums.

(** ** The scan over [step_count] *)

Section Locate.

Variable step_count : list Z.
Variable time_step : Z.
Hypothesis counts_u64 : Forall is_u64 step_count.
Hypothesis files_u32 : Z.of_nat (length step_count) < 2 ^ 32.
Hypothesis total_u64 : sum_list step_count < 2 ^ 64.

Local Abbreviation before := (steps_before step_count).

(** The loop, started at file [idx] with the steps of the files before it
    in [count], ends at the file that holds [time_step]. *)
Lemma locate_loop_spec (fuel idx : nat) :
  (length step_count - idx <= fuel)%nat ->
  (idx < length step_count)%nat ->
  before idx <= time_step ->
  exists idx' : nat,
    locate_loop fuel step_count time_step
      (Z.of_nat idx + 1) (Z.of_nat idx) (before idx)
      = Some (Z.of_nat idx', before idx')
    /\ (idx <= idx' < length step_count)%nat
    /\ before idx' <= time_step
    /\ ((S idx' < length step_count)%nat -> time_step < before (S idx')).
Proof.
  revert idx. induction fuel as [|fuel IH]; intros idx Hfuel Hidx Hle.
  - lia.
  - assert (Hw : wrap32 (Z.of_nat idx + 1 - 1) = Z.of_nat idx).
    { unfold wrap32. rewrite Z.mod_small; lia. }
    assert (Hsum : wrap64 (before idx + nth idx step_count 0) = before (S idx)).
    { unfold steps_before. rewrite sum_list_take_S by done.
      unfold wrap64. apply Z.mod_small.
      pose proof (sum_list_take_le step_count (S idx) (length step_count)
                    counts_u64 ltac:(lia)) as H1.
      rewrite sum_list_take_S, sum_list_take_all in H1 by done.
      assert (0 <= sum_list (take idx step_count))
        by apply sum_list_nonneg, Forall_take, counts_u64.
      pose proof (nth_is_u64 step_count idx counts_u64) as [? ?]. lia. }
    cbn [locate_loop]. rewrite Hw, Nat2Z.id, Hsum.
    destruct (Z.of_nat idx + 1 <? Z.of_nat (length step_count)) eqn:Hlt;
      cbn [andb].
    + destruct (before (S idx) <=? time_step) eqn:Hnext.
      * apply Z.ltb_lt in Hlt. apply Z.leb_le in Hnext.
        destruct (IH (S idx)) as (idx' & Hrun & Hrange & Hle' & Hstop);
          [lia | lia | done |].
        exists idx'. split; [|split; [lia|done]].
        rewrite <- Hrun. f_equal.
        -- unfold wrap32. rewrite Z.mod_small; lia.
        -- unfold wrap64. rewrite Z.mod_small; lia.
      * apply Z.leb_gt in Hnext.
        exists idx. split; [done|]. split; [lia|]. split; [done|]. intros _. done.
    + apply Z.ltb_ge in Hlt.
      exists idx. split; [done|]. split; [lia|]. split; [done|]. lia.
Qed.

End Locate.

(** C1, as amended.  For a request with
    [0 <= time_step <= number_of_time_steps - 1] the scan ends and yields
    the file index [idx] and the offset
    [offs = time_step - sum step_count[0..idx)]; file [idx] is the one that
    holds the step.  When the last file holds at least one step,
    [time_step = number_of_time_steps - 1] resolves to the last file, with
    offset [step_count[last] - 1]. *)
Theorem locate_step_resolves (step_count : list Z) (time_step : Z) :
  Forall is_u64 step_count ->
  Z.of_nat (length step_count) < 2 ^ 32 ->
  sum_list step_count < 2 ^ 64 ->
  0 <= time_step <= sum_list step_count - 1 ->
  exists idx : nat,
    locate_step step_count time_step
      = Some (Z.of_nat idx, time_step - steps_before step_count idx)
    /\ (idx < length step_count)%nat
    /\ steps_before step_count idx <= time_step
         < steps_before step_count (S idx)
    /\ (time_step = sum_list step_count - 1 ->
        0 < last_count step_count ->
        idx = (length step_count - 1)%nat
        /\ time_step - steps_before step_count idx
           = last_count step_count - 1).
Proof.
  intros Hu64 Hu32 Htot Hts.
  assert (Hlen : (0 < length step_count)%nat).
  { destruct step_count; simpl in *; lia. }
  destruct (locate_loop_spec step_count time_step Hu64 Hu32 Htot
              (length step_count) 0)
    as (idx & Hrun & Hrange & Hle & Hstop);
    [lia | lia | unfold steps_before; simpl; lia |].
  change (locate_loop (length step_count) step_count time_step 1 0 0
          = Some (Z.of_nat idx, steps_before step_count idx)) in Hrun.
  assert (Hlt : time_step < steps_before step_count (S idx)).
  { destruct (decide (S idx < length step_count)%nat) as [?|Hlast]; [auto|].
    replace (S idx) with (length step_count) by lia.
    unfold steps_before. rewrite sum_list_take_all. lia. }
  exists idx. split; [|split; [lia|split; [lia|]]].
  - unfold locate_step. rewrite Hrun. do 2 f_equal.
    unfold wrap64. apply Z.mod_small.
    assert (0 <= steps_before step_count idx)
      by apply sum_list_nonneg, Forall_take, Hu64.
    lia.
  - intros Hts_last Hpos.
    assert (Hidx : idx = (length step_count - 1)%nat).
    { destruct (decide (S idx < length step_count)%nat) as [Hmore|]; [|lia].
      pose proof (sum_list_take_le step_count (S idx) (length step_count - 1)
                    Hu64 ltac:(lia)) as H1.
      pose proof (sum_list_take_S step_count (length step_count - 1)
                    ltac:(lia)) as H2.
      replace (S (length step_count - 1)) with (length step_count) in H2 by lia.
      rewrite sum_list_take_all in H2.
      unfold steps_before, last_count in *. lia. }
    split; [done|]. subst idx.
    pose proof (sum_list_take_S step_count (length step_count - 1)
                  ltac:(lia)) as H2.
    replace (S (length step_count - 1)) with (length step_count) in H2 by lia.
    rewrite sum_list_take_all in H2.
    unfold steps_before, last_count in *. lia.
Qed.

Lemma locate_step_resolves_witness :
  exists idx : nat,
    locate_step [3; 2] 4 = Some (Z.of_nat idx, 4 - steps_before [3; 2] idx)
    /\ (idx < length [3; 2])%nat
    /\ steps_before [3; 2] idx <= 4 < steps_before [3; 2] (S idx)
    /\ (4 = sum_list [3; 2] - 1 ->
        0 < last_count [3; 2] ->
        idx = (length [3; 2] - 1)%nat
        /\ 4 - steps_before [3; 2] idx = last_count [3; 2] - 1).
Proof.
  apply (locate_step_resolves [3; 2] 4).
  - repeat constructor; unfold is_u64; lia.
  - simpl; lia.
  - simpl; lia.
  - simpl; lia.
Defined.

(** C1, as stated, fails when the last file holds no step: with
    [step_count = [3; 0]] the last step, [2], is in file [0] at offset [2],
    not in the last file at offset [step_count[last] - 1]. *)
Lemma locate_step_last_file_empty :
  0 <= 2 <= sum_list [3; 0] - 1
  /\ locate_step [3; 0] (sum_list [3; 0] - 1) = Some (0, 2)
  /\ locate_step [3; 0] (sum_list [3; 0] - 1)
       <> Some (Z.of_nat (length [3; 0]) - 1, last_count [3; 0] - 1).
Proof. vm_compute. repeat split; congruence. Qed.

(** ** [crtrim] *)

Section Crtrim.

Import Trim.

Lemma rtrim_snoc_trim l x : is_trim_char x = true -> rtrim (l ++ [x]) = rtrim l.
Proof.
  intros Hx. unfold rtrim. rewrite reverse_app.
  change (reverse [x]) with [x]. cbn [app drop_trim]. by rewrite Hx.
Qed.

Lemma rtrim_snoc_keep l x : is_trim_char x = false -> rtrim (l ++ [x]) = l ++ [x].
Proof.
  intros Hx. unfold rtrim. rewrite reverse_app.
  change (reverse [x]) with [x]. cbn [app drop_trim]. rewrite Hx.
  by rewrite reverse_cons, reverse_involutive.
Qed.

Lemma c_str_app l tail :
  no_nul l -> c_str (l ++ NUL :: tail) = string_of_list_ascii l.
Proof.
  induction 1 as [|c l Hc _ IH]; cbn; [done|].
  destruct (Ascii.eqb_spec c NUL); [done|]. by rewrite IH.
Qed.

(** The loop on a buffer [c0 :: rest ++ NUL :: tail], entered at the last
    character of [rest]: what [std::string] then sees is [c0] followed by
    [rest] trimmed.  The character [c0] is not looked at. *)
Lemma crtrim_loop_spec c0 rest : forall tail,
  c0 <> NUL -> no_nul rest ->
  c_str (crtrim_loop (c0 :: rest ++ NUL :: tail) (length rest)
           (buf_get (c0 :: rest ++ NUL :: tail) (length rest)))
  = String c0 (string_of_list_ascii (rtrim rest)).
Proof.
  induction rest as [|x rest IH] using rev_ind; intros tail Hc0 Hrest.
  - cbn. destruct (Ascii.eqb_spec c0 NUL); [done|]. done.
  - apply Forall_app in Hrest as [Hrest Hx].
    rewrite length_app. cbn [length]. rewrite Nat.add_1_r.
    cbn [crtrim_loop].
    assert (Hget : buf_get (c0 :: (rest ++ [x]) ++ NUL :: tail)
                     (S (length rest)) = x).
    { unfold buf_get. cbn [nth]. rewrite <- app_assoc.
      rewrite app_nth2 by lia. by rewrite Nat.sub_diag. }
    rewrite Hget. destruct (is_trim_char x) eqn:Htrim.
    + rewrite rtrim_snoc_trim by done.
      assert (Hins : <[S (length rest) := NUL]>
                       (c0 :: (rest ++ [x]) ++ NUL :: tail)
                     = c0 :: rest ++ NUL :: NUL :: tail).
      { change (<[S (length rest) := NUL]>
                  (c0 :: (rest ++ [x]) ++ NUL :: tail))
          with (c0 :: <[length rest := NUL]> ((rest ++ [x]) ++ NUL :: tail)).
        f_equal. rewrite <- app_assoc.
        rewrite insert_app_r_alt by lia. by rewrite Nat.sub_diag. }
      rewrite Hins. by apply IH.
    + rewrite rtrim_snoc_keep by done.
      change (c0 :: (rest ++ [x]) ++ NUL :: tail)
        with ((c0 :: rest ++ [x]) ++ NUL :: tail).
      rewrite c_str_app; [done|].
      constructor; [done|]. by apply Forall_app.
Qed.

(** What is stored for a character attribute without NUL characters: its
    first character, then the rest of the text right-trimmed. *)
Lemma read_char_att_keeps_first c0 rest :
  no_nul (c0 :: rest) ->
  read_char_att (c0 :: rest)
  = String c0 (string_of_list_ascii (rtrim rest)).
Proof.
  intros Hnn. inversion Hnn as [|? ? Hc0 Hrest]; subst.
  unfold read_char_att. cbn [length crtrim].
  change ((c0 :: rest) ++ [NUL]) with (c0 :: rest ++ NUL :: []).
  by apply crtrim_loop_spec.
Qed.

(** Hence the stored string is the right-trimmed text whenever the text
    holds a character that is kept, and is not when the text is blank. *)
Lemma rtrim_cons_keep c0 rest :
  rtrim rest <> [] -> rtrim (c0 :: rest) = c0 :: rtrim rest.
Proof.
  induction rest as [|x rest IH] using rev_ind; [done|].
  destruct (is_trim_char x) eqn:Hx.
  - rewrite rtrim_snoc_trim by done. intros Hne.
    change (c0 :: rest ++ [x]) with ((c0 :: rest) ++ [x]).
    rewrite rtrim_snoc_trim by done. by apply IH.
  - intros _. change (c0 :: rest ++ [x]) with ((c0 :: rest) ++ [x]).
    by rewrite !rtrim_snoc_keep.
Qed.

Lemma read_char_att_rtrim text :
  no_nul text -> rtrim text <> [] ->
  read_char_att text = string_of_list_ascii (rtrim text).
Proof.
  destruct text as [|c0 rest]; [done|]. intros Hnn Hne.
  rewrite read_char_att_keeps_first by done.
  destruct (decide (rtrim rest = [])) as [Hrest|Hrest].
  - rewrite Hrest.
    assert (Hc : rtrim (c0 :: rest) = [c0]).
    { revert Hne Hrest. clear Hnn.
      induction rest as [|x rest IH] using rev_ind.
      - unfold rtrim. cbn. by destruct (is_trim_char c0).
      - destruct (is_trim_char x) eqn:Hx.
        + rewrite rtrim_snoc_trim by done.
          change (c0 :: rest ++ [x]) with ((c0 :: rest) ++ [x]).
          rewrite rtrim_snoc_trim by done. apply IH.
        + by rewrite rtrim_snoc_keep by done; destruct rest. }
    by rewrite Hc.
  - by rewrite rtrim_cons_keep.
Qed.

End Crtrim.

(** C7: the loop of [crtrim] never looks at the first character, so an
    attribute whose text is blank keeps a blank, where right trimming
    leaves the empty string. *)
Theorem read_char_att_blank :
  Trim.read_char_att [" "%char] = " "
  /\ Trim.read_char_att [" "%char; " "%char; " "%char] = " "
  /\ Trim.rtrim [" "%char] = []
  /\ Trim.rtrim [" "%char; " "%char; " "%char] = [].
Proof. repeat split. Qed.

(** ** The loop over the requested arrays *)

Section ReadArrays.

Context {R : Type}.
Variables (env : environment) (file_id : Z) (atrs : teca_metadata).
Variables (mesh_dim_names : list string) (starts counts : list Z).
Variable mesh_size : Z.

Local Abbreviation loop := (read_arrays (R := R) env file_id atrs mesh_dim_names
                              starts counts mesh_size).

(** An array whose metadata is incomplete is skipped. *)
Lemma read_arrays_metadata_issue name rest attached s :
  array_metadata atrs name = None ->
  loop (name :: rest) attached s
  = loop rest attached (logged s (E_metadata_issue name)).
Proof.
  unfold read_arrays. intros Hmd. cbn [for_loop].
  by rewrite Hmd.
Qed.

(** An array whose dimensions are not those of the mesh is skipped. *)
Lemma read_arrays_dimension_mismatch name rest attached s type id dim_names :
  array_metadata atrs name = Some (type, id, dim_names) ->
  is_mesh_variable dim_names mesh_dim_names = false ->
  loop (name :: rest) attached s
  = loop rest attached (logged s (E_dimension_mismatch name)).
Proof.
  unfold read_arrays. intros Hmd Hmesh. cbn [for_loop].
  by rewrite Hmd, Hmesh.
Qed.

(** An array whose read fails is skipped. *)
Lemma read_arrays_read_failure name rest attached s type id dim_names t :
  array_metadata atrs name = Some (type, id, dim_names) ->
  is_mesh_variable dim_names mesh_dim_names = true ->
  NC_DISPATCH type = Some t ->
  nc_file_of (fs env) (lib s) file_id ≫= get_vara id starts counts = None ->
  loop (name :: rest) attached s
  = loop rest attached (logged s (E_failed_to_read name)).
Proof.
  unfold read_arrays. intros Hmd Hmesh Hkind Hread.
  cbn [for_loop]. rewrite Hmd, Hmesh, Hkind. cbn [negb].
  unfold bind at 1. unfold bind at 1. unfold nc_call at 1.
  unfold bind at 1. cbn [get_lib ret]. by rewrite Hread.
Qed.

(** An array that is read is attached. *)
Lemma read_arrays_success name rest attached s type id dim_names t vals :
  array_metadata atrs name = Some (type, id, dim_names) ->
  is_mesh_variable dim_names mesh_dim_names = true ->
  NC_DISPATCH type = Some t ->
  nc_file_of (fs env) (lib s) file_id ≫= get_vara id starts counts
    = Some vals ->
  loop (name :: rest) attached s
  = loop rest
      (attached ++ [(name, Some (va_fill (va_new t mesh_size) vals))]) s.
Proof.
  unfold read_arrays. intros Hmd Hmesh Hkind Hread.
  cbn [for_loop]. rewrite Hmd, Hmesh, Hkind. cbn [negb].
  unfold bind at 1. unfold bind at 1. unfold nc_call at 1.
  unfold bind at 1. cbn [get_lib ret]. by rewrite Hread.
Qed.

(** An array whose type code has no case in [NC_DISPATCH] is attached all
    the same, as a null array. *)
Lemma read_arrays_unsupported_step name rest attached s type id dim_names :
  array_metadata atrs name = Some (type, id, dim_names) ->
  is_mesh_variable dim_names mesh_dim_names = true ->
  NC_DISPATCH type = None ->
  loop (name :: rest) attached s
  = loop rest (attached ++ [(name, None)]) (logged s (E_not_supported type)).
Proof.
  unfold read_arrays. intros Hmd Hmesh Hkind. cbn [for_loop].
  by rewrite Hmd, Hmesh, Hkind.
Qed.

(** The loop runs to its end, whatever the request: it adds to the point
    arrays and to the log, and touches nothing else. *)
Lemma read_arrays_runs (arrays : list string) :
  forall attached s,
  exists added msgs s',
    loop arrays attached s = (Next (attached ++ added), s')
    /\ sublist added.*1 arrays
    /\ log s' = log s ++ msgs
    /\ reader s' = reader s /\ lib s' = lib s.
Proof.
  induction arrays as [|name rest IH]; intros attached s.
  - exists [], [], s. rewrite !app_nil_r. repeat split; constructor.
  - destruct (array_metadata atrs name) as [[[type id] dim_names]|] eqn:Hmd.
    2: { rewrite (read_arrays_metadata_issue name rest attached s Hmd).
         destruct (IH attached (logged s (E_metadata_issue name)))
           as (added & msgs & s' & -> & Hsub & Hlog & Hr & Hl).
         exists added, (E_metadata_issue name :: msgs), s'.
         split; [done|]. split; [by constructor|].
         split; [|done]. rewrite Hlog. cbn. by rewrite <- app_assoc. }
    destruct (is_mesh_variable dim_names mesh_dim_names) eqn:Hmesh.
    2: { rewrite (read_arrays_dimension_mismatch name rest attached s type id
                    dim_names Hmd Hmesh).
         destruct (IH attached (logged s (E_dimension_mismatch name)))
           as (added & msgs & s' & -> & Hsub & Hlog & Hr & Hl).
         exists added, (E_dimension_mismatch name :: msgs), s'.
         split; [done|]. split; [by constructor|].
         split; [|done]. rewrite Hlog. cbn. by rewrite <- app_assoc. }
    destruct (NC_DISPATCH type) as [t|] eqn:Hkind.
    + destruct (nc_file_of (fs env) (lib s) file_id
                  ≫= get_vara id starts counts) as [vals|] eqn:Hread.
      * rewrite (read_arrays_success name rest attached s type id dim_names t
                   vals Hmd Hmesh Hkind Hread).
        destruct (IH (attached
                      ++ [(name, Some (va_fill (va_new t mesh_size) vals))]) s)
          as (added & msgs & s' & -> & Hsub & Hlog & Hr & Hl).
        exists ((name, Some (va_fill (va_new t mesh_size) vals)) :: added),
          msgs, s'.
        split; [by rewrite <- app_assoc|]. split; [by constructor|done].
      * rewrite (read_arrays_read_failure name rest attached s type id
                   dim_names t Hmd Hmesh Hkind Hread).
        destruct (IH attached (logged s (E_failed_to_read name)))
          as (added & msgs & s' & -> & Hsub & Hlog & Hr & Hl).
        exists added, (E_failed_to_read name :: msgs), s'.
        split; [done|]. split; [by constructor|].
        split; [|done]. rewrite Hlog. cbn. by rewrite <- app_assoc.
    + rewrite (read_arrays_unsupported_step name rest attached s type id
                 dim_names Hmd Hmesh Hkind).
      destruct (IH (attached ++ [(name, None)])
                  (logged s (E_not_supported type)))
        as (added & msgs & s' & -> & Hsub & Hlog & Hr & Hl).
      exists ((name, None) :: added), (E_not_supported type :: msgs), s'.
      split; [by rewrite <- app_assoc|]. split; [by constructor|].
      split; [|done]. rewrite Hlog. cbn. by rewrite <- app_assoc.
Qed.

End ReadArrays.

(** A loop over [l1 ++ l2] is the loop over [l1] followed by the loop over
    [l2]. *)
Lemma for_loop_app {R Acc A} (l1 l2 : list A) (acc : Acc)
    (body : A -> Acc -> M (loop_exit R Acc) Acc) s :
  for_loop (l1 ++ l2) acc body s
  = match for_loop l1 acc body s with
    | (Next acc1, s1) => for_loop l2 acc1 body s1
    | (Return r, s1) => (Return r, s1)
    | (Fault, s1) => (Fault, s1)
    | (Raise e, s1) => (Raise e, s1)
    end.
Proof.
  revert acc s. induction l1 as [|a l1 IH]; intros acc s; [done|].
  cbn [app for_loop].
  destruct (body a acc s) as [[acc1|[acc1|r]| |e] s1]; auto.
Qed.

(** C10.  Wherever in the request an array stands whose recorded type code
    is outside the cases of [NC_DISPATCH], the loop runs to its end, the
    point arrays it hands back hold a null array under the requested name,
    after what the arrays before it have added and before what the arrays
    after it add, and the log holds the error, after the messages of the
    arrays before it. *)
Theorem read_arrays_unsupported_kind {R} env file_id atrs mesh_dim_names
    starts counts mesh_size before name rest attached s type id dim_names :
  array_metadata atrs name = Some (type, id, dim_names) ->
  is_mesh_variable dim_names mesh_dim_names = true ->
  NC_DISPATCH type = None ->
  exists earlier later msgs msgs' s',
    read_arrays (R := R) env file_id atrs mesh_dim_names starts counts
      mesh_size (before ++ name :: rest) attached s
    = (Next (attached ++ earlier ++ (name, None) :: later), s')
    /\ sublist earlier.*1 before
    /\ sublist later.*1 rest
    /\ log s' = log s ++ msgs ++ E_not_supported type :: msgs'
    /\ reader s' = reader s /\ lib s' = lib s.
Proof.
  intros Hmd Hmesh Hkind.
  destruct (read_arrays_runs (R := R) env file_id atrs mesh_dim_names starts
              counts mesh_size before attached s)
    as (earlier & msgs & s1 & Hrun1 & Hsub1 & Hlog1 & Hr1 & Hl1).
  destruct (read_arrays_runs (R := R) env file_id atrs mesh_dim_names starts
              counts mesh_size rest
              ((attached ++ earlier) ++ [(name, None)])
              (logged s1 (E_not_supported type)))
    as (later & msgs' & s' & Hrun2 & Hsub2 & Hlog2 & Hr2 & Hl2).
  exists earlier, later, msgs, msgs', s'.
  split.
  { unfold read_arrays in *. rewrite for_loop_app, Hrun1.
    fold (read_arrays (R := R) env file_id atrs mesh_dim_names starts counts
            mesh_size (name :: rest) (attached ++ earlier) s1).
    rewrite (read_arrays_unsupported_step env file_id atrs mesh_dim_names
               starts counts mesh_size name rest (attached ++ earlier) s1
               type id dim_names Hmd Hmesh Hkind).
    unfold read_arrays. rewrite Hrun2. by rewrite <- !app_assoc. }
  split; [done|]. split; [done|].
  split; [|split; [by rewrite Hr2|by rewrite Hl2]].
  rewrite Hlog2. cbn [logged log]. rewrite Hlog1.
  by rewrite <- !app_assoc.
Qed.

Lemma read_arrays_unsupported_kind_witness :
  exists earlier later msgs msgs' s',
    read_arrays (R := unit) Sample.two_files 65539
      [("label", MdBag Sample.label_atts)] ["time"; "lat"; "lon"]
      [0; 0; 0] [1; 3; 4] 12 (["does_not_exist"] ++ "label" :: ["tas"]) []
      (Sample.start Sample.reader_2d)
    = (Next ([] ++ earlier ++ ("label", None) :: later), s')
    /\ sublist earlier.*1 ["does_not_exist"]
    /\ sublist later.*1 ["tas"]
    /\ log s'
       = log (Sample.start Sample.reader_2d)
         ++ msgs ++ E_not_supported NC_STRING :: msgs'
    /\ reader s' = reader (Sample.start Sample.reader_2d)
    /\ lib s' = lib (Sample.start Sample.reader_2d).
Proof.
  apply (read_arrays_unsupported_kind (R := unit) Sample.two_files 65539
           [("label", MdBag Sample.label_atts)] ["time"; "lat"; "lon"]
           [0; 0; 0] [1; 3; 4] 12 ["does_not_exist"] "label" ["tas"] []
           (Sample.start Sample.reader_2d)
           NC_STRING 4 ["time"; "lat"; "lon"]);
    reflexivity.
Defined.

(** C5: a request for an array without metadata and for [label], whose
    type code NC_STRING has no case in [NC_DISPATCH].  The first is skipped,
    but the mesh that comes back carries an entry for [label] (a null
    array) although no array was read. *)
Theorem execute_attaches_failed_array :
  exists mesh s',
    execute Sample.two_files
      [("arrays", md_strings ["does_not_exist"; "label"])]
      Sample.after_metadata = (Next (Some mesh), s')
    /\ point_arrays mesh = [("label", None)]
    /\ log s' = [E_metadata_issue "does_not_exist";
                 E_not_supported NC_STRING].
Proof. vm_compute. eexists _, _. repeat split. Qed.

(** ** The [coordinates] bag *)

(** C2: with all four axes configured, [y_variable] and [t_variable] hold
    the name of the z axis; with the z axis not configured they hold ["y"]
    and ["t"].  Neither is the configured name. *)
Theorem coordinates_names_from_z_axis :
  (exists md s',
     get_output_metadata Sample.two_files [0; 1]%nat
       (Sample.start Sample.reader_3d) = (Next md, s')
     /\ log s' = []
     /\ y_axis_variable Sample.reader_3d = "lat"
     /\ t_axis_variable Sample.reader_3d = "time"
     /\ coordinate_name "x_variable" md = Some "lon"
     /\ coordinate_name "y_variable" md = Some "plev"
     /\ coordinate_name "z_variable" md = Some "plev"
     /\ coordinate_name "t_variable" md = Some "plev")
  /\ (exists md s',
     get_output_metadata Sample.two_files [0; 1]%nat
       (Sample.start Sample.reader_2d) = (Next md, s')
     /\ log s' = []
     /\ y_axis_variable Sample.reader_2d = "lat"
     /\ t_axis_variable Sample.reader_2d = "time"
     /\ coordinate_name "y_variable" md = Some "y"
     /\ coordinate_name "t_variable" md = Some "t").
Proof. split; vm_compute; eexists _, _; repeat split. Qed.

(** ** Reasoning about control flow *)


Section WP.

Context {R : Type}.

Lemma wp_mono {A} (m : M R A) s (Q Q' : flow R A -> state -> Prop) :
  wp m s Q -> (forall f s', Q f s' -> Q' f s') -> wp m s Q'.
Proof. unfold wp. auto. Qed.

Lemma wp_bind {A B} (m : M R A) (k : A -> M R B) s Q :
  wp m s (fun f s1 =>
    match f with
    | Next a => wp (k a) s1 Q
    | Return r => Q (Return r) s1
    | Fault => Q Fault s1
    | Raise e => Q (Raise e) s1
    end) ->
  wp (bind m k) s Q.
Proof. unfold wp, bind. destruct (m s) as [[a|r| |e] s1]; auto. Qed.

Lemma wp_call {R'} (body : M R' R') s (Q : flow R R' -> state -> Prop) :
  wp body s (fun f s1 =>
    match f with
    | Next a | Return a => Q (Next a) s1
    | Fault => Q Fault s1
    | Raise e => Q (Raise e) s1
    end) ->
  wp (call body) s Q.
Proof. unfold wp, call. destruct (body s) as [[a|r| |e] s1]; auto. Qed.

Lemma wp_for_loop {Acc A} (Inv : Acc -> state -> Prop) (l : list A) acc
    (body : A -> Acc -> M (loop_exit R Acc) Acc) s Q :
  Inv acc s ->
  (forall a acc s, a ∈ l -> Inv acc s ->
     wp (body a acc) s (fun f s1 =>
       match f with
       | Next acc1 | Return (Continue acc1) => Inv acc1 s1
       | Return (Exit r) => Q (Return r) s1
       | Fault => Q Fault s1
       | Raise e => Q (Raise e) s1
       end)) ->
  (forall acc s, Inv acc s -> Q (Next acc) s) ->
  wp (for_loop l acc body) s Q.
Proof.
  intros Hinv Hbody Hend. revert acc s Hinv.
  induction l as [|a l IH]; intros acc s Hinv.
  - apply Hend, Hinv.
  - unfold wp. cbn [for_loop].
    pose proof (Hbody a acc s ltac:(left) Hinv) as Hb. unfold wp in Hb.
    destruct (body a acc s) as [[acc1|[acc1|r]| |e] s1]; cbn [fst snd] in *;
      try done.
    + apply IH; [|done]. intros. apply Hbody; [by right|done].
    + apply IH; [|done]. intros. apply Hbody; [by right|done].
Qed.

End WP.


Section Primitives.

Context {R : Type}.

Lemma wp_ret {A} (a : A) s (Q : flow R A -> state -> Prop) :
  Q (Next a) s -> wp (ret a) s Q.
Proof. done. Qed.

Lemma wp_return {A} (r : R) s (Q : flow R A -> state -> Prop) :
  Q (Return r) s -> wp (return_ r) s Q.
Proof. done. Qed.

Lemma wp_continue {R' Acc A} (acc : Acc) s
    (Q : flow (loop_exit R' Acc) A -> state -> Prop) :
  Q (Return (Continue acc)) s -> wp (continue acc) s Q.
Proof. done. Qed.

Lemma wp_exit {R' Acc A} (r : R') s
    (Q : flow (loop_exit R' Acc) A -> state -> Prop) :
  Q (Return (Exit r)) s -> wp (exit r) s Q.
Proof. done. Qed.

Lemma wp_fault {A} s (Q : flow R A -> state -> Prop) :
  Q Fault s -> wp fault s Q.
Proof. done. Qed.

Lemma wp_try {A} (x : container_error + A) s (Q : flow R A -> state -> Prop) :
  match x with inl e => Q (Raise e) s | inr a => Q (Next a) s end ->
  wp (try x) s Q.
Proof. unfold wp, try. by destruct x. Qed.

Lemma wp_get_reader s (Q : flow R _ -> state -> Prop) :
  Q (Next (reader s)) s -> wp get_reader s Q.
Proof. done. Qed.

Lemma wp_get_lib s (Q : flow R _ -> state -> Prop) :
  Q (Next (lib s)) s -> wp get_lib s Q.
Proof. done. Qed.

Lemma wp_get_metadata s (Q : flow R _ -> state -> Prop) :
  Q (Next (metadata (internals (reader s)))) s -> wp get_metadata s Q.
Proof. done. Qed.

Lemma wp_get_handles s (Q : flow R _ -> state -> Prop) :
  Q (Next (handles (internals (reader s)))) s -> wp get_handles s Q.
Proof. done. Qed.

Lemma wp_TECA_ERROR m s (Q : flow R _ -> state -> Prop) :
  Q (Next tt) {| reader := reader s; lib := lib s; log := log s ++ [m] |} ->
  wp (TECA_ERROR m) s Q.
Proof. done. Qed.

Lemma wp_set_lib l s (Q : flow R _ -> state -> Prop) :
  Q (Next tt) {| reader := reader s; lib := l; log := log s |} ->
  wp (set_lib l) s Q.
Proof. done. Qed.

Lemma wp_set_metadata m s (Q : flow R _ -> state -> Prop) :
  Q (Next tt)
    {| reader := with_internals (reader s)
                   {| metadata := m; handles := handles (internals (reader s)) |};
       lib := lib s; log := log s |} ->
  wp (set_metadata m) s Q.
Proof. done. Qed.

Lemma wp_set_handles h s (Q : flow R _ -> state -> Prop) :
  Q (Next tt)
    {| reader := with_internals (reader s)
                   {| metadata := metadata (internals (reader s)); handles := h |};
       lib := lib s; log := log s |} ->
  wp (set_handles h) s Q.
Proof. done. Qed.

Lemma wp_nc_call {A} env file_id (q : nc_file -> option A) s
    (Q : flow R _ -> state -> Prop) :
  Q (Next (nc_file_of (fs env) (lib s) file_id ≫= q)) s ->
  wp (nc_call env file_id q) s Q.
Proof. done. Qed.

End Primitives.

Ltac wp_prim :=
  lazymatch goal with
  | |- wp (ret _) _ _ => apply wp_ret
  | |- wp (return_ _) _ _ => apply wp_return
  | |- wp (continue _) _ _ => apply wp_continue
  | |- wp (exit _) _ _ => apply wp_exit
  | |- wp fault _ _ => apply wp_fault
  | |- wp (try _) _ _ => apply wp_try
  | |- wp get_reader _ _ => apply wp_get_reader
  | |- wp get_lib _ _ => apply wp_get_lib
  | |- wp get_metadata _ _ => apply wp_get_metadata
  | |- wp get_handles _ _ => apply wp_get_handles
  | |- wp (TECA_ERROR _) _ _ => apply wp_TECA_ERROR
  | |- wp (set_lib _) _ _ => apply wp_set_lib
  | |- wp (set_metadata _) _ _ => apply wp_set_metadata
  | |- wp (set_handles _) _ _ => apply wp_set_handles
  | |- wp (nc_call _ _ _) _ _ => apply wp_nc_call
  end.

(** One step through a primitive command, bound or last. *)
Ltac wp_step :=
  lazymatch goal with
  | |- wp (bind _ _) _ _ => apply wp_bind; wp_prim
  | |- wp _ _ _ => wp_prim
  end;
  cbv beta iota.
Ltac wp_steps := repeat wp_step.

(** Through a command with a proved outcome. *)
Ltac wp_use lem :=
  lazymatch goal with
  | |- wp (bind _ _) _ _ => apply wp_bind; eapply wp_mono; [apply lem|]
  | |- wp _ _ _ => eapply wp_mono; [apply lem|]
  end;
  cbv beta iota.

(** Forget the state reached so far, keeping that the log has not shrunk
    since [s0]. *)
Ltac wp_forget s0 :=
  lazymatch goal with
  | |- wp _ ?st _ =>
      let H := fresh "Hle" in
      let E := fresh "E" in
      let s' := fresh "s" in
      assert (H : log_le s0 st)
        by (repeat match goal with
                   | H : log _ = _ |- _ => apply (f_equal (@length message)) in H
                   end;
            cbn [reader lib log] in *; unfold log_le, log_lt in *;
            cbn [reader lib log] in *; rewrite ?length_app in *;
            cbn [length] in *; lia);
      remember st as s' eqn:E; clear E
  end.

Ltac log_solve :=
  repeat match goal with
         | H : log _ = _ |- _ => apply (f_equal (@length message)) in H
         end;
  cbn [reader lib log] in *; unfold log_le, log_lt in *;
  cbn [reader lib log] in *; rewrite ?length_app in *; cbn [length] in *; lia.

Lemma clear_handles_steady {R} s :
  wp (clear_handles (R := R)) s (fun f s' =>
    f = Next tt /\ log s' = log s).
Proof. unfold clear_handles. wp_steps. done. Qed.

Lemma clear_cached_metadata_steady {R} s :
  wp (clear_cached_metadata (R := R)) s (fun f s' =>
    f = Next tt /\ log s' = log s).
Proof.
  unfold clear_cached_metadata. wp_step.
  wp_use @clear_handles_steady. by intros f s' [-> ->].
Qed.

Lemma initialize_handles_steady {R} files s :
  wp (initialize_handles (R := R) files) s (fun f s' =>
    f = Next tt /\ log s' = log s).
Proof.
  unfold initialize_handles.
  wp_use @clear_handles_steady.
  intros f s1 [-> Hlog]. apply wp_bind.
  apply (wp_for_loop (fun _ s' => log s' = log s)); [done| |].
  - intros file [] s2 _ Hs2. wp_steps. done.
  - intros [] s2 Hs2. wp_steps. done.
Qed.

Lemma get_handle_steady {R} env path file s :
  wp (get_handle (R := R) env path file) s (steady s).
Proof.
  unfold get_handle. apply wp_call. wp_step.
  destruct (handles (internals (reader s)) !! file) as [[mu [hd|]]|];
    cbn [snd]; wp_steps; [split; [log_solve|done]| |split; [log_solve|done]].
  unfold nc_open. destruct (fs env _); wp_steps; (split; [log_solve|done]).
Qed.

Lemma close_handle_steady {R} file s :
  wp (close_handle (R := R) file) s (steady s).
Proof.
  unfold close_handle. wp_step.
  destruct (handles (internals (reader s)) !! file) as [e|]; wp_steps;
    (split; [log_solve|done]).
Qed.

Lemma read_variable_steady {R} env path file id variable s :
  wp (read_variable (R := R) env path file id variable) s (fun f s' =>
    steady s f s' /\ forall r, f = Next r -> r.1 = id).
Proof.
  unfold read_variable. apply wp_call.
  wp_use @get_handle_steady.
  intros f s1 [Hle Hf]. destruct f as [[ierr file_id]|r| |e]; try done;
    [|by split; [split|]..].
  destruct (negb (ierr =? 0)).
  { wp_steps. split; [split; [log_solve|done]|]. by intros r [= <-]. }
  wp_step.
  destruct (nc_file_of (fs env) (lib s1) file_id ≫= inq_axis variable)
    as [[[var_id var_size] var_type]|].
  2: { wp_use @close_handle_steady.
       intros f s2 [Hle2 Hf2]. destruct f; try done;
         [|by split; [split; [log_solve|done]|]..].
       wp_steps. split; [split; [log_solve|done]|]. by intros r [= <-]. }
  apply wp_bind.
  destruct (NC_DISPATCH_FP var_type) as [t|].
  - wp_step.
    destruct (nc_file_of (fs env) (lib s1) file_id ≫= _) as [vals|].
    + wp_use @close_handle_steady.
      intros f s2 [Hle2 Hf2]. destruct f; try done;
        [|by split; [split; [log_solve|done]|]..].
      wp_steps. split; [split; [log_solve|done]|]. by intros r [= <-].
    + wp_use @close_handle_steady.
      intros f s2 [Hle2 Hf2]. destruct f; try done;
        [|by split; [split; [log_solve|done]|]..].
      wp_steps. split; [split; [log_solve|done]|]. by intros r [= <-].
  - wp_step.
    wp_use @close_handle_steady.
    intros f s2 [Hle2 Hf2]. destruct f; try done;
      [|by split; [split; [log_solve|done]|]..].
    wp_steps. split; [split; [log_solve|done]|]. by intros r [= <-].
Qed.

Lemma read_attributes_quiet env file_id i n_atts atts s :
  wp (read_attributes env file_id i n_atts atts) s (fun f s' =>
    log_le s s' /\
    match f with
    | Return (Exit r) => r = []
    | Return (Continue _) => False
    | _ => True
    end).
Proof.
  unfold read_attributes.
  apply (wp_for_loop (fun _ s' => log_le s s')); [log_solve| |done].
  intros ii acc s1 _ Hle. wp_step.
  destruct (nc_file_of (fs env) (lib s1) file_id ≫= _)
    as [[att_name [att_type att_len]]|].
  - destruct (att_type =? NC_CHAR); wp_steps; done.
  - wp_use @clear_cached_metadata_steady. intros f s2 [-> Hlog].
    wp_steps. split; [log_solve|done].
Qed.

Lemma enumerate_variables_quiet env file_id t_axis n_vars s :
  wp (enumerate_variables env file_id t_axis n_vars) s (quiet s).
Proof.
  unfold enumerate_variables.
  apply (wp_for_loop (fun _ s' => log_le s s')); [log_solve| |done].
  intros i [[atrs vars] time_vars] s1 _ Hle. wp_step.
  destruct (nc_file_of (fs env) (lib s1) file_id ≫= _) as [v|].
  2: { wp_use @clear_cached_metadata_steady. intros f s2 [-> Hlog].
       wp_steps. split; [log_solve|done]. }
  destruct (decide (length (var_dim_ids v) = 0%nat)); [by wp_steps|].
  apply wp_bind.
  apply (wp_for_loop (fun _ s' => log_le s s')); [done| |].
  - intros [ii dim_id] [dims dim_names] s2 _ Hle2. wp_step.
    destruct (nc_file_of (fs env) (lib s2) file_id ≫= _) as [[dim_name dim]|].
    + by wp_steps.
    + wp_use @clear_cached_metadata_steady. intros f s3 [-> Hlog].
      wp_steps. split; [log_solve|done].
  - intros [dims dim_names] s2 Hle2.
    wp_use read_attributes_quiet. intros f s3 [Hle3 Hf].
    destruct f as [atts|[?|r]| |e]; try done.
    + wp_steps. log_solve.
    + split; [log_solve|done].
    + split; [log_solve|done].
    + split; [log_solve|done].
Qed.

(** ** Sizes of variant arrays *)

Lemma va_size_new t n : va_size (va_new t n) = Z.of_nat (Z.to_nat n).
Proof. unfold va_new, va_size. by rewrite length_replicate. Qed.

Lemma va_size_fill a vals : va_size (va_fill a vals) = va_size a.
Proof.
  destruct a as [t d|d]; cbn; [|done].
  rewrite length_take, length_app, length_drop. lia.
Qed.

Lemma va_size_append a b c :
  va_append a b = inr c -> va_size c = va_size a + va_size b.
Proof.
  destruct a as [t d|d], b as [t' d'|d']; cbn; try done.
  - destruct (decide (t = t')); [|done].
    intros [= <-]. cbn. rewrite length_app. lia.
  - intros [= <-]. cbn. rewrite length_app. lia.
Qed.

Lemma read_axis_quiet env file_id id n tc err s :
  wp (read_axis env file_id id n tc err) s (fun f s' =>
    quiet s f s' /\
    forall a, f = Next a ->
      match a with
      | Some x => va_size x = Z.of_nat (Z.to_nat n)
      | None => log_lt s s'
      end).
Proof.
  unfold read_axis. destruct (NC_DISPATCH_FP tc) as [t|].
  - wp_step. destruct (nc_file_of (fs env) (lib s) file_id ≫= _) as [vals|].
    + wp_steps. split; [split; [log_solve|done]|].
      intros a Ha.
      assert (a = Some (va_fill (va_new t n) vals)) as -> by congruence.
      by rewrite va_size_fill, va_size_new.
    + wp_use @clear_cached_metadata_steady. intros f s1 [-> Hlog].
      wp_steps. split; [split; [log_solve|done]|done].
  - wp_steps. split; [split; [log_solve|done]|].
    intros a [= <-]. log_solve.
Qed.

Lemma default_axis_steady {R} x_t s :
  wp (default_axis (R := R) x_t) s (fun f s' =>
    steady s f s' /\
    forall a, f = Next a ->
      match a with
      | Some x => va_size x = 1
      | None => log_lt s s'
      end).
Proof.
  unfold default_axis. destruct (NC_DISPATCH_FP x_t) as [t|]; wp_steps.
  - split; [split; [log_solve|done]|]. by intros a [= <-].
  - split; [split; [log_solve|done]|]. intros a [= <-]. log_solve.
Qed.

Lemma append_time_arrays_spec {R} time_arrays indices t0 sc0 s :
  wp (append_time_arrays (R := R) time_arrays indices t0 sc0) s (fun f s' =>
    s' = s /\
    match f with
    | Next (t, sc) =>
        va_size t - sum_list sc = va_size t0 - sum_list sc0
        /\ length sc = (length sc0 + length indices)%nat
    | Return _ => False
    | _ => True
    end).
Proof.
  revert t0 sc0. induction indices as [|i rest IH]; intros t0 sc0;
    cbn [append_time_arrays].
  - wp_steps. split; [done|]. cbn. split; lia.
  - destruct (map_at time_arrays i) as [tmp|]; [|by wp_steps].
    wp_step. destruct (va_append t0 tmp) as [e|t1] eqn:Happ; [done|].
    eapply wp_mono; [apply IH|]. intros f s' [-> Hf]. split; [done|].
    destruct f as [[t sc]|r| |e]; try done.
    destruct Hf as [Hsz Hlen].
    apply va_size_append in Happ.
    rewrite sum_list_app, length_app in *. cbn in *. split; lia.
Qed.

Lemma assemble_time_axis_quiet time_arrays n_files s :
  wp (assemble_time_axis time_arrays n_files) s (fun f s' =>
    quiet s f s' /\
    forall t sc, f = Next (t, sc) ->
      exists t', t = Some t' /\ sum_list sc = va_size t'
                 /\ length sc = S (n_files - 1)).
Proof.
  unfold assemble_time_axis. destruct (map_at time_arrays 0) as [t0|].
  - wp_use @append_time_arrays_spec. intros f s' [-> Hf].
    destruct f as [[t sc]|r| |e]; try done;
      [|by split; [split; [log_solve|]|]..].
    wp_steps. split; [split; [log_solve|done]|].
    intros ? ? [= <- <-]. exists t. destruct Hf as [Hsz Hlen].
    rewrite length_seq in Hlen. cbn in *. split; [done|]. split; lia.
  - wp_steps. split; [split; [log_solve|done]|done].
Qed.

Lemma read_time_axis_quiet env order path files t_axis s :
  wp (read_time_axis env order path files t_axis) s (fun f s' =>
    quiet s f s' /\
    forall t sc, f = Next (t, sc) ->
      exists t', t = Some t' /\ sum_list sc = va_size t'
                 /\ length sc = S (length files - 1)).
Proof.
  unfold read_time_axis. apply wp_bind.
  apply (wp_for_loop (fun _ s' => log_le s s')); [log_solve| |].
  - intros [i file] results s1 _ Hle.
    wp_use @read_variable_steady. intros f s2 [[Hle2 Hf] _].
    destruct f; try done; [wp_steps; log_solve|..];
      (split; [split; [log_solve|done]|done]).
  - intros results s1 Hle.
    eapply wp_mono; [apply assemble_time_axis_quiet|].
    intros f s2 [[Hle2 Hf] Hnext]. split; [split; [log_solve|done]|done].
Qed.

(** The loop over the requested arrays always runs to its end: no array,
    whatever goes wrong with it, makes the phase stop. *)
Lemma read_arrays_total {R} env file_id atrs mesh_dim_names starts counts
    mesh_size arrays attached s :
  wp (read_arrays (R := R) env file_id atrs mesh_dim_names starts counts
        mesh_size arrays attached) s
     (fun f s' => (exists point_arrays, f = Next point_arrays)
                  /\ reader s' = reader s /\ lib s' = lib s).
Proof.
  unfold read_arrays.
  apply (wp_for_loop (fun _ s' => reader s' = reader s /\ lib s' = lib s));
    [done| |by eauto].
  intros name acc s1 _ [Hr Hl].
  destruct (array_metadata atrs name) as [[[type id] dim_names]|];
    [|by wp_steps].
  destruct (negb (is_mesh_variable dim_names mesh_dim_names)); [by wp_steps|].
  apply wp_bind.
  destruct (NC_DISPATCH type) as [t|]; [|by wp_steps].
  wp_step.
  destruct (nc_file_of (fs env) (lib s1) file_id ≫= _); by wp_steps.
Qed.

(** ** The metadata phase *)

Lemma inq_axis_u64 (o : option nc_file) name id n t :
  o ≫= inq_axis name = Some (id, n, t) -> is_u64 n.
Proof.
  destruct o as [f|]; [|done]. cbn. unfold inq_axis.
  destruct (nc_inq_dimid f name); [|done]. cbn.
  destruct (nc_inq_dimlen f _); [|done]. cbn.
  destruct (nc_inq_varid f name); [|done]. cbn.
  destruct (nc_inq_vartype f _); [|done]. cbn.
  intros [= <- <- <-]. unfold wrap64. apply Z.mod_pos_bound. lia.
Qed.

Lemma inq_optional_axis_quiet env file_id name err s :
  wp (inq_optional_axis env file_id name err) s (fun f s' =>
    quiet s f s' /\
    forall id n t, f = Next (id, n, t) -> is_u64 n /\ (name = "" -> n = 1)).
Proof.
  unfold inq_optional_axis.
  destruct (String.eqb_spec name "") as [->|Hne]; cbn [negb].
  - wp_steps. split; [split; [log_solve|done]|]. intros ? ? ? [= <- <- <-].
    unfold is_u64. lia.
  - wp_step.
    destruct (nc_file_of (fs env) (lib s) file_id ≫= inq_axis _)
      as [[[id n] t]|] eqn:Hq.
    + apply inq_axis_u64 in Hq. wp_steps.
      split; [split; [log_solve|done]|]. intros ? ? ? [= <- <- <-].
      split; [done|done].
    + wp_use @clear_cached_metadata_steady. intros f s2 [-> Hlog2].
      wp_steps. split; [split; [log_solve|done]|done].
Qed.

Lemma read_optional_axis_quiet env file_id name id n tc x_t err s :
  is_u64 n -> (name = "" -> n = 1) ->
  wp (read_optional_axis env file_id name id n tc x_t err) s (fun f s' =>
    quiet s f s' /\
    forall a, f = Next a ->
      match a with
      | Some x => va_size x = n
      | None => log_lt s s'
      end).
Proof.
  intros Hn Hname. unfold read_optional_axis.
  destruct (String.eqb_spec name "") as [->|Hne]; cbn [negb].
  - eapply wp_mono; [apply @default_axis_steady|].
    intros f s' [[Hle Hf] Ha]. split; [split; [done|by destruct f]|].
    intros a ->. specialize (Ha a eq_refl). destruct a; [|done].
    rewrite Hname by done. done.
  - eapply wp_mono; [apply read_axis_quiet|].
    intros f s' [Hq Ha]. split; [done|].
    intros a ->. specialize (Ha a eq_refl). destruct a; [|done].
    rewrite Ha. unfold is_u64 in Hn. lia.
Qed.

(** What a run of the phase past the cache test yields: an early [return]
    carries the empty record; a run to the end leaves a [final_record]
    whose parts are related as follows. *)
Lemma compute_output_metadata_spec env order s :
  wp (compute_output_metadata env order) s (fun f s' =>
    log_le s s' /\
    match f with
    | Return r => r = []
    | Next md =>
        exists path files x_axis y_axis z_axis t step_count n_x n_y n_z md0,
          md = final_record (reader s) path files x_axis y_axis z_axis t
                 step_count n_x n_y n_z md0
          /\ sum_list step_count = va_size t
          /\ (t_axis_variable (reader s) <> "" ->
              length step_count = length files)
          /\ (t_axis_variable (reader s) = "" -> step_count = [1])
          /\ (y_axis_variable (reader s) = "" -> n_y = 1)
          /\ (z_axis_variable (reader s) = "" -> n_z = 1)
          /\ (is_u64 n_x /\ is_u64 n_y /\ is_u64 n_z)
          /\ (length (log s') = length (log s) ->
              exists x y z,
                x_axis = Some x /\ y_axis = Some y /\ z_axis = Some z
                /\ va_size x = n_x /\ va_size y = n_y /\ va_size z = n_z)
    | _ => True
    end).
Proof.
  unfold compute_output_metadata. wp_step.
  apply wp_bind.
  eapply (wp_mono _ _ (fun f s1 =>
    (exists pf, f = Next pf /\ s1 = s) \/ (f = Return [] /\ log_le s s1))).
  { destruct (negb (String.eqb (file_name (reader s)) ""));
      [wp_steps; left; by eexists|].
    destruct (locate_files env _ _); wp_steps; [left; by eexists|].
    right. split; [done|log_solve]. }
  intros f s1 [([path files] & -> & ->)|[-> Hle]]; [|done].
  destruct files as [|file0 rest]; [wp_steps; split; [log_solve|done]|].
  wp_step.
  destruct (nc_open (fs env) _ (lib s)) as [[file_id|] l1];
    [|wp_steps; split; [log_solve|done]].
  wp_step. wp_use @initialize_handles_steady. intros f s1 [-> Hlog1].
  wp_steps. wp_forget s.
  destruct (nc_file_of (fs env) (lib s0) file_id ≫= inq_axis _)
    as [[[x_id n_x] x_t]|] eqn:Hqx.
  2: { wp_use @clear_cached_metadata_steady. intros f s2 [-> Hlog2].
       wp_steps. split; [log_solve|done]. }
  apply inq_axis_u64 in Hqx.
  wp_use inq_optional_axis_quiet. intros f s2 [[Hle2 Hf2] Hy].
  destruct f as [[[y_id n_y] y_t]|r| |e]; try done;
    [|split; [log_solve|done]..].
  destruct (Hy _ _ _ eq_refl) as [Hny Hy1]. clear Hy.
  wp_use inq_optional_axis_quiet. intros f s3 [[Hle3 Hf3] Hz].
  destruct f as [[[z_id n_z] z_t]|r| |e]; try done;
    [|split; [log_solve|done]..].
  destruct (Hz _ _ _ eq_refl) as [Hnz Hz1]. clear Hz.
  wp_step.
  destruct (nc_file_of (fs env) (lib s3) file_id ≫= nc_inq_nvars) as [n_vars|].
  2: { wp_use @clear_cached_metadata_steady. intros f s4 [-> Hlog4].
       wp_steps. split; [log_solve|done]. }
  wp_use enumerate_variables_quiet. intros f s4 [Hle4 Hf4].
  destruct f as [[[atrs vars] time_vars]|r| |e]; try done;
    [|split; [log_solve|done]..].
  wp_steps. wp_forget s.
  wp_use read_axis_quiet. intros f s6 [[Hle6 Hf6] Hx].
  destruct f as [x_axis|r| |e]; try done; [|split; [log_solve|done]..].
  specialize (Hx _ eq_refl).
  wp_use read_optional_axis_quiet; [done..|]. intros f s7 [[Hle7 Hf7] Hya].
  destruct f as [y_axis|r| |e]; try done; [|split; [log_solve|done]..].
  specialize (Hya _ eq_refl).
  wp_use read_optional_axis_quiet; [done..|]. intros f s8 [[Hle8 Hf8] Hza].
  destruct f as [z_axis|r| |e]; try done; [|split; [log_solve|done]..].
  specialize (Hza _ eq_refl).
  apply wp_bind.
  eapply (wp_mono _ _ (fun f s9 =>
    quiet s8 f s9 /\
    forall t sc, f = Next (t, sc) ->
      t = None \/
      exists t', t = Some t' /\ sum_list sc = va_size t'
        /\ (t_axis_variable (reader s) <> "" ->
            length sc = length (file0 :: rest))
        /\ (t_axis_variable (reader s) = "" -> sc = [1]))).
  { destruct (String.eqb_spec (t_axis_variable (reader s)) "") as [Ht|Ht];
      cbn [negb].
    - wp_use @default_axis_steady. intros f s9 [[Hle9 Hf9] Ht0].
      destruct f as [t0|r| |e]; try done; [|split; [split|]; done..].
      wp_steps. split; [split; [log_solve|done]|].
      intros ? ? [= <- <-]. specialize (Ht0 _ eq_refl).
      destruct t0 as [t0|]; [right|by left].
      exists t0. cbn. split; [done|]. split; [lia|]. split; done.
    - eapply wp_mono; [apply read_time_axis_quiet|].
      intros f s9 [Hq Hnext]. split; [done|].
      intros t sc ->. right.
      destruct (Hnext _ _ eq_refl) as (t' & -> & Hsum & Hlen).
      exists t'. split; [done|]. split; [done|]. split; [|done].
      intros _. rewrite Hlen. cbn. lia. }
  intros f s9 [[Hle9 Hf9] Htime].
  destruct f as [[t_axis step_count]|r| |e]; try done;
    [|split; [log_solve|done]..].
  specialize (Htime _ _ eq_refl).
  wp_steps.
  destruct t_axis as [t|]; [|wp_steps; split; [log_solve|done]].
  destruct Htime as [?|(t' & [= <-] & Hsum & Hlen & Hone)]; [done|].
  wp_steps. split; [log_solve|].
  eexists path, (file0 :: rest), x_axis, y_axis, z_axis, t, step_count,
    n_x, n_y, n_z, _.
  split; [reflexivity|].
  do 5 (split; [done|]). split; [done|].
  cbn [reader lib log]. intros Hsame.
  destruct x_axis as [x|]; [|log_solve].
  destruct y_axis as [y|]; [|log_solve].
  destruct z_axis as [z|]; [|log_solve].
  exists x, y, z. rewrite Hx, Z2Nat.id by (unfold is_u64 in Hqx; lia). done.
Qed.

(** ** Lookups in a record *)

Lemma md_lookup_insert_eq k v m : md_lookup k (md_insert k v m) = Some v.
Proof.
  induction m as [|[k' v'] m IH]; cbn.
  - by rewrite String.eqb_refl.
  - destruct (String.eqb_spec k' k) as [->|Hne]; cbn.
    + by rewrite String.eqb_refl.
    + by destruct (String.eqb_spec k' k).
Qed.

Lemma md_lookup_insert_ne k k' v m :
  k <> k' -> md_lookup k (md_insert k' v m) = md_lookup k m.
Proof.
  intros Hne. induction m as [|[k0 v0] m IH]; cbn.
  - by destruct (String.eqb_spec k' k) as [->|].
  - destruct (String.eqb_spec k0 k') as [->|Hne0]; cbn.
    + destruct (String.eqb_spec k' k) as [->|]; [done|].
      by destruct (String.eqb_spec k' k).
    + by rewrite IH.
Qed.

Lemma md_nonempty_insert k v m : md_nonempty (md_insert k v m) = true.
Proof. destruct m as [|[k' v'] m]; cbn; [done|]. by destruct (String.eqb k' k). Qed.

Ltac md_lookup_solve :=
  repeat first [ rewrite md_lookup_insert_eq
               | rewrite md_lookup_insert_ne by (intros [=]) ].

Section FinalRecord.

Variables (this : teca_cf_reader) (path : string) (files : list string).
Variables (x_axis y_axis z_axis : p_teca_variant_array) (t : variant_array).
Variables (step_count : list Z) (n_x n_y n_z : Z) (md0 : teca_metadata).

Let md := final_record this path files x_axis y_axis z_axis t step_count
            n_x n_y n_z md0.

Lemma final_record_files : md_get_strings "files" md = Some files.
Proof.
  unfold md, final_record, md_get_strings, md_get_array. by md_lookup_solve.
Qed.

Lemma final_record_step_count : md_get_nums "step_count" md = Some step_count.
Proof.
  unfold md, final_record, md_get_nums, md_get_array. by md_lookup_solve.
Qed.

Lemma final_record_number_of_time_steps :
  md_get_num_at "number_of_time_steps" 0 md = Some (va_size t).
Proof.
  unfold md, final_record, md_get_num_at, md_get_nums, md_get_array.
  by md_lookup_solve.
Qed.

Lemma final_record_whole_extent :
  md_get_nums "whole_extent" md
  = Some [0; wrap64 (n_x - 1); 0; wrap64 (n_y - 1); 0; wrap64 (n_z - 1)].
Proof.
  unfold md, final_record, md_get_nums, md_get_array. by md_lookup_solve.
Qed.

Lemma final_record_coordinates :
  md_get_bag "coordinates" md
  = Some (make_coordinates this x_axis y_axis z_axis (Some t)).
Proof. unfold md, final_record, md_get_bag. by md_lookup_solve. Qed.

Lemma final_record_coordinate_arrays :
  md_coordinate "x" md = x_axis /\ md_coordinate "y" md = y_axis
  /\ md_coordinate "z" md = z_axis /\ md_coordinate "t" md = Some t.
Proof. unfold md_coordinate. rewrite final_record_coordinates. done. Qed.

(** The names in the [coordinates] bag: the x name is the configured one;
    the other three are taken from [z_axis_variable]. *)
Lemma final_record_coordinate_names :
  coordinate_name "x_variable" md = Some (x_axis_variable this)
  /\ coordinate_name "y_variable" md
     = Some (if String.eqb (z_axis_variable this) "" then "y"
             else z_axis_variable this)
  /\ coordinate_name "z_variable" md
     = Some (if String.eqb (z_axis_variable this) "" then "z"
             else z_axis_variable this)
  /\ coordinate_name "t_variable" md
     = Some (if String.eqb (z_axis_variable this) "" then "t"
             else z_axis_variable this).
Proof. unfold coordinate_name. rewrite final_record_coordinates. done. Qed.

End FinalRecord.

(** Every run of the phase that hands back a record hands back a
    [final_record]. *)
Lemma metadata_phase_final_record env order s md s' :
  metadata_phase env order s md s' ->
  exists path files x_axis y_axis z_axis t step_count n_x n_y n_z md0,
    md = final_record (reader s) path files x_axis y_axis z_axis t
           step_count n_x n_y n_z md0
    /\ sum_list step_count = va_size t
    /\ (t_axis_variable (reader s) <> "" -> length step_count = length files)
    /\ (t_axis_variable (reader s) = "" -> step_count = [1])
    /\ (y_axis_variable (reader s) = "" -> n_y = 1)
    /\ (z_axis_variable (reader s) = "" -> n_z = 1)
    /\ (is_u64 n_x /\ is_u64 n_y /\ is_u64 n_z)
    /\ (length (log s') = length (log s) ->
        exists x y z,
          x_axis = Some x /\ y_axis = Some y /\ z_axis = Some z
          /\ va_size x = n_x /\ va_size y = n_y /\ va_size z = n_z).
Proof.
  intros (Hcache & Hrun & Hmd).
  pose proof (compute_output_metadata_spec env order s) as Hspec.
  unfold wp in Hspec. unfold get_output_metadata, call, bind, get_metadata in Hrun.
  rewrite Hcache in Hrun.
  destruct (compute_output_metadata env order s) as [[md1|r| |e] s1];
    cbn [fst snd] in Hspec; destruct Hspec as [Hle Hspec]; try done.
  - by injection Hrun as <- <-.
  - injection Hrun as <- <-. by subst r.
Qed.

(** ** Invariants of the global metadata record *)

(** C3, as amended.  Every run of the metadata phase that hands back a
    record leaves [sum(step_count) = number_of_time_steps = t.len]; when
    [t_axis_variable] is set, [files.len = step_count.len]; when it is not
    set, [step_count = [1]], whatever the number of files. *)
Theorem metadata_step_count_invariant env order s md s' :
  metadata_phase env order s md s' ->
  exists files step_count n t,
    md_get_strings "files" md = Some files
    /\ md_get_nums "step_count" md = Some step_count
    /\ md_get_num_at "number_of_time_steps" 0 md = Some n
    /\ md_coordinate "t" md = Some t
    /\ sum_list step_count = n
    /\ n = va_size t
    /\ (t_axis_variable (reader s) <> "" -> length files = length step_count)
    /\ (t_axis_variable (reader s) = "" -> step_count = [1]).
Proof.
  intros Hphase.
  destruct (metadata_phase_final_record _ _ _ _ _ Hphase)
    as (path & files & x_axis & y_axis & z_axis & t & step_count
        & n_x & n_y & n_z & md0 & -> & Hsum & Hlen & Hone & _).
  exists files, step_count, (va_size t), t.
  rewrite final_record_files, final_record_step_count,
    final_record_number_of_time_steps.
  destruct (final_record_coordinate_arrays (reader s) path files x_axis y_axis
              z_axis t step_count n_x n_y n_z md0) as (_ & _ & _ & ->).
  repeat split; auto. intros H. symmetry. auto.
Qed.

Lemma sample_phase_2d :
  successful_metadata_phase Sample.two_files [1; 0]%nat
    (Sample.start Sample.reader_2d) Sample.record_2d Sample.after_metadata.
Proof. split; [split; [|split]|]; vm_compute; reflexivity. Defined.

Lemma sample_phase_no_time :
  successful_metadata_phase Sample.two_files [0; 1]%nat
    (Sample.start Sample.reader_no_time) Sample.record_no_time
    Sample.after_no_time.
Proof. split; [split; [|split]|]; vm_compute; reflexivity. Defined.

Lemma metadata_step_count_invariant_witness :
  exists files step_count n t,
    md_get_strings "files" Sample.record_2d = Some files
    /\ md_get_nums "step_count" Sample.record_2d = Some step_count
    /\ md_get_num_at "number_of_time_steps" 0 Sample.record_2d = Some n
    /\ md_coordinate "t" Sample.record_2d = Some t
    /\ sum_list step_count = n
    /\ n = va_size t
    /\ (t_axis_variable (reader (Sample.start Sample.reader_2d)) <> "" ->
        length files = length step_count)
    /\ (t_axis_variable (reader (Sample.start Sample.reader_2d)) = "" ->
        step_count = [1]).
Proof.
  apply (metadata_step_count_invariant Sample.two_files [1; 0]%nat
           (Sample.start Sample.reader_2d) Sample.record_2d
           Sample.after_metadata).
  apply sample_phase_2d.
Defined.

(** C3, as stated, fails without a time axis: two files are enumerated and
    [step_count] is [[1]]. *)
Lemma step_count_without_time_axis :
  successful_metadata_phase Sample.two_files [0; 1]%nat
    (Sample.start Sample.reader_no_time) Sample.record_no_time
    Sample.after_no_time
  /\ md_get_strings "files" Sample.record_no_time = Some ["A.nc"; "B.nc"]
  /\ md_get_nums "step_count" Sample.record_no_time = Some [1]
  /\ length ["A.nc"; "B.nc"] <> length [1].
Proof.
  split; [apply sample_phase_no_time|].
  split; [|split]; vm_compute; congruence.
Qed.

(** C6.  After a successful metadata phase [whole_extent] is
    [(0, x.len - 1, 0, y.len - 1, 0, z.len - 1)], the subtractions being
    those of the source on [size_t] (plain subtraction for an axis that is
    not empty).  When [y_axis_variable] is empty, [y.len = 1] and the y
    range is [(0, 0)]; the same for z. *)
Theorem metadata_whole_extent env order s md s' :
  successful_metadata_phase env order s md s' ->
  exists x y z,
    md_coordinate "x" md = Some x
    /\ md_coordinate "y" md = Some y
    /\ md_coordinate "z" md = Some z
    /\ md_get_nums "whole_extent" md
       = Some [0; size_minus_one x; 0; size_minus_one y; 0; size_minus_one z]
    /\ (0 < va_size x -> size_minus_one x = va_size x - 1)
    /\ (0 < va_size y -> size_minus_one y = va_size y - 1)
    /\ (0 < va_size z -> size_minus_one z = va_size z - 1)
    /\ (y_axis_variable (reader s) = "" ->
        va_size y = 1 /\ size_minus_one y = 0)
    /\ (z_axis_variable (reader s) = "" ->
        va_size z = 1 /\ size_minus_one z = 0).
Proof.
  intros [Hphase Hlog].
  destruct (metadata_phase_final_record _ _ _ _ _ Hphase)
    as (path & files & x_axis & y_axis & z_axis & t & step_count
        & n_x & n_y & n_z & md0 & -> & _ & _ & _ & Hy1 & Hz1 & Hpos & Haxes).
  destruct Haxes as (x & y & z & -> & -> & -> & Hx & Hy & Hz);
    [by rewrite Hlog|].
  exists x, y, z.
  destruct (final_record_coordinate_arrays (reader s) path files (Some x)
              (Some y) (Some z) t step_count n_x n_y n_z md0)
    as (-> & -> & -> & _).
  rewrite final_record_whole_extent. unfold size_minus_one.
  rewrite Hx, Hy, Hz. do 4 (split; [done|]).
  destruct Hpos as (Hxr & Hyr & Hzr). unfold is_u64 in *.
  assert (Hsmall : forall n, 0 < n < 2 ^ 64 -> wrap64 (n - 1) = n - 1).
  { intros n Hn. unfold wrap64. apply Z.mod_small. lia. }
  do 3 (split; [intros H; apply Hsmall; lia|]).
  split; intros H.
  - by rewrite Hy1.
  - by rewrite Hz1.
Qed.

Lemma metadata_whole_extent_witness :
  exists x y z,
    md_coordinate "x" Sample.record_2d = Some x
    /\ md_coordinate "y" Sample.record_2d = Some y
    /\ md_coordinate "z" Sample.record_2d = Some z
    /\ md_get_nums "whole_extent" Sample.record_2d
       = Some [0; size_minus_one x; 0; size_minus_one y; 0; size_minus_one z]
    /\ (0 < va_size x -> size_minus_one x = va_size x - 1)
    /\ (0 < va_size y -> size_minus_one y = va_size y - 1)
    /\ (0 < va_size z -> size_minus_one z = va_size z - 1)
    /\ (y_axis_variable (reader (Sample.start Sample.reader_2d)) = "" ->
        va_size y = 1 /\ size_minus_one y = 0)
    /\ (z_axis_variable (reader (Sample.start Sample.reader_2d)) = "" ->
        va_size z = 1 /\ size_minus_one z = 0).
Proof.
  apply (metadata_whole_extent Sample.two_files [1; 0]%nat
           (Sample.start Sample.reader_2d) Sample.record_2d
           Sample.after_metadata).
  apply sample_phase_2d.
Defined.

(** ** The time axis *)

Lemma omap_lookup_seq {A} (l : list A) a n :
  (a + n <= length l)%nat ->
  omap (fun k => l !! k) (seq a n) = take n (drop a l).
Proof.
  revert a. induction n as [|n IH]; intros a Hlen; [done|].
  destruct (lookup_lt_is_Some_2 l a ltac:(lia)) as [x Hx].
  rewrite (drop_S l x a Hx). cbn. rewrite Hx. cbn. by rewrite IH by lia.
Qed.

Lemma omap_lookup_all {A} (l : list A) :
  omap (fun k => l !! k) (seq 0 (length l)) = l.
Proof. rewrite omap_lookup_seq by lia. by rewrite drop_0, firstn_all. Qed.

Lemma tagged_fst results :
  tagged_by_position results -> results.*1 = seq 0 (length results).
Proof.
  intros Hid. apply list_eq. intros i. rewrite list_lookup_fmap.
  destruct (results !! i) as [r|] eqn:Hr; cbn.
  - rewrite (Hid _ _ Hr). symmetry. apply lookup_seq_lt.
    by eapply lookup_lt_Some.
  - symmetry. apply lookup_ge_None. rewrite length_seq.
    by apply lookup_ge_None.
Qed.

(** Whatever the order in which the results arrive, the map holds the
    result of file [i] under [i]. *)
Lemma unpack_results_lookup results order i :
  tagged_by_position results ->
  order ≡ₚ seq 0 (length results) ->
  unpack_results results order !! i = snd <$> results !! i.
Proof.
  intros Hid Hperm. unfold unpack_results.
  assert (Htmp : omap (fun k => results !! k) order ≡ₚ results).
  { rewrite Hperm. by rewrite omap_lookup_all. }
  assert (Hnd : NoDup results.*1).
  { rewrite tagged_fst by done. apply NoDup_seq. }
  rewrite (list_to_map_proper _ results); [|by rewrite Htmp|done].
  destruct (results !! i) as [[i' x]|] eqn:Hr; cbn.
  - pose proof (Hid _ _ Hr) as Hi. cbn in Hi. subst i'.
    apply elem_of_list_to_map_1; [done|].
    apply list_elem_of_lookup. by exists i.
  - apply not_elem_of_list_to_map_1. rewrite tagged_fst by done.
    rewrite elem_of_seq. apply lookup_ge_None in Hr. lia.
Qed.

Lemma successful_results_tagged t datas :
  tagged_by_position (successful_results t datas).
Proof.
  intros i r. unfold successful_results. rewrite list_lookup_imap.
  destruct (datas !! i); cbn; [|done]. by intros [= <-].
Qed.

(** The appends over the files [a, a + k), all present with element type
    [t]. *)
Lemma append_time_arrays_concat {R} time_arrays t (datas : list (list Z))
    k a acc sc s :
  (forall j d, datas !! j = Some d ->
     map_at time_arrays j = Some (VA_num t d)) ->
  (a + k <= length datas)%nat ->
  append_time_arrays (R := R) time_arrays (seq a k) (VA_num t acc) sc s
  = (Next (VA_num t (acc ++ concat (take k (drop a datas))),
           sc ++ ((fun d => Z.of_nat (length d)) <$> take k (drop a datas))),
     s).
Proof.
  intros Hmap. revert a acc sc. induction k as [|k IH]; intros a acc sc Hlen.
  - cbn. by rewrite !app_nil_r.
  - cbn [seq append_time_arrays].
    destruct (lookup_lt_is_Some_2 datas a ltac:(lia)) as [d Hd].
    rewrite (Hmap _ _ Hd). rewrite (drop_S datas d a Hd).
    unfold bind at 1. unfold try. cbn [va_append].
    destruct (decide (t = t)); [|done].
    rewrite IH by lia. cbn. by rewrite <- !app_assoc.
Qed.

(** C4, as amended.  Let the tasks hand back [results], result [i] tagged
    [i], and let the pool deliver them in any order [order].  The map built
    from them holds the array of file [i] under [i], so the assembly is
    what it is in enumeration order; and when every file was read, with one
    element type, the global time axis is the concatenation of the arrays
    in file order and [step_count] lists their lengths. *)
Theorem time_axis_in_file_order results order s :
  tagged_by_position results ->
  order ≡ₚ seq 0 (length results) ->
  (forall i, map_at (unpack_results results order) i
             = results !! i ≫= snd)
  /\ (forall n_files,
        assemble_time_axis (unpack_results results order) n_files s
        = assemble_time_axis
            (unpack_results results (seq 0 (length results))) n_files s)
  /\ (forall t datas,
        results = successful_results t datas -> datas <> [] ->
        assemble_time_axis (unpack_results results order) (length datas) s
        = (Next (Some (VA_num t (concat datas)),
                 (fun d => Z.of_nat (length d)) <$> datas), s)).
Proof.
  intros Hid Hperm.
  assert (Hmap : forall i, map_at (unpack_results results order) i
                           = results !! i ≫= snd).
  { intros i. unfold map_at. rewrite unpack_results_lookup by done.
    by destruct (results !! i) as [[? ?]|]. }
  split; [done|]. split.
  - intros n_files. f_equal. apply map_eq. intros i.
    by rewrite !unpack_results_lookup.
  - intros t datas -> Hne.
    assert (Hat : forall j d, datas !! j = Some d ->
              map_at (unpack_results (successful_results t datas) order) j
              = Some (VA_num t d)).
    { intros j d Hd. rewrite Hmap. unfold successful_results.
      rewrite list_lookup_imap, Hd. done. }
    destruct datas as [|d0 datas]; [done|].
    unfold assemble_time_axis. rewrite (Hat 0%nat d0 eq_refl).
    unfold bind at 1.
    rewrite (append_time_arrays_concat _ t (d0 :: datas)) by (cbn; done || lia).
    cbn. rewrite Nat.sub_0_r, firstn_all. done.
Qed.

Lemma time_axis_in_file_order_witness :
  assemble_time_axis
    (unpack_results (successful_results T_double [[0; 1; 2]; [3; 4]])
       [1; 0]%nat)
    2 (Sample.start Sample.reader_2d)
  = (Next (Some (VA_num T_double [0; 1; 2; 3; 4]), [3; 2]),
     Sample.start Sample.reader_2d).
Proof.
  assert (Hperm : [1; 0]%nat
                  ≡ₚ seq 0 (length (successful_results T_double
                                      [[0; 1; 2]; [3; 4]]))).
  { apply perm_swap. }
  destruct (time_axis_in_file_order
              (successful_results T_double [[0; 1; 2]; [3; 4]])
              [1; 0]%nat (Sample.start Sample.reader_2d)
              (successful_results_tagged _ _) Hperm) as (_ & _ & H).
  exact (H T_double [[0; 1; 2]; [3; 4]] eq_refl ltac:(discriminate)).
Defined.

(** C4, as stated for every collection of results, fails: the axis is the
    concatenation only when every file was read, with one element type.
    With the result of a later file absent the assembly dereferences a null
    pointer; with arrays of two element types the append fails; with the
    result of the first file absent the phase gives up.  In none of the
    three cases is a time axis assembled, whatever the order of delivery. *)
Lemma time_axis_needs_every_result :
  let s := Sample.start Sample.reader_2d in
  let later_absent : list (nat * p_teca_variant_array) :=
    [(0%nat, Some (VA_num T_double [0; 1; 2])); (1%nat, None)] in
  let two_types : list (nat * p_teca_variant_array) :=
    [(0%nat, Some (VA_num T_float [0; 1; 2]));
     (1%nat, Some (VA_num T_double [3; 4]))] in
  let first_absent : list (nat * p_teca_variant_array) :=
    [(0%nat, None); (1%nat, Some (VA_num T_double [3; 4]))] in
  Forall (fun order =>
    assemble_time_axis (unpack_results later_absent order) 2 s = (Fault, s)
    /\ assemble_time_axis (unpack_results two_types order) 2 s
       = (Raise KindMismatch, s)
    /\ assemble_time_axis (unpack_results first_absent order) 2 s
       = (Return [], logged s E_read_time_axis))
    [[0; 1]; [1; 0]]%nat.
Proof. cbv zeta. repeat constructor. Qed.

(** The appends stop at the first absent result. *)
Lemma append_time_arrays_absent {R} time_arrays t i :
  forall k a acc sc s,
    (a <= i < a + k)%nat ->
    map_at time_arrays i = None ->
    (forall j, (a <= j < i)%nat ->
       exists d, map_at time_arrays j = Some (VA_num t d)) ->
    append_time_arrays (R := R) time_arrays (seq a k) (VA_num t acc) sc s
    = (Fault, s).
Proof.
  induction k as [|k IH]; intros a acc sc s Hi Habsent Hbefore; [lia|].
  cbn [seq append_time_arrays].
  destruct (decide (a = i)) as [->|Hne].
  - by rewrite Habsent.
  - destruct (Hbefore a ltac:(lia)) as [d Hd]. rewrite Hd.
    unfold bind at 1. unfold try. cbn [va_append].
    destruct (decide (t = t)); [|done].
    apply IH; [lia|done|]. intros j Hj. apply Hbefore. lia.
Qed.

(** C9.  The assembly tests the result of the first file only.  When it is
    absent the error is reported and the phase returns the empty record.
    When the result of a later file [i] is absent (the files before it
    having been read), nothing is reported: the assembler dereferences the
    null pointer.  A file that cannot be opened takes the phase there. *)
Theorem assemble_time_axis_absent_result time_arrays n_files s :
  (map_at time_arrays 0 = None ->
   assemble_time_axis time_arrays n_files s
   = (Return [],
      {| reader := reader s; lib := lib s;
         log := log s ++ [E_read_time_axis] |}))
  /\ (forall t d0 i,
        map_at time_arrays 0 = Some (VA_num t d0) ->
        (1 <= i < n_files)%nat ->
        map_at time_arrays i = None ->
        (forall j, (1 <= j < i)%nat ->
           exists d, map_at time_arrays j = Some (VA_num t d)) ->
        assemble_time_axis time_arrays n_files s = (Fault, s))
  /\ (get_output_metadata (Sample.env ["A.nc"; "missing.nc"] 2) [0; 1]%nat
        (Sample.start Sample.reader_2d)).1 = Fault.
Proof.
  split; [|split].
  - intros H0. unfold assemble_time_axis. by rewrite H0.
  - intros t d0 i H0 Hi Habsent Hbefore.
    unfold assemble_time_axis. rewrite H0. unfold bind at 1.
    rewrite (append_time_arrays_absent time_arrays t i); [done|lia|done|done].
  - vm_compute. reflexivity.
Qed.

Lemma assemble_time_axis_absent_result_witness :
  assemble_time_axis
    (<[1%nat := None]> (<[0%nat := Some (VA_num T_double [0; 1; 2])]> ∅))
    2 (Sample.start Sample.reader_2d)
  = (Fault, Sample.start Sample.reader_2d).
Proof.
  destruct (assemble_time_axis_absent_result
              (<[1%nat := None]> (<[0%nat := Some (VA_num T_double [0; 1; 2])]> ∅))
              2 (Sample.start Sample.reader_2d)) as (_ & H & _).
  apply (H T_double [0; 1; 2] 1%nat).
  - reflexivity.
  - lia.
  - reflexivity.
  - intros j Hj. lia.
Defined.

(** The results of the tasks, as [read_time_axis] collects them, are tagged
    by position: task [i] hands back [(i, _)]. *)
Lemma tasks_tagged env path t_axis files :
  forall (g : nat -> string -> nat * string) k results s,
    (forall i x, (g i x).1 = (k + i)%nat) ->
    tagged_by_position results -> length results = k ->
    wp (for_loop (R := teca_metadata) (imap g files) results
          (fun '(i, file) results =>
             do r <- read_variable env path file i t_axis;
             ret (results ++ [r])))
       s
       (fun f s' => forall rs, f = Next rs ->
          tagged_by_position rs /\ length rs = (k + length files)%nat).
Proof.
  induction files as [|file files IH]; intros g k results s Hg Htag Hlen.
  - cbn. intros rs [= <-]. split; [done|lia].
  - cbn [imap for_loop]. unfold wp.
    pose proof (Hg 0%nat file) as Hg0.
    destruct (g 0%nat file) as [i file'] eqn:Hgf. cbn in Hg0. subst i.
    pose proof (read_variable_steady (R := loop_exit teca_metadata
                  (list (nat * p_teca_variant_array)))
                  env path file' (k + 0) t_axis s) as Hrv.
    unfold wp in Hrv. unfold bind at 1.
    destruct (read_variable env path file' (k + 0) t_axis s)
      as [[r|r| |e] s1]; cbn [fst snd] in *; try done.
    + destruct Hrv as [_ Hid]. specialize (Hid r eq_refl).
      assert (Hnext : tagged_by_position (results ++ [r])).
      { intros j rj Hj.
        destruct (decide (j < length results)%nat) as [Hlt|Hge].
        - rewrite lookup_app_l in Hj by done. by apply Htag.
        - rewrite lookup_app_r in Hj by lia.
          destruct (j - length results)%nat eqn:Hjk; [|by destruct n].
          cbn in Hj. injection Hj as <-. lia. }
      pose proof (IH (g ∘ S) (S k) (results ++ [r]) s1) as IH'.
      unfold wp in IH'. intros rs Hrs.
      destruct (IH' ltac:(intros i x; cbn; rewrite Hg; lia) Hnext
                  ltac:(rewrite length_app; cbn; lia) rs Hrs) as [? ?].
      split; [done|]. cbn [length]. lia.
    + by destruct Hrv as [[_ []] _].
Qed.

(** The time axis of the phase does not depend on the order in which the
    pool delivers the results. *)
Lemma read_time_axis_any_order env order path files t_axis s :
  order ≡ₚ seq 0 (length files) ->
  read_time_axis env order path files t_axis s
  = read_time_axis env (seq 0 (length files)) path files t_axis s.
Proof.
  intros Hperm. unfold read_time_axis.
  pose proof (tasks_tagged env path t_axis files pair 0 [] s
                ltac:(done) ltac:(done) ltac:(done)) as Htag.
  unfold wp in Htag. unfold bind.
  destruct (for_loop (imap pair files) [] _ s) as [[rs|r| |e] s1];
    cbn [fst snd] in *; try done.
  destruct (Htag rs eq_refl) as [Hrs Hlen]. cbn in Hlen.
  f_equal. apply map_eq. intros i.
  rewrite !unpack_results_lookup; try done; by rewrite Hlen.
Qed.

(** ** Cache invalidation *)

(** Closing every handle of a map: only cached identifiers are closed, and
    every valid one is. *)
Lemma close_all_spec (h : gmap string handle_map_elem_t) (l : nc_lib) :
  let l' := map_fold (fun _ (e : handle_map_elem_t) l => delete_handle e.2 l) l h in
  (forall id, nc_open_files l' !! id = None
              \/ nc_open_files l' !! id = nc_open_files l !! id)
  /\ (forall file e hd,
        h !! file = Some (e, Some hd) -> m_handle hd <> 0 ->
        nc_open_files l' !! m_handle hd = None)
  /\ (forall id,
        (forall file e hd, h !! file = Some (e, Some hd) -> m_handle hd <> id) ->
        nc_open_files l' !! id = nc_open_files l !! id).
Proof.
  cbv zeta.
  apply (map_fold_weak_ind (fun l' (h : gmap string handle_map_elem_t) =>
    (forall id, nc_open_files l' !! id = None
                \/ nc_open_files l' !! id = nc_open_files l !! id)
    /\ (forall file e hd,
          h !! file = Some (e, Some hd) -> m_handle hd <> 0 ->
          nc_open_files l' !! m_handle hd = None)
    /\ (forall id,
          (forall file e hd, h !! file = Some (e, Some hd) -> m_handle hd <> id) ->
          nc_open_files l' !! id = nc_open_files l !! id))).
  - split; [by right|]. split; [|done].
    intros file e hd H. by rewrite lookup_empty in H.
  - intros file [mu p] m r Hfresh (Hmono & Hclosed & Hframe).
    assert (Hstep : forall id,
      nc_open_files (delete_handle p r) !! id = None
      \/ nc_open_files (delete_handle p r) !! id = nc_open_files r !! id).
    { intros id. destruct p as [hd|]; cbn; [|by right].
      unfold netcdf_handle_close. destruct (m_handle hd =? 0); [by right|].
      cbn. destruct (decide (m_handle hd = id)) as [->|Hne].
      - left. apply lookup_delete_eq.
      - right. by apply lookup_delete_ne. }
    cbn [snd]. split; [|split].
    + intros id. destruct (Hstep id) as [-> | ->]; [by left|apply Hmono].
    + intros file' e hd Hin Hvalid.
      apply lookup_insert_Some in Hin as [[<- Heq]|[Hne Hin]].
      * injection Heq as -> ->.
        cbn. unfold netcdf_handle_close.
        destruct (Z.eqb_spec (m_handle hd) 0); [done|].
        cbn. apply lookup_delete_eq.
      * destruct (Hstep (m_handle hd)) as [->| ->]; [done|].
        by eapply Hclosed.
    + intros id Hnot.
      assert (Hr : nc_open_files r !! id = nc_open_files l !! id).
      { apply Hframe. intros file' e hd Hin. apply (Hnot file' e hd).
        assert (file <> file') as Hne.
        { intros Heq. subst file'.
          pose proof (eq_trans (eq_sym Hin) Hfresh). discriminate. }
        by rewrite lookup_insert_ne. }
      rewrite <- Hr. destruct p as [hd|]; cbn; [|done].
      unfold netcdf_handle_close. destruct (m_handle hd =? 0); [done|].
      cbn. apply lookup_delete_ne. apply (Hnot file mu hd).
      by rewrite lookup_insert_eq.
Qed.

(** C8.  [set_modified] empties the cached record and the handle map,
    closes every handle the map held, forwards to the base class, and
    leaves the properties as they are; the next call of
    [get_output_metadata] computes the record anew. *)
Theorem set_modified_clears_cache {R A} (teca_algorithm_set_modified : A -> A)
    (base : A) (s : state) :
  map_Forall (fun _ e => valid_handle e) (handles (internals (reader s))) ->
  exists s',
    set_modified (R := R) teca_algorithm_set_modified base s
      = (Next (teca_algorithm_set_modified base), s')
    /\ metadata (internals (reader s')) = []
    /\ handles (internals (reader s')) = ∅
    /\ (forall file e hd,
          handles (internals (reader s)) !! file = Some (e, Some hd) ->
          nc_open_files (lib s') !! m_handle hd = None)
    /\ (forall id,
          (forall file e hd,
             handles (internals (reader s)) !! file = Some (e, Some hd) ->
             m_handle hd <> id) ->
          nc_open_files (lib s') !! id = nc_open_files (lib s) !! id)
    /\ (files_regex (reader s') = files_regex (reader s)
        /\ file_name (reader s') = file_name (reader s)
        /\ x_axis_variable (reader s') = x_axis_variable (reader s)
        /\ y_axis_variable (reader s') = y_axis_variable (reader s)
        /\ z_axis_variable (reader s') = z_axis_variable (reader s)
        /\ t_axis_variable (reader s') = t_axis_variable (reader s)
        /\ thread_pool_size (reader s') = thread_pool_size (reader s))
    /\ log s' = log s
    /\ (forall env order,
          get_output_metadata env order s'
          = call (compute_output_metadata env order) s').
Proof.
  intros Hvalid.
  eexists. split; [reflexivity|].
  cbn [reader lib log internals metadata handles with_internals
       files_regex file_name x_axis_variable y_axis_variable z_axis_variable
       t_axis_variable thread_pool_size].
  destruct (close_all_spec (handles (internals (reader s))) (lib s))
    as (_ & Hclosed & Hframe).
  split; [done|]. split; [done|]. split; [|split; [|done]].
  - intros file e hd Hin. apply (Hclosed file e hd Hin).
    apply (Hvalid file (e, Some hd) Hin).
  - exact Hframe.
Qed.

Lemma set_modified_clears_cache_witness :
  exists s',
    set_modified (R := unit) negb false Sample.in_use = (Next true, s')
    /\ metadata (internals (reader s')) = []
    /\ handles (internals (reader s')) = ∅
    /\ nc_open_files (lib s') !! 65539 = None
    /\ nc_open_files (lib s') !! 65536 = Some "/data/A.nc"
    /\ x_axis_variable (reader s') = "lon".
Proof.
  destruct (set_modified_clears_cache (R := unit) negb false Sample.in_use)
    as (s' & Hrun & Hmd & Hh & Hclosed & Hframe & Hconfig & _).
  - apply map_Forall_insert_2; [discriminate|].
    apply map_Forall_insert_2; [exact I|]. apply map_Forall_empty.
  - exists s'. split; [exact Hrun|]. split; [exact Hmd|]. split; [exact Hh|].
    split; [|split].
    + apply (Hclosed "B.nc" (Some Mutex) {| m_handle := 65539 |}).
      reflexivity.
    + rewrite Hframe; [reflexivity|].
      intros file e hd Hin.
      unfold Sample.in_use in Hin.
      cbn [reader internals handles with_internals] in Hin.
      apply lookup_insert_Some in Hin as [[_ [= _ <-]]|[_ Hin]]; [done|].
      apply lookup_insert_Some in Hin as [[_ [=]]|[_ Hin]].
      by rewrite lookup_empty in Hin.
    + by destruct Hconfig as (_ & _ & -> & _).
Defined.

(** * Further properties *)

(** ** [crtrim], on texts that keep a character *)

(** X1.  A character attribute without NUL characters of which right
    trimming leaves something is stored right-trimmed: the trailing spaces,
    newlines, tabs and carriage returns are gone, nothing else is. *)
Theorem read_char_att_right_trims (text : list ascii) :
  Trim.no_nul text -> Trim.rtrim text <> [] ->
  Trim.read_char_att text = string_of_list_ascii (Trim.rtrim text).
Proof. apply read_char_att_rtrim. Qed.

Lemma read_char_att_right_trims_witness :
  Trim.read_char_att (list_ascii_of_string "degrees_north   ")
  = string_of_list_ascii (Trim.rtrim (list_ascii_of_string "degrees_north   ")).
Proof.
  apply (read_char_att_right_trims (list_ascii_of_string "degrees_north   ")).
  - unfold Trim.no_nul. cbn. repeat constructor; discriminate.
  - vm_compute. discriminate.
Defined.

(** ** The scan over [step_count], past the last step *)

(** X2.  A time step at or past [number_of_time_steps] is not refused: the scan
    falls off its end and yields the last file, with an offset at or past
    the number of steps of that file. *)
Theorem locate_step_out_of_range (step_count : list Z) (time_step : Z) :
  Forall is_u64 step_count ->
  Z.of_nat (length step_count) < 2 ^ 32 ->
  sum_list step_count < 2 ^ 64 ->
  step_count <> [] ->
  sum_list step_count <= time_step < 2 ^ 64 ->
  locate_step step_count time_step
  = Some (Z.of_nat (length step_count - 1),
          time_step - steps_before step_count (length step_count - 1))
  /\ last_count step_count
     <= time_step - steps_before step_count (length step_count - 1).
Proof.
  intros Hu64 Hu32 Htot Hne Hts.
  assert (Hlen : (0 < length step_count)%nat).
  { destruct step_count; [done|cbn; lia]. }
  assert (H0 : 0 <= sum_list step_count) by by apply sum_list_nonneg.
  destruct (locate_loop_spec step_count time_step Hu64 Hu32 Htot
              (length step_count) 0)
    as (idx & Hrun & Hrange & Hle & Hstop);
    [lia | lia | unfold steps_before; simpl; lia |].
  change (locate_loop (length step_count) step_count time_step 1 0 0
          = Some (Z.of_nat idx, steps_before step_count idx)) in Hrun.
  assert (Hidx : idx = (length step_count - 1)%nat).
  { destruct (decide (S idx < length step_count)%nat) as [Hmore|]; [|lia].
    specialize (Hstop Hmore).
    pose proof (sum_list_take_le step_count (S idx) (length step_count)
                  Hu64 ltac:(lia)) as H1.
    rewrite sum_list_take_all in H1. unfold steps_before in Hstop. lia. }
  subst idx.
  pose proof (sum_list_take_S step_count (length step_count - 1)
                ltac:(lia)) as H2.
  replace (S (length step_count - 1)) with (length step_count) in H2 by lia.
  rewrite sum_list_take_all in H2.
  assert (0 <= steps_before step_count (length step_count - 1))
    by apply sum_list_nonneg, Forall_take, Hu64.
  split.
  - unfold locate_step. rewrite Hrun. do 2 f_equal.
    unfold wrap64. apply Z.mod_small. lia.
  - unfold steps_before, last_count in *. lia.
Qed.

Lemma locate_step_out_of_range_witness :
  locate_step [3; 2] 7
  = Some (Z.of_nat (length [3; 2] - 1),
          7 - steps_before [3; 2] (length [3; 2] - 1))
  /\ last_count [3; 2] <= 7 - steps_before [3; 2] (length [3; 2] - 1).
Proof.
  apply (locate_step_out_of_range [3; 2] 7).
  - repeat constructor; unfold is_u64; lia.
  - simpl; lia.
  - simpl; lia.
  - discriminate.
  - simpl; lia.
Defined.

(** ** The test for a mesh variable *)

(** X3.  The size test and the loop over the positions amount to equality of the
    two lists of names: same names, same order, nothing more. *)
Theorem is_mesh_variable_eq (dim_names mesh_dim_names : list string) :
  is_mesh_variable dim_names mesh_dim_names = true
  <-> dim_names = mesh_dim_names.
Proof.
  unfold is_mesh_variable. rewrite andb_true_iff, bool_decide_eq_true.
  rewrite forallb_forall. split.
  - intros [Hlen Hall]. apply list_eq. intros i.
    destruct (decide (i < length dim_names)%nat) as [Hi|Hi].
    + specialize (Hall i). rewrite bool_decide_eq_true in Hall.
      apply Hall. apply in_seq. lia.
    + rewrite !lookup_ge_None_2; [done|lia..].
  - intros ->. split; [done|]. intros i _. by apply bool_decide_eq_true.
Qed.

(** ** What the loops of [execute] attach *)

(** X4.  Whatever the metadata and the library answer, the loop over the
    requested arrays runs to its end and only adds to the point arrays.
    The names it adds are requested names, in the order of the request;
    every array it adds has [mesh_size] elements; and a null entry is added
    only for a mesh variable whose type code has no case in [NC_DISPATCH]. *)
Theorem read_arrays_attached {R} env file_id atrs mesh_dim_names starts counts
    mesh_size (arrays : list string) :
  forall attached s,
  exists added s',
    read_arrays (R := R) env file_id atrs mesh_dim_names starts counts
      mesh_size arrays attached s = (Next (attached ++ added), s')
    /\ sublist added.*1 arrays
    /\ Forall (fun e : string * p_teca_variant_array =>
         match e.2 with
         | Some a => va_size a = Z.of_nat (Z.to_nat mesh_size)
         | None =>
             exists type id dim_names,
               array_metadata atrs e.1 = Some (type, id, dim_names)
               /\ dim_names = mesh_dim_names
               /\ NC_DISPATCH type = None
         end) added.
Proof.
  induction arrays as [|name rest IH]; intros attached s.
  - exists [], s. rewrite app_nil_r. repeat split; constructor.
  - destruct (array_metadata atrs name) as [[[type id] dim_names]|] eqn:Hmd.
    2: { rewrite (read_arrays_metadata_issue env file_id atrs mesh_dim_names
                    starts counts mesh_size name rest attached s Hmd).
         destruct (IH attached (logged s (E_metadata_issue name)))
           as (added & s' & -> & Hsub & Hall).
         exists added, s'. split; [done|]. split; [by constructor|done]. }
    destruct (is_mesh_variable dim_names mesh_dim_names) eqn:Hmesh.
    2: { rewrite (read_arrays_dimension_mismatch env file_id atrs
                    mesh_dim_names starts counts mesh_size name rest attached
                    s type id dim_names Hmd Hmesh).
         destruct (IH attached (logged s (E_dimension_mismatch name)))
           as (added & s' & -> & Hsub & Hall).
         exists added, s'. split; [done|]. split; [by constructor|done]. }
    destruct (NC_DISPATCH type) as [t|] eqn:Hkind.
    + destruct (nc_file_of (fs env) (lib s) file_id
                  ≫= get_vara id starts counts) as [vals|] eqn:Hread.
      * rewrite (read_arrays_success env file_id atrs mesh_dim_names starts
                   counts mesh_size name rest attached s type id dim_names t
                   vals Hmd Hmesh Hkind Hread).
        destruct (IH (attached ++ [(name, Some (va_fill (va_new t mesh_size) vals))]) s)
          as (added & s' & -> & Hsub & Hall).
        exists ((name, Some (va_fill (va_new t mesh_size) vals)) :: added), s'.
        split; [by rewrite <- app_assoc|]. split; [by constructor|].
        constructor; [|done]. cbn [snd]. by rewrite va_size_fill, va_size_new.
      * rewrite (read_arrays_read_failure env file_id atrs mesh_dim_names
                   starts counts mesh_size name rest attached s type id
                   dim_names t Hmd Hmesh Hkind Hread).
        destruct (IH attached (logged s (E_failed_to_read name)))
          as (added & s' & -> & Hsub & Hall).
        exists added, s'. split; [done|]. split; [by constructor|done].
    + assert (Hstep :
        read_arrays (R := R) env file_id atrs mesh_dim_names starts counts
          mesh_size (name :: rest) attached s
        = read_arrays env file_id atrs mesh_dim_names starts counts mesh_size
            rest (attached ++ [(name, None)])
            (logged s (E_not_supported type))).
      { unfold read_arrays. cbn [for_loop]. by rewrite Hmd, Hmesh, Hkind. }
      rewrite Hstep.
      destruct (IH (attached ++ [(name, None)])
                  (logged s (E_not_supported type)))
        as (added & s' & -> & Hsub & Hall).
      exists ((name, None) :: added), s'.
      split; [by rewrite <- app_assoc|]. split; [by constructor|].
      constructor; [|done]. cbn. exists type, id, dim_names.
      split; [done|]. split; [|done].
      unfold is_mesh_variable in Hmesh.
      apply andb_true_iff in Hmesh as [Hlen Hall'].
      apply bool_decide_eq_true in Hlen. rewrite forallb_forall in Hall'.
      apply list_eq. intros i.
      destruct (decide (i < length dim_names)%nat) as [Hi|Hi].
      * specialize (Hall' i). rewrite bool_decide_eq_true in Hall'.
        apply Hall'. apply in_seq. lia.
      * rewrite !lookup_ge_None_2; [done|lia..].
Qed.

(** X5.  The loop over the time variables runs to its end as well,
    touching nothing but the log; the names it adds are time variables, in
    their order, and every array it adds holds one element. *)
Theorem read_time_vars_attached {R} env file_id atrs starts
    (time_vars : list string) s :
  exists info_arrays s',
    read_time_vars (R := R) env file_id atrs starts time_vars s
      = (Next info_arrays, s')
    /\ sublist info_arrays.*1 time_vars
    /\ Forall (fun e : string * p_teca_variant_array =>
         forall a, e.2 = Some a -> va_size a = 1) info_arrays
    /\ reader s' = reader s /\ lib s' = lib s.
Proof.
  unfold read_time_vars.
  match goal with |- context [for_loop _ _ ?b] => set (body := b) end.
  cut (forall acc s0,
    exists added s',
      for_loop (R := R) time_vars acc body s0 = (Next (acc ++ added), s')
      /\ sublist added.*1 time_vars
      /\ Forall (fun e : string * p_teca_variant_array =>
           forall a, e.2 = Some a -> va_size a = 1) added
      /\ reader s' = reader s0 /\ lib s' = lib s0).
  { intros H. destruct (H [] s) as (added & s' & Hrun & Hrest).
    by exists added, s'. }
  induction time_vars as [|name rest IH]; intros acc s0.
  - exists [], s0. rewrite app_nil_r. repeat split; constructor.
  - cbn [for_loop]. unfold body at 1.
    destruct (md_get_bag name atrs ≫= _) as [[type id]|].
    2: { unfold bind, continue, return_, TECA_ERROR; cbv beta iota.
         destruct (IH acc (logged s0 (E_time_var_metadata_issue name)))
           as (added & s' & Hrun & Hsub & Hall & Hr & Hl).
         exists added, s'. unfold logged in Hrun. rewrite Hrun.
         split; [done|]. split; [by constructor|]. done. }
    destruct (NC_DISPATCH type) as [t|].
    + unfold bind at 1. unfold bind at 1. unfold nc_call at 1.
      unfold bind at 1. cbn [get_lib ret].
      destruct (nc_file_of (fs env) (lib s0) file_id ≫= _) as [vals|].
      * unfold ret; cbv beta iota.
        destruct (IH (acc ++ [(name, Some (va_fill (va_new t 1) vals))]) s0)
          as (added & s' & Hrun & Hsub & Hall & Hr & Hl).
        exists ((name, Some (va_fill (va_new t 1) vals)) :: added), s'.
        rewrite Hrun. split; [by rewrite <- app_assoc|].
        split; [by constructor|]. split; [|done].
        constructor; [|done]. intros a Ha. cbn [snd] in Ha.
        assert (a = va_fill (va_new t 1) vals) as -> by congruence.
        by rewrite va_size_fill, va_size_new.
      * unfold bind, continue, return_, TECA_ERROR; cbv beta iota.
        destruct (IH acc (logged s0 (E_time_var_failed_to_read name)))
          as (added & s' & Hrun & Hsub & Hall & Hr & Hl).
        exists added, s'. unfold logged in Hrun. rewrite Hrun.
        split; [done|]. split; [by constructor|]. done.
    + unfold bind, ret, TECA_ERROR; cbv beta iota.
      destruct (IH (acc ++ [(name, None)])
                       (logged s0 (E_not_supported type)))
        as (added & s' & Hrun & Hsub & Hall & Hr & Hl).
      exists ((name, None) :: added), s'. unfold logged in Hrun.
      rewrite Hrun. split; [by rewrite <- app_assoc|].
      split; [by constructor|]. split; [|done].
      constructor; [|done]. by intros a [=].
Qed.

(** ** The handle class *)

(** X6.  Ownership of the file.  [close] closes the file of a handle that
    holds one and zeroes the handle, so that the object never touches the
    library again, whatever is open by then: a second [close] and the
    destructor do nothing.  A move construction and a move assignment hand
    the identifier to the new owner and zero the source, whose destructor
    then closes nothing in any library state, while destroying the new
    owner closes the file; a move assignment closes the file the target
    held before. *)
Theorem netcdf_handle_ownership (a b : netcdf_handle) (l : nc_lib) :
  (let '(a1, l1) := netcdf_handle_close_object a l in
   m_handle a1 = 0
   /\ (m_handle a <> 0 ->
       nc_open_files l1 = delete (m_handle a) (nc_open_files l)
       /\ nc_next_id l1 = nc_next_id l)
   /\ (m_handle a = 0 -> l1 = l)
   /\ l1 = netcdf_handle_close a l
   /\ forall l', netcdf_handle_close_object a1 l' = (a1, l')
                 /\ netcdf_handle_close a1 l' = l')
  /\ (let '(c, b1) := netcdf_handle_move b in
      m_handle c = m_handle b
      /\ m_handle b1 = 0
      /\ (forall l', netcdf_handle_close b1 l' = l')
      /\ forall l', netcdf_handle_close c l' = netcdf_handle_close b l')
  /\ (let '(a1, b1, l1) := netcdf_handle_move_assign a b l in
      m_handle a1 = m_handle b
      /\ m_handle b1 = 0
      /\ l1 = netcdf_handle_close a l
      /\ (forall l', netcdf_handle_close b1 l' = l')
      /\ forall l', netcdf_handle_close a1 l' = netcdf_handle_close b l').
Proof.
  unfold netcdf_handle_move_assign, netcdf_handle_move,
    netcdf_handle_close_object, netcdf_handle_close.
  destruct a as [x], b as [y]. cbn [m_handle].
  split; [|split].
  - destruct (Z.eqb_spec x 0) as [->|Hx]; cbn [m_handle].
    + repeat split; done.
    + split; [done|]. split; [done|]. split; [done|]. split; [done|].
      intros l'. by cbn.
  - repeat split; done.
  - destruct (x =? 0); repeat split; done.
Qed.

(** ** The handle cache, step by step *)

Lemma with_handles_id s :
  with_handles s (handles (internals (reader s))) = s.
Proof. by destruct s as [[? ? ? ? ? ? ? []] ? ?]. Qed.

Lemma get_handle_cached {R} env path file s mu hd :
  handles (internals (reader s)) !! file = Some (mu, Some hd) ->
  get_handle (R := R) env path file s = (Next (0, m_handle hd), s).
Proof. intros H. unfold get_handle, call, bind, get_handles. by rewrite H. Qed.

Lemma get_handle_opens {R} env path file s mu f :
  handles (internals (reader s)) !! file = Some (mu, None) ->
  fs env (path +:+ PATH_SEP +:+ file) = Some f ->
  get_handle (R := R) env path file s
  = (Next (0, nc_next_id (lib s)),
     with_handles
       (with_lib s
          {| nc_open_files :=
               <[nc_next_id (lib s) := path +:+ PATH_SEP +:+ file]>
                 (nc_open_files (lib s));
             nc_next_id := nc_next_id (lib s) + 1 |})
       (<[file := (mu, Some {| m_handle := nc_next_id (lib s) |})]>
          (handles (internals (reader s))))).
Proof.
  intros H Hfs. unfold get_handle, call, bind, get_handles, get_lib, nc_open.
  rewrite H. cbn [snd fst]. by rewrite Hfs.
Qed.

Lemma get_handle_fails {R} env path file s mu :
  handles (internals (reader s)) !! file = Some (mu, None) ->
  fs env (path +:+ PATH_SEP +:+ file) = None ->
  get_handle (R := R) env path file s
  = (Next (-1, 0), logged s (E_failed_to_open file)).
Proof.
  intros H Hfs. unfold get_handle, call, bind, get_handles, get_lib, nc_open.
  rewrite H. cbn [snd fst]. by rewrite Hfs.
Qed.

Lemma close_handle_eq {R} file s e :
  handles (internals (reader s)) !! file = Some e ->
  close_handle (R := R) file s
  = (Next 0,
     with_handles (with_lib s (delete_handle e.2 (lib s)))
       (<[file := (e.1, None)]> (handles (internals (reader s))))).
Proof.
  intros H. unfold close_handle, bind, get_handles, get_lib. by rewrite H.
Qed.

(** X7.  The cache is keyed by the file name alone.  The first
    [get_handle] on a file opens it and stores the handle; from then on
    [get_handle] on that name hands back the stored identifier and opens
    nothing, whatever path it is called with. *)
Theorem get_handle_reuses_handle {R} env path path' file s mu f :
  handles (internals (reader s)) !! file = Some (mu, None) ->
  fs env (path +:+ PATH_SEP +:+ file) = Some f ->
  exists s1,
    get_handle (R := R) env path file s = (Next (0, nc_next_id (lib s)), s1)
    /\ handles (internals (reader s1)) !! file
       = Some (mu, Some {| m_handle := nc_next_id (lib s) |})
    /\ nc_open_files (lib s1) !! nc_next_id (lib s)
       = Some (path +:+ PATH_SEP +:+ file)
    /\ get_handle (R := R) env path' file s1
       = (Next (0, nc_next_id (lib s)), s1).
Proof.
  intros H Hfs. eexists. split; [eapply get_handle_opens; eassumption|].
  cbn [with_handles with_lib reader lib internals handles with_internals
       nc_open_files].
  rewrite !lookup_insert_eq. split; [done|]. split; [done|].
  apply (get_handle_cached env path' file _ mu
           {| m_handle := nc_next_id (lib s) |}).
  cbn [with_handles with_lib reader lib internals handles with_internals].
  by rewrite lookup_insert_eq.
Qed.

Lemma get_handle_reuses_handle_witness :
  exists s1,
    get_handle (R := unit) Sample.two_files "/data" "A.nc" Sample.in_use
    = (Next (0, nc_next_id (lib Sample.in_use)), s1)
    /\ handles (internals (reader s1)) !! "A.nc"
       = Some (Some Mutex, Some {| m_handle := nc_next_id (lib Sample.in_use) |})
    /\ nc_open_files (lib s1) !! nc_next_id (lib Sample.in_use)
       = Some ("/data" +:+ PATH_SEP +:+ "A.nc")
    /\ get_handle (R := unit) Sample.two_files "/elsewhere" "A.nc" s1
       = (Next (0, nc_next_id (lib Sample.in_use)), s1).
Proof.
  apply (get_handle_reuses_handle Sample.two_files "/data" "/elsewhere" "A.nc"
           Sample.in_use (Some Mutex) (Sample.sample_file 0 3)).
  - vm_compute; reflexivity.
  - vm_compute; reflexivity.
Defined.

Lemma wp_of_eq {R A} (m : M R A) s f s' (Q : flow R A -> state -> Prop) :
  m s = (f, s') -> Q f s' -> wp m s Q.
Proof. unfold wp. by intros ->. Qed.

Lemma wp_elim {R A} (m : M R A) s (Q : flow R A -> state -> Prop) :
  wp m s Q -> exists f s', m s = (f, s') /\ Q f s'.
Proof. unfold wp. destruct (m s) as [f s']. by exists f, s'. Qed.

(** Through a command of which the outcome is known by an equation. *)
Ltac wp_eq lem :=
  lazymatch goal with
  | |- wp (bind _ _) _ _ => apply wp_bind; eapply wp_of_eq; [apply lem|]
  | |- wp _ _ _ => eapply wp_of_eq; [apply lem|]
  end;
  cbv beta iota.

Lemma lib_wf_open l id path :
  lib_wf l -> id = nc_next_id l ->
  lib_wf {| nc_open_files := <[id := path]> (nc_open_files l);
            nc_next_id := id + 1 |}.
Proof.
  intros [Hpos Hfree] ->. split; cbn; [lia|].
  intros id Hid. rewrite lookup_insert_ne by lia. apply Hfree. lia.
Qed.

Lemma lib_wf_close l p : lib_wf l -> lib_wf (delete_handle p l).
Proof.
  intros [Hpos Hfree]. destruct p as [hd|]; [|done]. cbn.
  unfold netcdf_handle_close. destruct (m_handle hd =? 0); [done|].
  split; cbn; [done|]. intros id Hid.
  destruct (decide (m_handle hd = id)) as [->|Hne].
  - apply lookup_delete_eq.
  - rewrite lookup_delete_ne by done. by apply Hfree.
Qed.

(** Opening a file and closing it again leaves the open files as they
    were. *)
Lemma open_close_files l path :
  lib_wf l ->
  nc_open_files
    (delete_handle (Some {| m_handle := nc_next_id l |})
       {| nc_open_files := <[nc_next_id l := path]> (nc_open_files l);
          nc_next_id := nc_next_id l + 1 |})
  = nc_open_files l.
Proof.
  intros [Hpos Hfree]. cbn. unfold netcdf_handle_close. cbn.
  destruct (Z.eqb_spec (nc_next_id l) 0) as [H0|_]; [lia|]. cbn.
  rewrite delete_insert_eq. apply delete_id. apply Hfree. lia.
Qed.

Lemma reader_with_handles_same s (h : gmap string handle_map_elem_t) :
  h = handles (internals (reader s)) ->
  with_internals (reader s)
    {| metadata := metadata (internals (reader s)); handles := h |}
  = reader s.
Proof. intros ->. by destruct s as [[? ? ? ? ? ? ? []] ? ?]. Qed.

(** X8.  With a library that hands out fresh identifiers, [get_handle]
    followed by [close_handle] leaves the reader and the set of open files
    as they were: the file was opened once and closed once, and its entry
    holds no handle again. *)
Theorem get_then_close_handle {R} env path file s mu f :
  lib_wf (lib s) ->
  handles (internals (reader s)) !! file = Some (mu, None) ->
  fs env (path +:+ PATH_SEP +:+ file) = Some f ->
  exists s1 s2,
    get_handle (R := R) env path file s = (Next (0, nc_next_id (lib s)), s1)
    /\ close_handle (R := R) file s1 = (Next 0, s2)
    /\ reader s2 = reader s
    /\ nc_open_files (lib s2) = nc_open_files (lib s)
    /\ nc_next_id (lib s2) = nc_next_id (lib s) + 1
    /\ log s2 = log s.
Proof.
  intros Hwf H Hfs. eexists _, _.
  split; [eapply get_handle_opens; eassumption|].
  split.
  { eapply close_handle_eq.
    cbn [with_handles with_lib reader lib internals handles with_internals].
    apply lookup_insert_eq. }
  cbn [with_handles with_lib reader lib log internals handles metadata
       with_internals fst snd].
  split; [|split; [by apply open_close_files|split; [|done]]].
  - rewrite insert_insert_eq.
    change (with_internals (with_internals (reader s) ?i) ?j)
      with (with_internals (reader s) j).
    apply reader_with_handles_same. by rewrite insert_id.
  - destruct Hwf as [Hpos _]. cbn. unfold netcdf_handle_close. cbn.
    by destruct (Z.eqb_spec (nc_next_id (lib s)) 0) as [H0|_]; [lia|].
Qed.

Lemma get_then_close_handle_witness :
  exists s1 s2,
    get_handle (R := unit) Sample.two_files "/data" "A.nc" Sample.in_use
    = (Next (0, nc_next_id (lib Sample.in_use)), s1)
    /\ close_handle (R := unit) "A.nc" s1 = (Next 0, s2)
    /\ reader s2 = reader Sample.in_use
    /\ nc_open_files (lib s2) = nc_open_files (lib Sample.in_use)
    /\ nc_next_id (lib s2) = nc_next_id (lib Sample.in_use) + 1
    /\ log s2 = log Sample.in_use.
Proof.
  apply (get_then_close_handle Sample.two_files "/data" "A.nc"
           Sample.in_use (Some Mutex) (Sample.sample_file 0 3)).
  - split; [simpl; lia|]. intros id Hid. simpl in Hid. simpl.
    rewrite !lookup_insert_ne by lia. apply lookup_empty.
  - vm_compute; reflexivity.
  - vm_compute; reflexivity.
Defined.

Lemma insert_all_lookup (v : handle_map_elem_t) (files : list string) :
  forall (h : gmap string handle_map_elem_t) k,
    foldl (fun h f => <[f := v]> h) h files !! k
    = if decide (k ∈ files) then Some v else h !! k.
Proof.
  induction files as [|f files IH]; intros h k; cbn [foldl].
  - destruct (decide (k ∈ [])) as [Hin|]; [|done]. by apply elem_of_nil in Hin.
  - rewrite IH. destruct (decide (k ∈ files)) as [Hin|Hnin].
    + rewrite decide_True; [done|]. by right.
    + destruct (decide (k = f)) as [->|Hne].
      * rewrite lookup_insert_eq. rewrite decide_True; [done|]. by left.
      * rewrite lookup_insert_ne by done. rewrite decide_False; [done|].
        intros Hin. apply elem_of_cons in Hin as [?|?]; done.
Qed.

Lemma handle_skeleton_lookup files file :
  handle_skeleton files !! file
  = if decide (file ∈ files) then Some (Some Mutex, None) else None.
Proof.
  unfold handle_skeleton. rewrite lookup_gset_to_gmap.
  destruct (decide (file ∈ files)) as [Hin|Hnin].
  - rewrite option_guard_True; [done|]. by apply elem_of_list_to_set.
  - rewrite option_guard_False; [done|]. by rewrite elem_of_list_to_set.
Qed.

Lemma insert_loop_eq {R} (v : handle_map_elem_t) (files : list string) :
  forall s,
    for_loop (R := R) files tt
      (fun file _ => do h <- get_handles; set_handles (<[file := v]> h)) s
    = (Next tt,
       with_handles s
         (foldl (fun h f => <[f := v]> h)
            (handles (internals (reader s))) files)).
Proof.
  induction files as [|f files IH]; intros s; cbn [for_loop foldl].
  - by rewrite with_handles_id.
  - unfold bind at 1. cbn [get_handles]. unfold set_handles at 1.
    unfold bind at 1. cbn [get_reader set_internals]. cbv beta iota.
    rewrite IH. reflexivity.
Qed.

Lemma bind_next {R A B} (m : M R A) (k : A -> M R B) s a s1 :
  m s = (Next a, s1) -> bind m k s = k a s1.
Proof. intros H. unfold bind. by rewrite H. Qed.

Lemma clear_handles_eq {R} s :
  clear_handles (R := R) s
  = (Next tt,
     with_handles
       (with_lib s (map_fold (fun _ e l => delete_handle e.2 l) (lib s)
                      (handles (internals (reader s))))) ∅).
Proof. reflexivity. Qed.

(** X9.  [initialize_handles] leaves exactly one entry per file name, each
    with a mutex and no handle, whatever the map held before; the valid
    handles it held before are closed; the cached record and the log are
    not touched. *)
Theorem initialize_handles_skeleton {R} (files : list string) s :
  exists s',
    initialize_handles (R := R) files s = (Next tt, s')
    /\ handles (internals (reader s')) = handle_skeleton files
    /\ (forall file,
          handles (internals (reader s')) !! file
          = if decide (file ∈ files) then Some (Some Mutex, None) else None)
    /\ (forall file e hd,
          handles (internals (reader s)) !! file = Some (e, Some hd) ->
          m_handle hd <> 0 ->
          nc_open_files (lib s') !! m_handle hd = None)
    /\ metadata (internals (reader s')) = metadata (internals (reader s))
    /\ log s' = log s.
Proof.
  eexists. split.
  { unfold initialize_handles.
    rewrite (bind_next _ _ s tt _ (clear_handles_eq s)).
    rewrite (bind_next _ _ _ tt _ (insert_loop_eq _ files _)).
    reflexivity. }
  cbn [with_handles reader lib log internals handles metadata with_internals].
  assert (Hsk : foldl (fun h f => <[f := (Some Mutex, None)]> h) ∅ files
                = handle_skeleton files).
  { apply map_eq. intros k.
    rewrite insert_all_lookup, handle_skeleton_lookup, lookup_empty. done. }
  change (handles (internals (reader (with_handles
            (with_lib s (map_fold (fun _ e l => delete_handle e.2 l) (lib s)
                           (handles (internals (reader s))))) ∅))))
    with (∅ : gmap string handle_map_elem_t).
  cbn [with_handles reader lib log internals handles metadata with_internals
       with_lib].
  split; [exact Hsk|]. split.
  { intros file. rewrite <- handle_skeleton_lookup.
    exact (f_equal (fun m => m !! file) Hsk). }
  split; [|done].
  destruct (close_all_spec (handles (internals (reader s))) (lib s))
    as (_ & Hclosed & _).
  exact Hclosed.
Qed.

(** ** The task that reads one file's time axis *)

(** What one task does, started on a file of the cache that is not
    open. *)
Lemma read_variable_outcome {R} env path file id variable s mu :
  handles (internals (reader s)) !! file = Some (mu, None) ->
  wp (read_variable (R := R) env path file id variable) s (fun fl s' =>
    exists r, fl = Next (id, r)
    /\ reader s' = reader s
    /\ (lib_wf (lib s) ->
        nc_open_files (lib s') = nc_open_files (lib s) /\ lib_wf (lib s'))
    /\ match r with
       | None => exists m ms, log s' = log s ++ m :: ms
       | Some a =>
           log s' = log s
           /\ exists f var_id n ty t vals,
                fs env (path +:+ PATH_SEP +:+ file) = Some f
                /\ inq_axis variable f = Some (var_id, n, ty)
                /\ NC_DISPATCH_FP ty = Some t
                /\ nc_data f var_id [0] [n] = Some vals
                /\ a = va_fill (va_new t n) vals
       end).
Proof.
  intros H.
  unfold read_variable. apply wp_call.
  destruct (fs env (path +:+ PATH_SEP +:+ file)) as [f|] eqn:Hfs.
  2: { wp_eq (get_handle_fails (R := (nat * p_teca_variant_array)) env path file s mu H Hfs).
       change (negb (-1 =? 0)) with true. cbv iota.
       wp_steps. exists None. cbn [reader lib log logged].
       split; [done|]. split; [done|]. split; [done|].
       eexists _, _. rewrite <- app_assoc. reflexivity. }
  wp_eq (get_handle_opens (R := (nat * p_teca_variant_array)) env path file s mu f H Hfs).
  change (negb (0 =? 0)) with false. cbv iota.
  set (id0 := nc_next_id (lib s)).
  set (p := (path +:+ PATH_SEP +:+ file)%string) in *.
  set (l1 := {| nc_open_files := <[id0 := p]> (nc_open_files (lib s));
                nc_next_id := id0 + 1 |}).
  set (h1 := <[file := (mu, Some {| m_handle := id0 |})]>
               (handles (internals (reader s)))).
  set (s1 := with_handles (with_lib s l1) h1).
  assert (Hfile : nc_file_of (fs env) (lib s1) id0 = Some f).
  { unfold nc_file_of. cbn [s1 with_handles with_lib lib l1 nc_open_files].
    rewrite lookup_insert_eq. exact Hfs. }
  assert (Hentry : handles (internals (reader s1)) !! file
                   = Some (mu, Some {| m_handle := id0 |})).
  { cbn [s1 with_handles with_lib reader internals handles with_internals].
    apply lookup_insert_eq. }
  assert (Hclose : forall t, reader t = reader s1 -> lib t = lib s1 ->
            exists t2,
              close_handle (R := nat * p_teca_variant_array) file t
              = (Next 0, t2)
              /\ reader t2 = reader s
              /\ (lib_wf (lib s) ->
                  nc_open_files (lib t2) = nc_open_files (lib s)
                  /\ lib_wf (lib t2))
              /\ log t2 = log t).
  { intros t Hrt Hlt. eexists. split.
    { eapply close_handle_eq. rewrite Hrt. exact Hentry. }
    cbn [with_handles with_lib reader lib log fst snd]. rewrite Hrt, Hlt.
    cbn [s1 with_handles with_lib reader lib log internals handles metadata
         with_internals fst snd].
    split; [|split; [|done]].
    - unfold h1. rewrite insert_insert_eq.
      change (with_internals (with_internals (reader s) ?i) ?j)
        with (with_internals (reader s) j).
      apply reader_with_handles_same. by rewrite insert_id.
    - intros Hwf. split; [by apply open_close_files|].
      apply lib_wf_close. by apply lib_wf_open. }
  assert (Hl1 : log s1 = log s) by done.
  clearbody s1.
  wp_step. rewrite Hfile. cbn [mbind option_bind].
  destruct (inq_axis variable f) as [[[var_id var_size] var_type]|] eqn:Hinq.
  2: { destruct (Hclose s1 eq_refl eq_refl) as (s2 & Hc & Hr2 & Hf2 & Hl2).
       wp_eq Hc. wp_steps. exists None. cbn [reader lib log].
       split; [done|]. split; [done|]. split; [done|].
       rewrite Hl2, Hl1. by eexists _, _. }
  apply wp_bind.
  destruct (NC_DISPATCH_FP var_type) as [t|] eqn:Ht.
  - wp_step. rewrite Hfile. cbn [mbind option_bind].
    destruct (nc_data f var_id [0] [var_size]) as [vals|] eqn:Hdata.
    + destruct (Hclose s1 eq_refl eq_refl) as (s2 & Hc & Hr2 & Hf2 & Hl2).
      wp_eq Hc. wp_steps. exists (Some (va_fill (va_new t var_size) vals)).
      split; [done|]. split; [done|]. split; [done|].
      split; [by rewrite Hl2, Hl1|].
      by exists f, var_id, var_size, var_type, t, vals.
    + destruct (Hclose s1 eq_refl eq_refl) as (s2 & Hc & Hr2 & Hf2 & Hl2).
      wp_eq Hc. wp_steps. exists None. cbn [reader lib log].
      split; [done|]. split; [done|]. split; [done|].
      rewrite Hl2, Hl1. by eexists _, _.
  - wp_step.
    destruct (Hclose (logged s1 (E_not_floating_point var_type)) eq_refl eq_refl)
      as (s2 & Hc & Hr2 & Hf2 & Hl2).
    wp_eq Hc. wp_steps. exists None. cbn [reader lib log].
    split; [done|]. split; [done|]. split; [done|].
    rewrite Hl2. cbn [logged log]. rewrite Hl1, <- app_assoc. by eexists _, _.
Qed.


(** X10.  [read_variable] hands its file back on every path.  Started on a
    file of the cache that is not open, it returns its own [id] with an
    array or with null, and leaves the reader, every entry of the cache and
    the set of open files as they were; null comes with at least one
    logged error, an array comes with none and is the variable's values
    over the whole length of the dimension of the same name. *)
Theorem read_variable_releases_handle {R} env path file id variable s mu :
  lib_wf (lib s) ->
  handles (internals (reader s)) !! file = Some (mu, None) ->
  exists r s',
    read_variable (R := R) env path file id variable s = (Next (id, r), s')
    /\ reader s' = reader s
    /\ nc_open_files (lib s') = nc_open_files (lib s)
    /\ lib_wf (lib s')
    /\ match r with
       | None => exists m ms, log s' = log s ++ m :: ms
       | Some a =>
           log s' = log s
           /\ exists f var_id n ty t vals,
                fs env (path +:+ PATH_SEP +:+ file) = Some f
                /\ inq_axis variable f = Some (var_id, n, ty)
                /\ NC_DISPATCH_FP ty = Some t
                /\ nc_data f var_id [0] [n] = Some vals
                /\ a = va_fill (va_new t n) vals
       end.
Proof.
  intros Hwf H.
  destruct (wp_elim _ _ _ (read_variable_outcome (R := R) env path file id
                             variable s mu H))
    as (fl & s' & Heq & r & -> & Hr & Hlib & Hres).
  destruct (Hlib Hwf) as [Hfiles Hwf'].
  by exists r, s'.
Qed.

Lemma read_variable_releases_handle_witness :
  exists r s',
    read_variable (R := unit) Sample.two_files "/data" "A.nc" 0 "time"
      Sample.in_use = (Next (0%nat, r), s')
    /\ reader s' = reader Sample.in_use
    /\ nc_open_files (lib s') = nc_open_files (lib Sample.in_use)
    /\ lib_wf (lib s')
    /\ match r with
       | None => exists m ms, log s' = log Sample.in_use ++ m :: ms
       | Some a =>
           log s' = log Sample.in_use
           /\ exists f var_id n ty t vals,
                fs Sample.two_files ("/data" +:+ PATH_SEP +:+ "A.nc") = Some f
                /\ inq_axis "time" f = Some (var_id, n, ty)
                /\ NC_DISPATCH_FP ty = Some t
                /\ nc_data f var_id [0] [n] = Some vals
                /\ a = va_fill (va_new t n) vals
       end.
Proof.
  apply (read_variable_releases_handle Sample.two_files "/data" "A.nc" 0
           "time" Sample.in_use (Some Mutex)).
  - split; [simpl; lia|]. intros id Hid. simpl in Hid. simpl.
    rewrite !lookup_insert_ne by lia. apply lookup_empty.
  - vm_compute; reflexivity.
Defined.

(** ** The cached record *)

Lemma wp_all {R A} (m : M R A) s (Q : flow R A -> state -> Prop) :
  (forall f s', Q f s') -> wp m s Q.
Proof. unfold wp. auto. Qed.

(** Past a command of which nothing needs to be known. *)
Tactic Notation "wp_past" "as" simple_intropattern(x) :=
  let f := fresh "f" in
  let a := fresh "a" in
  apply wp_bind, wp_all; intros f ?; destruct f as [a|?| |?];
  cbv beta iota; [|done..]; revert a; intros x.

(** A run of the phase to its end hands back what it has left in the
    cache. *)
Lemma compute_output_metadata_stores env order s :
  wp (compute_output_metadata env order) s (fun f s' =>
    forall md, f = Next md -> metadata (internals (reader s')) = md).
Proof.
  unfold compute_output_metadata. wp_step.
  wp_past as [path [|file0 rest]]; [by wp_steps|].
  wp_step.
  destruct (nc_open (fs env) _ _) as [[file_id|] l1]; [|by wp_steps].
  wp_step. wp_past as []. wp_steps.
  match goal with |- context [nc_file_of ?a ?b ?c ≫= ?d] =>
    destruct (nc_file_of a b c ≫= d) as [[[x_id n_x] x_t]|] end.
  2: { wp_past as []. by wp_steps. }
  wp_past as [[y_id n_y] y_t].
  wp_past as [[z_id n_z] z_t].
  wp_step.
  match goal with |- context [nc_file_of ?a ?b ?c ≫= ?d] =>
    destruct (nc_file_of a b c ≫= d) as [n_vars|] end.
  2: { wp_past as []. by wp_steps. }
  wp_past as [[atrs vars] time_vars].
  wp_steps. wp_past as x_axis. wp_past as y_axis. wp_past as z_axis.
  wp_past as [[t|] step_count]; wp_steps; [|done].
  by intros md [= <-].
Qed.

(** X11.  A record that [get_output_metadata] has handed back is cached:
    as long as the cache is not cleared, every later call, whatever the
    files on disk have become, hands back the same record and touches
    nothing.  (The empty record of a failed run is not covered: it is
    computed again, or a partial record takes its place.) *)
Theorem get_output_metadata_cached env env' order order' s md s1 :
  get_output_metadata env order s = (Next md, s1) ->
  md_nonempty md = true ->
  metadata (internals (reader s1)) = md
  /\ get_output_metadata env' order' s1 = (Next md, s1).
Proof.
  intros Hrun Hmd.
  assert (Hcache : metadata (internals (reader s1)) = md).
  { unfold get_output_metadata, call, bind, get_metadata in Hrun.
    destruct (md_nonempty (metadata (internals (reader s)))) eqn:Hc.
    - unfold return_ in Hrun. by injection Hrun as <- <-.
    - pose proof (compute_output_metadata_stores env order s) as Hst.
      pose proof (compute_output_metadata_spec env order s) as Hsp.
      unfold wp in Hst, Hsp.
      destruct (compute_output_metadata env order s) as [[md'|r| |e] s'];
        cbn [fst snd] in *; try done.
      + injection Hrun as <- <-. by apply Hst.
      + destruct Hsp as [_ ->]. injection Hrun as <- <-. done. }
  split; [done|].
  unfold get_output_metadata, call, bind, get_metadata.
  rewrite Hcache, Hmd. done.
Qed.

Lemma get_output_metadata_cached_witness :
  metadata (internals (reader Sample.after_metadata)) = Sample.record_2d
  /\ get_output_metadata (Sample.env [] 0) [] Sample.after_metadata
     = (Next Sample.record_2d, Sample.after_metadata).
Proof.
  apply (get_output_metadata_cached Sample.two_files (Sample.env [] 0)
           [1; 0]%nat [] (Sample.start Sample.reader_2d)).
  - vm_compute; reflexivity.
  - vm_compute; reflexivity.
Defined.

(** ** What the pieces of the metadata phase keep *)

Lemma all_closed_empty : all_closed ∅.
Proof. intros file e H. by rewrite lookup_empty in H. Qed.

Lemma all_closed_skeleton files : all_closed (handle_skeleton files).
Proof.
  intros file e H. rewrite handle_skeleton_lookup in H.
  destruct (decide (file ∈ files)); by simplify_eq.
Qed.

(** Closing the handles of a map that holds none closes nothing. *)
Lemma close_all_closed (h : gmap string handle_map_elem_t) (l : nc_lib) :
  all_closed h ->
  map_fold (fun _ (e : handle_map_elem_t) l => delete_handle e.2 l) l h = l.
Proof.
  apply (map_fold_weak_ind (fun l' (h : gmap string handle_map_elem_t) =>
           all_closed h -> l' = l)); [done|].
  intros file e m l' Hfresh IH Hall.
  rewrite (Hall file e) by apply lookup_insert_eq. cbn.
  apply IH. intros file' e' H'. apply (Hall file').
  rewrite lookup_insert_ne; [done|]. intros ->.
  pose proof (eq_trans (eq_sym H') Hfresh). discriminate.
Qed.

Lemma initialize_handles_eq {R} (files : list string) s :
  initialize_handles (R := R) files s
  = (Next tt,
     with_handles
       (with_lib s (map_fold (fun _ e l => delete_handle e.2 l) (lib s)
                      (handles (internals (reader s)))))
       (handle_skeleton files)).
Proof.
  unfold initialize_handles.
  rewrite (bind_next _ _ s tt _ (clear_handles_eq s)).
  rewrite (bind_next _ _ _ tt _ (insert_loop_eq _ files _)).
  unfold ret. f_equal.
  assert (Hsk : foldl (fun h f => <[f := (Some Mutex, None)]> h) ∅ files
                = handle_skeleton files).
  { apply map_eq. intros k.
    rewrite insert_all_lookup, handle_skeleton_lookup, lookup_empty. done. }
  exact (f_equal
           (with_handles
              (with_lib s (map_fold (fun _ e l => delete_handle e.2 l) (lib s)
                             (handles (internals (reader s))))))
           Hsk).
Qed.

Lemma still_refl s : still s s.
Proof. split; [done|]. split; [unfold log_le; lia|]. by intros Hwf _. Qed.

Lemma still_logged s s1 m :
  still s s1 ->
  still s {| reader := reader s1; lib := lib s1; log := log s1 ++ [m] |}.
Proof.
  intros (Hr & Hle & Hf). split; [done|]. split; [log_solve|done].
Qed.

Lemma still_trans s s1 s2 : still s s1 -> still s1 s2 -> still s s2.
Proof.
  intros (Hr1 & Hle1 & Hf1) (Hr2 & Hle2 & Hf2).
  split; [congruence|]. split; [log_solve|].
  intros Hwf Hall. destruct (Hf1 Hwf Hall) as [Hwf1 Hfiles1].
  rewrite Hr1 in Hf2. destruct (Hf2 Hwf1 Hall) as [Hwf2 Hfiles2].
  split; [done|congruence].
Qed.

Lemma still_gave_up s s1 s2 : still s s1 -> gave_up s1 s2 -> gave_up s s2.
Proof.
  intros (Hr1 & Hle1 & Hf1) (Hr2 & Hle2 & Hf2).
  split.
  { destruct Hr2 as (Hm & Hh & Hc).
    split; [done|]. split; [done|]. by rewrite <- Hr1. }
  split; [log_solve|].
  intros Hwf Hall. destruct (Hf1 Hwf Hall) as [Hwf1 Hfiles1].
  rewrite Hr1 in Hf2. destruct (Hf2 Hwf1 Hall) as [Hwf2 Hfiles2].
  split; [done|congruence].
Qed.

Lemma still_kept {A} s s1 (f : flow teca_metadata A) s2 :
  still s s1 -> kept s1 f s2 -> kept s f s2.
Proof.
  intros H1 H2. destruct f; cbn in *; [| destruct H2 as [-> H2]; split |..];
    eauto using still_trans, still_gave_up.
Qed.

(** Giving up after [clear_cached_metadata]. *)
Lemma clear_cached_metadata_gives_up {R A} s s1 m (r : R)
    (Q : flow R A -> state -> Prop) :
  still s s1 ->
  (forall s', gave_up s s' -> Q (Return r) s') ->
  wp (clear_cached_metadata;; TECA_ERROR m;; return_ r) s1 Q.
Proof.
  intros (Hr & Hle & Hf) HQ. unfold clear_cached_metadata, clear_handles.
  apply wp_bind. wp_steps. apply HQ. split.
  { cbn [reader internals metadata handles with_internals].
    split; [done|]. split; [done|]. unfold same_configuration.
    rewrite <- Hr. by destruct (reader s1). }
  split; [log_solve|].
  intros Hwf Hall. destruct (Hf Hwf Hall) as [Hwf1 Hfiles1].
  cbn [reader lib internals metadata handles with_internals].
  rewrite close_all_closed by by rewrite Hr.
  by split.
Qed.

Ltac gives_up s :=
  apply (clear_cached_metadata_gives_up s);
  [first [done | apply still_refl] | by intros].

Lemma read_attributes_kept env file_id i n_atts atts s :
  wp (read_attributes env file_id i n_atts atts) s (fun f s' =>
    match f with
    | Return (Exit r) => r = [] /\ gave_up s s'
    | Return (Continue _) => False
    | _ => still s s'
    end).
Proof.
  unfold read_attributes.
  apply (wp_for_loop (fun _ s' => still s s')); [apply still_refl| |done].
  intros ii acc s1 _ Hst. wp_step.
  destruct (nc_file_of (fs env) (lib s1) file_id ≫= _)
    as [[att_name [att_type att_len]]|].
  - destruct (att_type =? NC_CHAR); wp_steps; done.
  - gives_up s.
Qed.

Lemma enumerate_variables_kept env file_id t_axis n_vars s :
  wp (enumerate_variables env file_id t_axis n_vars) s (kept s).
Proof.
  unfold enumerate_variables.
  apply (wp_for_loop (fun _ s' => still s s')); [apply still_refl| |done].
  intros i [[atrs vars] time_vars] s1 _ Hst. wp_step.
  destruct (nc_file_of (fs env) (lib s1) file_id ≫= _) as [v|].
  2: gives_up s.
  destruct (decide (length (var_dim_ids v) = 0%nat)); [by wp_steps|].
  apply wp_bind.
  apply (wp_for_loop (fun _ s' => still s s')); [done| |].
  - intros [ii dim_id] [dims dim_names] s2 _ Hst2. wp_step.
    destruct (nc_file_of (fs env) (lib s2) file_id ≫= _) as [[dim_name dim]|].
    + by wp_steps.
    + gives_up s.
  - intros [dims dim_names] s2 Hst2.
    wp_use read_attributes_kept. intros f s3 Hf.
    destruct f as [atts|[?|r]| |e]; try done.
    + wp_steps. by eapply still_trans.
    + destruct Hf as [-> Hf]. split; [done|]. by eapply still_gave_up.
    + by eapply still_trans.
    + by eapply still_trans.
Qed.

Lemma read_axis_kept env file_id id n tc err s :
  wp (read_axis env file_id id n tc err) s (kept s).
Proof.
  unfold read_axis. destruct (NC_DISPATCH_FP tc) as [t|].
  - wp_step. destruct (nc_file_of (fs env) (lib s) file_id ≫= _) as [vals|].
    + wp_steps. apply still_refl.
    + gives_up s.
  - wp_steps. apply still_logged, still_refl.
Qed.

Lemma default_axis_kept x_t s :
  wp (default_axis x_t) s (kept s).
Proof.
  unfold default_axis. destruct (NC_DISPATCH_FP x_t) as [t|]; wp_steps.
  - apply still_refl.
  - apply still_logged, still_refl.
Qed.

Lemma inq_optional_axis_kept env file_id name err s :
  wp (inq_optional_axis env file_id name err) s (kept s).
Proof.
  unfold inq_optional_axis. destruct (negb (String.eqb name "")).
  - wp_step.
    destruct (nc_file_of (fs env) (lib s) file_id ≫= inq_axis _) as [q|].
    + wp_steps. apply still_refl.
    + gives_up s.
  - wp_steps. apply still_refl.
Qed.

Lemma read_optional_axis_kept env file_id name id n tc x_t err s :
  wp (read_optional_axis env file_id name id n tc x_t err) s (kept s).
Proof.
  unfold read_optional_axis. destruct (negb (String.eqb name "")).
  - apply read_axis_kept.
  - apply default_axis_kept.
Qed.

Lemma get_handle_absent {R} env path file s :
  handles (internals (reader s)) !! file = None ->
  get_handle (R := R) env path file s = (Fault, s).
Proof.
  intros H. unfold get_handle, call, bind, get_handles.
  match goal with
  | |- context [match ?x with Some _ => _ | None => fault end] =>
      replace x with (@None handle_map_elem_t) by (symmetry; exact H)
  end.
  done.
Qed.

Lemma read_variable_kept {R} env path file id variable s :
  all_closed (handles (internals (reader s))) ->
  wp (read_variable (R := R) env path file id variable) s (fun f s' =>
    still s s' /\ match f with Return _ => False | _ => True end).
Proof.
  intros Hall.
  destruct (handles (internals (reader s)) !! file) as [[mu hd]|] eqn:H.
  - pose proof (Hall _ _ H) as Hhd. cbn in Hhd. subst hd.
    eapply wp_mono; [by eapply @read_variable_outcome|].
    intros f s' (r & -> & Hr & Hlib & Hres). split; [|done].
    split; [done|]. split.
    + destruct r as [a|].
      * destruct Hres as [Hlog _]. unfold log_le. rewrite Hlog. lia.
      * destruct Hres as (m & ms & Hlog). unfold log_le. rewrite Hlog.
        rewrite length_app. lia.
    + intros Hwf _. destruct (Hlib Hwf). by split.
  - unfold read_variable. apply wp_call.
    wp_eq (get_handle_absent (R := nat * p_teca_variant_array) env path file s H).
    split; [apply still_refl|done].
Qed.

Lemma assemble_time_axis_kept time_arrays n_files s :
  wp (assemble_time_axis time_arrays n_files) s (fun f s' =>
    still s s'
    /\ match f with Return r => r = [] /\ log_lt s s' | _ => True end).
Proof.
  unfold assemble_time_axis. destruct (map_at time_arrays 0) as [t0|].
  - wp_use @append_time_arrays_spec. intros f s' [-> Hf].
    destruct f as [[t sc]|r| |e]; try done; [wp_steps|..];
      (split; [apply still_refl|done]).
  - wp_steps. split; [apply still_logged, still_refl|].
    split; [done|log_solve].
Qed.

(** The time axis stage never clears the cache: when it gives up, the
    record stored so far stays. *)
Lemma read_time_axis_kept env order path files t_axis s :
  all_closed (handles (internals (reader s))) ->
  wp (read_time_axis env order path files t_axis) s (fun f s' =>
    still s s'
    /\ match f with Return r => r = [] /\ log_lt s s' | _ => True end).
Proof.
  intros Hall. unfold read_time_axis. apply wp_bind.
  apply (wp_for_loop (fun _ s' => still s s')); [apply still_refl| |].
  - intros [i file] results s1 _ Hst.
    wp_use @read_variable_kept.
    { destruct Hst as [-> _]. exact Hall. }
    intros f s2 [Hst2 Hf]. pose proof (still_trans _ _ _ Hst Hst2).
    by destruct f.
  - intros results s1 Hst.
    eapply wp_mono; [apply assemble_time_axis_kept|].
    intros f s2 [Hst2 Hf]. split; [by eapply still_trans|].
    destruct f; try done. destruct Hf as [-> Hlt]. split; [done|].
    destruct Hst as (_ & Hle & _). log_solve.
Qed.

(** ** The schema of the first file *)

(** A loop rule that knows how far the loop has come. *)
Lemma wp_for_loop_pre {R Acc A} (Inv : list A -> Acc -> state -> Prop)
    (l : list A) acc (body : A -> Acc -> M (loop_exit R Acc) Acc) s
    (Q : flow R Acc -> state -> Prop) :
  Inv [] acc s ->
  (forall pre a post acc s, l = pre ++ a :: post -> Inv pre acc s ->
     wp (body a acc) s (fun f s1 =>
       match f with
       | Next acc1 | Return (Continue acc1) => Inv (pre ++ [a]) acc1 s1
       | Return (Exit r) => Q (Return r) s1
       | Fault => Q Fault s1
       | Raise e => Q (Raise e) s1
       end)) ->
  (forall acc s, Inv l acc s -> Q (Next acc) s) ->
  wp (for_loop l acc body) s Q.
Proof.
  revert Inv acc s. induction l as [|a l IH]; intros Inv acc s H0 Hbody Hend.
  - by apply Hend.
  - cbn [for_loop]. unfold wp.
    pose proof (Hbody [] a l acc s eq_refl H0) as Hb. unfold wp in Hb.
    destruct (body a acc s) as [[acc1|[acc1|r]| |e] s1]; cbn [fst snd] in *;
      try done.
    + apply (IH (fun pre => Inv (a :: pre))); [done| |done].
      intros pre a' post acc' s' -> Hinv.
      by apply (Hbody (a :: pre) a' post).
    + apply (IH (fun pre => Inv (a :: pre))); [done| |done].
      intros pre a' post acc' s' -> Hinv.
      by apply (Hbody (a :: pre) a' post).
Qed.

Lemma seq_split n pre (a : nat) post :
  seq 0 n = pre ++ a :: post -> a = length pre /\ (a < n)%nat.
Proof.
  intros H.
  assert (Ha : seq 0 n !! length pre = Some a).
  { rewrite H. by rewrite lookup_app_r, Nat.sub_diag by lia. }
  apply lookup_seq in Ha. lia.
Qed.

Lemma md_lookup_insert k k' v m :
  md_lookup k (md_insert k' v m)
  = if String.eqb k' k then Some v else md_lookup k m.
Proof.
  destruct (String.eqb_spec k' k) as [->|Hne].
  - apply md_lookup_insert_eq.
  - by apply md_lookup_insert_ne.
Qed.

Lemma read_attributes_next env file_id i n_atts atts s :
  wp (read_attributes env file_id i n_atts atts) s (fun fl s' =>
    match fl with
    | Next _ => s' = s
    | Return (Continue _) => False
    | _ => True
    end).
Proof.
  unfold read_attributes.
  apply (wp_for_loop (fun _ s' => s' = s)); [done| |done].
  intros ii acc s1 _ ->. wp_step.
  destruct (nc_file_of (fs env) (lib s) file_id ≫= _)
    as [[att_name [att_type att_len]]|].
  - destruct (att_type =? NC_CHAR); by wp_steps.
  - wp_use @clear_cached_metadata_steady. intros fl s2 [-> _]. by wp_steps.
Qed.

(** What the schema loop records when it runs to its end. *)
Lemma enumerate_variables_spec env file_id t_axis f s :
  nc_file_of (fs env) (lib s) file_id = Some f ->
  wp (enumerate_variables env file_id t_axis (length (nc_vars f))) s
    (fun fl s' =>
       forall atrs vars time_vars, fl = Next (atrs, vars, time_vars) ->
         s' = s
         /\ vars = var_name <$> List.filter is_array_variable (nc_vars f)
         /\ time_vars
            = var_name <$> List.filter (is_time_variable f t_axis) (nc_vars f)
         /\ forall name, is_Some (md_lookup name atrs) <-> name ∈ vars).
Proof.
  intros Hfile. unfold enumerate_variables.
  apply (wp_for_loop_pre (fun pre '(atrs, vars, time_vars) s' =>
    s' = s
    /\ vars = var_name <$> List.filter is_array_variable
                             (take (length pre) (nc_vars f))
    /\ time_vars = var_name <$> List.filter (is_time_variable f t_axis)
                                  (take (length pre) (nc_vars f))
    /\ forall name, is_Some (md_lookup name atrs) <-> name ∈ vars)).
  - split; [done|]. split; [done|]. split; [done|]. intros name. cbn.
    rewrite elem_of_nil. split; [by intros [? ?]|done].
  - intros pre i post [[atrs vars] time_vars] s1 Hsplit
      (-> & Hvars & Htv & Hatrs).
    apply seq_split in Hsplit as [-> Hlt].
    destruct (lookup_lt_is_Some_2 (nc_vars f) (length pre) Hlt) as [v Hv].
    assert (Htake : take (length (pre ++ [length pre])) (nc_vars f)
                    = take (length pre) (nc_vars f) ++ [v]).
    { rewrite length_app. cbn [length]. rewrite Nat.add_1_r.
      by apply take_S_r. }
    wp_step. rewrite Hfile. cbn [mbind option_bind]. unfold nc_inq_var.
    rewrite Hv.
    destruct (decide (length (var_dim_ids v) = 0%nat)) as [Hz|Hnz].
    { wp_steps. rewrite Htake, !List.filter_app. cbn [List.filter].
      unfold is_array_variable at 2, is_time_variable at 2.
      rewrite bool_decide_true by done. cbn [negb].
      destruct (var_dim_ids v) as [|d []]; try done.
      by rewrite !app_nil_r. }
    apply wp_bind.
    apply (wp_for_loop_pre (fun pre' '(dims, dim_names) s' =>
      s' = s
      /\ Forall2 (fun id name => dim_name <$> nc_dims f !! id = Some name)
           (pre'.*2) dim_names)).
    + by split.
    + intros pre' [ii dim_id] post' [dims dim_names] s2 _ [-> Hnames].
      wp_step. rewrite Hfile. cbn [mbind option_bind]. unfold nc_inq_dim.
      destruct (nc_dims f !! dim_id) as [d|] eqn:Hd; cbn [fmap option_fmap option_map].
      * wp_steps. split; [done|]. rewrite fmap_app. cbn.
        apply Forall2_app; [done|]. constructor; [|done]. by rewrite Hd.
      * wp_use @clear_cached_metadata_steady. intros fl s2 [-> _].
        by wp_steps.
    + intros [dims dim_names] s2 [-> Hnames].
      assert (Hids : (imap pair (var_dim_ids v)).*2 = var_dim_ids v).
      { clear. generalize (var_dim_ids v). intros l.
        change pair with (fun (i : nat) (x : nat) => (id i, x)).
        generalize (@id nat). induction l as [|y l IH]; intros g; [done|].
        cbn. f_equal. apply (IH (g ∘ S)). }
      rewrite Hids in Hnames.
      wp_use read_attributes_next. intros fl s3 Hfl.
      destruct fl as [atts|[?|r]| |e]; try done. subst s3.
      wp_steps. split; [done|].
      rewrite Htake, !List.filter_app. cbn [List.filter].
      unfold is_array_variable at 2.
      rewrite bool_decide_false by done. cbn [negb].
      rewrite !fmap_app. cbn [fmap list_fmap].
      split; [by rewrite Hvars|]. split.
      * rewrite Htv. f_equal. unfold is_time_variable.
        destruct Hnames as [|d nm ids nms Hd Hrest]; [done|].
        destruct Hrest as [|d' nm' ids' nms' Hd' Hrest'].
        -- cbn [length]. rewrite bool_decide_true by done. cbn [andb lookup].
           rewrite Hd. cbn.
           destruct (decide (nm = t_axis)) as [->|Hne].
           ++ by rewrite !bool_decide_true by done.
           ++ rewrite !bool_decide_false by congruence. cbn.
              by rewrite app_nil_r.
        -- cbn [length]. rewrite bool_decide_false by done. cbn.
           by rewrite app_nil_r.
      * intros name. rewrite md_lookup_insert, elem_of_app, list_elem_of_singleton.
        destruct (String.eqb_spec (var_name v) name) as [->|Hne].
        -- split; [by right|by eauto].
        -- rewrite Hatrs. split; [by left|].
           intros [?|?]; [done|congruence].
  - intros [[atrs vars] time_vars] s1 (-> & Hvars & Htv & Hatrs).
    intros ? ? ? [= <- <- <-].
    rewrite length_seq, firstn_all in *. done.
Qed.

Lemma enumerate_variables_spec_open env file_id t_axis n_vars s :
  wp (enumerate_variables env file_id t_axis n_vars) s (fun fl s' =>
    forall f, nc_file_of (fs env) (lib s) file_id = Some f ->
      n_vars = length (nc_vars f) ->
      forall atrs vars time_vars, fl = Next (atrs, vars, time_vars) ->
        vars = var_name <$> List.filter is_array_variable (nc_vars f)
        /\ time_vars
           = var_name <$> List.filter (is_time_variable f t_axis) (nc_vars f)
        /\ forall name, is_Some (md_lookup name atrs) <-> name ∈ vars).
Proof.
  unfold wp. intros f Hfile -> atrs vars time_vars Hrun.
  pose proof (enumerate_variables_spec env file_id t_axis f s Hfile) as Hsp.
  unfold wp in Hsp. by apply Hsp.
Qed.

(** X19.  When the schema loop runs to its end on the file [f], the
    variables it lists are the variables of [f] that are not scalars, in
    the order of the file; the time variables are those among them that
    have one dimension, named as the time axis; the attribute bag holds an
    entry for each listed variable and for nothing else; and nothing but the
    result has changed. *)
Theorem enumerate_variables_lists_variables env file_id t_axis f s
    atrs vars time_vars s' :
  nc_file_of (fs env) (lib s) file_id = Some f ->
  enumerate_variables env file_id t_axis (length (nc_vars f)) s
  = (Next (atrs, vars, time_vars), s') ->
  s' = s
  /\ vars = var_name <$> List.filter is_array_variable (nc_vars f)
  /\ time_vars
     = var_name <$> List.filter (is_time_variable f t_axis) (nc_vars f)
  /\ forall name, is_Some (md_lookup name atrs) <-> name ∈ vars.
Proof.
  intros Hfile Hrun.
  pose proof (enumerate_variables_spec env file_id t_axis f s Hfile) as Hsp.
  unfold wp in Hsp. rewrite Hrun in Hsp. by apply Hsp.
Qed.

Lemma enumerate_variables_lists_variables_witness :
  exists atrs vars time_vars s',
    s' = Sample.in_use
    /\ vars = var_name <$> List.filter is_array_variable
                             (nc_vars (Sample.sample_file 3 2))
    /\ time_vars
       = var_name <$> List.filter
                        (is_time_variable (Sample.sample_file 3 2) "time")
                        (nc_vars (Sample.sample_file 3 2))
    /\ forall name, is_Some (md_lookup name atrs) <-> name ∈ vars.
Proof.
  eexists _, _, _, _.
  apply (enumerate_variables_lists_variables Sample.two_files 65539 "time"
           (Sample.sample_file 3 2) Sample.in_use).
  - vm_compute; reflexivity.
  - vm_compute; reflexivity.
Defined.

(** ** What the metadata phase keeps, as a whole *)

Lemma wp_and {R A} (m : M R A) s (Q1 Q2 : flow R A -> state -> Prop) :
  wp m s Q1 -> wp m s Q2 -> wp m s (fun f s' => Q1 f s' /\ Q2 f s').
Proof. unfold wp. auto. Qed.

(** Through a command with two proved outcomes. *)
Ltac wp_use2 lem1 lem2 :=
  lazymatch goal with
  | |- wp (bind _ _) _ _ =>
      apply wp_bind; eapply wp_mono; [apply wp_and; [apply lem1|apply lem2]|]
  | |- wp _ _ _ => eapply wp_mono; [apply wp_and; [apply lem1|apply lem2]|]
  end;
  cbv beta iota.

Lemma same_configuration_refl r : same_configuration r r.
Proof. unfold same_configuration. by destruct r. Qed.

Lemma same_configuration_with r i :
  same_configuration r (with_internals r i).
Proof. done. Qed.

Lemma same_configuration_with_r r r' i :
  same_configuration r r' -> same_configuration r (with_internals r' i).
Proof. unfold same_configuration. by intros <-. Qed.

Lemma same_configuration_trans r1 r2 r3 :
  same_configuration r1 r2 -> same_configuration r2 r3 ->
  same_configuration r1 r3.
Proof. unfold same_configuration. intros <- <-. done. Qed.

Lemma handle_skeleton_first file0 rest :
  <[file0 := (Some Mutex, None)]> (handle_skeleton (file0 :: rest))
  = handle_skeleton (file0 :: rest).
Proof.
  apply insert_id. rewrite handle_skeleton_lookup.
  rewrite decide_True; [done|]. by left.
Qed.

(** What the phase keeps once the first file is open: the configuration;
    the files that were open, and the first file on top of them; the handle
    map of [initialize_handles], unless the cache is cleared. *)
Lemma compute_output_metadata_keeps env order s path file0 rest f0 :
  data_set env (reader s) = Some (path, file0 :: rest) ->
  fs env (path +:+ PATH_SEP +:+ file0) = Some f0 ->
  wp (compute_output_metadata env order) s (fun f s' =>
    same_configuration (reader s) (reader s')
    /\ (lib_wf (lib s) -> all_closed (handles (internals (reader s))) ->
        lib_wf (lib s')
        /\ nc_open_files (lib s')
           = <[nc_next_id (lib s) := path +:+ PATH_SEP +:+ file0]>
               (nc_open_files (lib s)))
    /\ match f with
       | Next md =>
           metadata (internals (reader s')) = md
           /\ handles (internals (reader s')) = handle_skeleton (file0 :: rest)
           /\ md_lookup "files" md = Some (md_strings (file0 :: rest))
           /\ md_lookup "root" md = Some (md_string path)
           /\ exists atrs vars time_vars,
                md_lookup "variables" md = Some (md_strings vars)
                /\ md_lookup "time variables" md
                   = Some (md_strings time_vars)
                /\ md_lookup "attributes" md = Some (MdBag atrs)
                /\ (lib_wf (lib s) ->
                    all_closed (handles (internals (reader s))) ->
                    vars = var_name <$> List.filter is_array_variable
                                          (nc_vars f0)
                    /\ time_vars
                       = var_name <$> List.filter
                           (is_time_variable f0 (t_axis_variable (reader s)))
                           (nc_vars f0)
                    /\ forall name,
                         is_Some (md_lookup name atrs) <-> name ∈ vars)
       | Return r =>
           r = [] /\ log_lt s s'
           /\ ((metadata (internals (reader s')) = []
                /\ handles (internals (reader s')) = ∅)
               \/ (handles (internals (reader s')) = handle_skeleton (file0 :: rest)
                   /\ exists atrs vars time_vars,
                        metadata (internals (reader s'))
                        = schema_record atrs vars time_vars
                            (metadata (internals (reader s)))))
       | _ => handles (internals (reader s')) = handle_skeleton (file0 :: rest)
       end).
Proof.
  intros Hds Hfs. unfold compute_output_metadata. wp_step.
  apply wp_bind.
  eapply (wp_of_eq _ _ (Next (path, file0 :: rest)) s).
  { unfold data_set in Hds.
    destruct (negb (String.eqb (file_name (reader s)) "")).
    - by simplify_eq.
    - destruct (locate_files env _ _) as [files|]; by simplify_eq. }
  cbv beta iota. wp_step. unfold nc_open. rewrite Hfs. cbv beta iota zeta.
  wp_step.
  wp_eq (initialize_handles_eq (R := teca_metadata) (file0 :: rest)).
  wp_steps.
  match goal with |- wp _ ?st _ => remember st as s1 eqn:Hs1 end.
  assert (Hr1 : reader s1
                = with_internals (reader s)
                    {| metadata := metadata (internals (reader s));
                       handles := handle_skeleton (file0 :: rest) |}).
  { rewrite Hs1. cbn [reader with_handles with_lib internals metadata handles
                      with_internals].
    by rewrite handle_skeleton_first. }
  assert (Hlib1 : lib_wf (lib s) ->
                  all_closed (handles (internals (reader s))) ->
                  lib_wf (lib s1)
                  /\ nc_open_files (lib s1)
                     = <[nc_next_id (lib s) := path +:+ PATH_SEP +:+ file0]>
                         (nc_open_files (lib s))).
  { intros Hwf Hall. rewrite Hs1.
    cbn [reader lib with_handles with_lib internals metadata handles
         with_internals].
    rewrite close_all_closed by done. split; [by apply lib_wf_open|done]. }
  assert (Hlog1 : log s1 = log s) by by rewrite Hs1.
  clear Hs1.
  match goal with |- wp _ _ ?Q => set (Q0 := Q) end.
  set (F := <[nc_next_id (lib s) := path +:+ PATH_SEP +:+ file0]>
              (nc_open_files (lib s))) in *.
  set (files := file0 :: rest) in *.
  assert (Hall1 : all_closed (handles (internals (reader s1)))).
  { rewrite Hr1. apply all_closed_skeleton. }
  (* what is known at a state reached from [s1] with the reader as it was *)
  assert (Hat1 : forall sk, still s1 sk ->
            same_configuration (reader s) (reader sk)
            /\ (lib_wf (lib s) -> all_closed (handles (internals (reader s))) ->
                lib_wf (lib sk) /\ nc_open_files (lib sk) = F)
            /\ handles (internals (reader sk)) = handle_skeleton files
            /\ metadata (internals (reader sk)) = metadata (internals (reader s))
            /\ log_le s sk).
  { intros sk (Hr & Hle & Hf). rewrite Hr, Hr1.
    split; [done|]. split; [|split; [done|split; [done|log_solve]]].
    intros Hwf Hall. destruct (Hlib1 Hwf Hall) as [Hwf1 HF1].
    destruct (Hf Hwf1 Hall1) as [Hwfk HFk]. split; [done|congruence]. }
  assert (Hfin1 : forall s', gave_up s1 s' -> Q0 (Return []) s').
  { intros s' ((Hm & Hh & Hc) & Hlt & Hf). unfold Q0.
    split; [|split; [|split; [done|split; [log_solve|by left]]]].
    - eapply same_configuration_trans; [|exact Hc]. by rewrite Hr1.
    - intros Hwf Hall. destruct (Hlib1 Hwf Hall) as [Hwf1 HF1].
      destruct (Hf Hwf1 Hall1) as [Hwfk HFk]. split; [done|congruence]. }
  assert (Hstop1 : forall s', still s1 s' ->
            Q0 Fault s' /\ forall e, Q0 (Raise e) s').
  { intros s' Hst.
    destruct (Hat1 _ Hst) as (Hc & Hl & Hh & Hm & Hle). by unfold Q0. }
  (* the x axis *)
  destruct (nc_file_of (fs env) (lib s1) _ ≫= inq_axis _)
    as [[[x_id n_x] x_t]|].
  2: { apply (clear_cached_metadata_gives_up s1); [apply still_refl|done]. }
  wp_use inq_optional_axis_kept. intros f s2 Hk.
  destruct f as [[[y_id n_y] y_t]|r| |e];
    cbv beta iota;
    [|destruct Hk as [-> Hk]; by apply Hfin1
     |by apply (proj1 (Hstop1 _ Hk))|by apply (proj2 (Hstop1 _ Hk))].
  cbn in Hk.
  wp_use inq_optional_axis_kept. intros f s3 Hk3.
  apply (still_kept _ _ _ _ Hk) in Hk3. clear dependent s2.
  destruct f as [[[z_id n_z] z_t]|r| |e];
    cbv beta iota;
    [|destruct Hk3 as [-> Hk3]; by apply Hfin1
     |by apply (proj1 (Hstop1 _ Hk3))|by apply (proj2 (Hstop1 _ Hk3))].
  cbn in Hk3. wp_step.
  destruct (nc_file_of (fs env) (lib s3) _ ≫= nc_inq_nvars) as [n_vars|]
    eqn:Hnv.
  2: { apply (clear_cached_metadata_gives_up s1); [done|done]. }
  wp_use2 enumerate_variables_kept enumerate_variables_spec_open.
  intros f s4 [Hk4 Hsp4].
  assert (Hschema : forall atrs vars time_vars,
            f = Next (atrs, vars, time_vars) ->
            lib_wf (lib s) -> all_closed (handles (internals (reader s))) ->
            vars = var_name <$> List.filter is_array_variable (nc_vars f0)
            /\ time_vars
               = var_name <$> List.filter
                   (is_time_variable f0 (t_axis_variable (reader s)))
                   (nc_vars f0)
            /\ forall name, is_Some (md_lookup name atrs) <-> name ∈ vars).
  { intros atrs vars time_vars Hf Hwf Hall.
    destruct (Hat1 _ Hk3) as (_ & Hl3 & _).
    destruct (Hl3 Hwf Hall) as [_ HF3].
    assert (Hfile : nc_file_of (fs env) (lib s3) (nc_next_id (lib s))
                    = Some f0).
    { unfold nc_file_of. rewrite HF3. unfold F. rewrite lookup_insert_eq.
      exact Hfs. }
    rewrite Hfile in Hnv. cbn in Hnv. injection Hnv as <-.
    by apply (Hsp4 f0 Hfile eq_refl). }
  clear Hsp4 Hnv.
  apply (still_kept _ _ _ _ Hk3) in Hk4. clear dependent s3.
  destruct f as [[[atrs vars] time_vars]|r| |e];
    cbv beta iota;
    [|destruct Hk4 as [-> Hk4]; by apply Hfin1
     |by apply (proj1 (Hstop1 _ Hk4))|by apply (proj2 (Hstop1 _ Hk4))].
  cbn in Hk4. specialize (Hschema _ _ _ eq_refl). wp_steps.
  destruct (Hat1 _ Hk4) as (Hc4 & Hl4 & Hh4 & Hm4 & Hle4).
  match goal with |- wp _ ?st _ => remember st as s5 eqn:Hs5 end.
  assert (Hr5 : reader s5
                = with_internals (reader s4)
                    {| metadata := schema_record atrs vars time_vars
                                     (metadata (internals (reader s)));
                       handles := handle_skeleton files |}).
  { rewrite Hs5. cbn [reader]. by rewrite Hm4, Hh4. }
  assert (Hlib5 : lib s5 = lib s4) by by rewrite Hs5.
  assert (Hlog5 : log s5 = log s4) by by rewrite Hs5.
  clear Hs5.
  assert (Hall5 : all_closed (handles (internals (reader s5)))).
  { rewrite Hr5. apply all_closed_skeleton. }
  assert (Hat5 : forall sk, still s5 sk ->
            same_configuration (reader s) (reader sk)
            /\ (lib_wf (lib s) -> all_closed (handles (internals (reader s))) ->
                lib_wf (lib sk) /\ nc_open_files (lib sk) = F)
            /\ handles (internals (reader sk)) = handle_skeleton files
            /\ metadata (internals (reader sk))
               = schema_record atrs vars time_vars
                   (metadata (internals (reader s)))
            /\ log_le s sk).
  { intros sk (Hr & Hle & Hf). rewrite Hr, Hr5.
    split; [by apply same_configuration_with_r|].
    split; [|split; [done|split; [done|log_solve]]].
    intros Hwf Hall. destruct (Hl4 Hwf Hall) as [Hwf4 HF4].
    rewrite <- Hlib5 in Hwf4, HF4.
    destruct (Hf Hwf4 Hall5) as [Hwfk HFk]. split; [done|congruence]. }
  assert (Hfin5 : forall s', gave_up s5 s' -> Q0 (Return []) s').
  { intros s' ((Hm & Hh & Hc) & Hlt & Hf). unfold Q0.
    split; [|split; [|split; [done|split; [log_solve|by left]]]].
    - eapply same_configuration_trans; [|exact Hc]. rewrite Hr5.
      by apply same_configuration_with_r.
    - intros Hwf Hall. destruct (Hl4 Hwf Hall) as [Hwf4 HF4].
      rewrite <- Hlib5 in Hwf4, HF4.
      destruct (Hf Hwf4 Hall5) as [Hwfk HFk]. split; [done|congruence]. }
  assert (Hstop5 : forall s', still s5 s' ->
            Q0 Fault s' /\ forall e, Q0 (Raise e) s').
  { intros s' Hst.
    destruct (Hat5 _ Hst) as (Hc & Hl & Hh & Hm & Hle). by unfold Q0. }
  clear Hfin1 Hstop1 Hat1.
  (* the coordinate arrays *)
  wp_use read_axis_kept. intros f s6 Hk6.
  destruct f as [x_axis|r| |e];
    cbv beta iota;
    [|destruct Hk6 as [-> Hk6]; by apply Hfin5
     |by apply (proj1 (Hstop5 _ Hk6))|by apply (proj2 (Hstop5 _ Hk6))].
  cbn in Hk6.
  wp_use read_optional_axis_kept. intros f s7 Hk7.
  apply (still_kept _ _ _ _ Hk6) in Hk7. clear dependent s6.
  destruct f as [y_axis|r| |e];
    cbv beta iota;
    [|destruct Hk7 as [-> Hk7]; by apply Hfin5
     |by apply (proj1 (Hstop5 _ Hk7))|by apply (proj2 (Hstop5 _ Hk7))].
  cbn in Hk7.
  wp_use read_optional_axis_kept. intros f s8 Hk8.
  apply (still_kept _ _ _ _ Hk7) in Hk8. clear dependent s7.
  destruct f as [z_axis|r| |e];
    cbv beta iota;
    [|destruct Hk8 as [-> Hk8]; by apply Hfin5
     |by apply (proj1 (Hstop5 _ Hk8))|by apply (proj2 (Hstop5 _ Hk8))].
  cbn in Hk8.
  (* the time axis *)
  apply wp_bind.
  eapply (wp_mono _ _ (fun f s9 =>
    still s5 s9
    /\ match f with Return r => r = [] /\ log_lt s5 s9 | _ => True end)).
  { destruct (negb (String.eqb (t_axis_variable (reader s)) "")).
    - eapply wp_mono; [apply read_time_axis_kept|].
      { destruct Hk8 as [-> _]. exact Hall5. }
      intros f s9 [Hst9 Hf]. split; [by eapply still_trans|].
      destruct f; try done. destruct Hf as [-> Hlt]. split; [done|].
      destruct Hk8 as (_ & Hle & _). log_solve.
    - unfold default_axis.
      destruct (NC_DISPATCH_FP x_t); wp_steps;
        (split; [|done]); [done|]. by apply still_logged. }
  intros f s9 [Hst9 Hf].
  destruct (Hat5 _ Hst9) as (Hc9 & Hl9 & Hh9 & Hm9 & Hle9).
  destruct f as [[t_axis step_count]|r| |e];
    [| |by apply (proj1 (Hstop5 _ Hst9))|by apply (proj2 (Hstop5 _ Hst9))].
  2: { destruct Hf as [-> Hlt]. unfold Q0.
       split; [done|]. split; [done|]. split; [done|].
       split; [log_solve|]. right. split; [done|]. by eexists _, _, _. }
  wp_steps. destruct t_axis as [t|]; wp_steps; unfold Q0;
    cbn [reader lib log internals metadata handles with_internals].
  - split; [by do 2 apply same_configuration_with_r|]. split; [done|].
    split; [done|]. split; [done|].
    split; [by md_lookup_solve|]. split; [by md_lookup_solve|].
    exists atrs, vars, time_vars. rewrite Hm9. unfold schema_record.
    split; [by md_lookup_solve|]. split; [by md_lookup_solve|].
    split; [by md_lookup_solve|]. done.
  - split; [by apply same_configuration_with_r|]. split; [done|]. done.
Qed.

(** The runs that stop before the first file is open. *)
Lemma compute_output_metadata_unlocated env order s :
  data_set env (reader s) = None ->
  compute_output_metadata env order s = (Return [], logged s E_locate_files).
Proof.
  intros Hds. unfold compute_output_metadata, data_set in *.
  unfold bind at 1. cbn [get_reader]. unfold bind at 1.
  destruct (negb (String.eqb (file_name (reader s)) "")); [done|].
  by destruct (locate_files env _ _).
Qed.

Lemma compute_output_metadata_no_file env order s path :
  data_set env (reader s) = Some (path, []) ->
  compute_output_metadata env order s = (Fault, s).
Proof.
  intros Hds. unfold compute_output_metadata, data_set in *.
  unfold bind at 1. cbn [get_reader]. unfold bind at 1.
  destruct (negb (String.eqb (file_name (reader s)) "")); [done|].
  destruct (locate_files env _ _); by simplify_eq.
Qed.

Lemma compute_output_metadata_unopened env order s path file0 rest :
  data_set env (reader s) = Some (path, file0 :: rest) ->
  fs env (path +:+ PATH_SEP +:+ file0) = None ->
  compute_output_metadata env order s
  = (Return [], logged s E_open_first_file).
Proof.
  intros Hds Hfs. unfold compute_output_metadata, data_set in *.
  unfold bind at 1. cbn [get_reader]. unfold bind at 1.
  destruct (negb (String.eqb (file_name (reader s)) "")).
  - simplify_eq. cbn [ret]. unfold bind at 1. cbn [get_lib].
    unfold nc_open. by rewrite Hfs.
  - destruct (locate_files env _ _); simplify_eq.
    cbn [ret]. unfold bind at 1. cbn [get_lib].
    unfold nc_open. by rewrite Hfs.
Qed.

Lemma get_output_metadata_computes env order s :
  md_nonempty (metadata (internals (reader s))) = false ->
  get_output_metadata env order s
  = call (compute_output_metadata env order) s.
Proof.
  intros Hc. unfold get_output_metadata, call, bind, get_metadata.
  by rewrite Hc.
Qed.

(** ** The files the metadata phase leaves open *)

(** X12.  The phase never closes the file it opens first.  Run on a reader
    that holds no open handle, a phase that gets as far as opening the
    first file of the data set leaves, whatever its outcome, exactly that
    one file open on top of the files that were open before, and no entry
    of the handle map holds it. *)
Theorem get_output_metadata_leaves_first_file_open env order s path file0 rest
    f0 fl s' :
  md_nonempty (metadata (internals (reader s))) = false ->
  lib_wf (lib s) ->
  all_closed (handles (internals (reader s))) ->
  data_set env (reader s) = Some (path, file0 :: rest) ->
  fs env (path +:+ PATH_SEP +:+ file0) = Some f0 ->
  get_output_metadata env order s = (fl, s') ->
  nc_open_files (lib s')
  = <[nc_next_id (lib s) := path +:+ PATH_SEP +:+ file0]>
      (nc_open_files (lib s))
  /\ all_closed (handles (internals (reader s')))
  /\ lib_wf (lib s').
Proof.
  intros Hc Hwf Hall Hds Hfs Hrun.
  rewrite get_output_metadata_computes in Hrun by done.
  pose proof (compute_output_metadata_keeps env order s path file0 rest f0
                Hds Hfs) as Hk.
  unfold wp in Hk. unfold call in Hrun.
  destruct (compute_output_metadata env order s) as [f1 s1].
  cbn [fst snd] in Hk. destruct Hk as (_ & Hlib & Hf).
  destruct (Hlib Hwf Hall) as [Hwf1 Hfiles1].
  assert (s1 = s') as -> by (destruct f1; by simplify_eq).
  split; [done|]. split; [|done].
  destruct f1 as [md|r| |e].
  - destruct Hf as (_ & -> & _). apply all_closed_skeleton.
  - destruct Hf as (_ & _ & [[_ ->]|[-> _]]);
      [apply all_closed_empty|apply all_closed_skeleton].
  - rewrite Hf. apply all_closed_skeleton.
  - rewrite Hf. apply all_closed_skeleton.
Qed.

Lemma get_output_metadata_leaves_first_file_open_witness :
  nc_open_files (lib Sample.after_metadata)
  = <[nc_next_id (lib (Sample.start Sample.reader_2d))
      := "/data" +:+ PATH_SEP +:+ "A.nc"]>
      (nc_open_files (lib (Sample.start Sample.reader_2d)))
  /\ all_closed (handles (internals (reader Sample.after_metadata)))
  /\ lib_wf (lib Sample.after_metadata).
Proof.
  apply (get_output_metadata_leaves_first_file_open Sample.two_files
           [1; 0]%nat (Sample.start Sample.reader_2d) "/data" "A.nc"
           ["B.nc"] (Sample.sample_file 0 3) (Next Sample.record_2d)).
  - reflexivity.
  - split; [simpl; lia|]. intros id _. apply lookup_empty.
  - exact all_closed_empty.
  - vm_compute; reflexivity.
  - vm_compute; reflexivity.
  - vm_compute; reflexivity.
Defined.

(** X13.  After a run of the phase that hands back a record, the handle
    map has one entry for each file name of the record and for nothing
    else, each with a mutex and no handle; the record names the files and
    the directory of the data set. *)
Theorem metadata_phase_handle_map env order s md s' :
  metadata_phase env order s md s' ->
  exists path files,
    data_set env (reader s) = Some (path, files)
    /\ md_get_strings "files" md = Some files
    /\ md_get_string_at "root" 0 md = Some path
    /\ forall file,
         handles (internals (reader s')) !! file
         = if decide (file ∈ files) then Some (Some Mutex, None) else None.
Proof.
  intros (Hc & Hrun & Hmd).
  rewrite get_output_metadata_computes in Hrun by done. unfold call in Hrun.
  destruct (data_set env (reader s)) as [[path [|file0 rest]]|] eqn:Hds.
  - erewrite compute_output_metadata_no_file in Hrun by done. done.
  - destruct (fs env (path +:+ PATH_SEP +:+ file0)) as [f0|] eqn:Hfs.
    + pose proof (compute_output_metadata_keeps env order s path file0 rest
                    f0 Hds Hfs) as Hk.
      unfold wp in Hk.
      destruct (compute_output_metadata env order s) as [[md1|r| |e] s1];
        cbn [fst snd] in Hk; destruct Hk as (_ & _ & Hf); try done.
      * injection Hrun as <- <-. destruct Hf as (_ & Hh & Hfiles & Hroot & _).
        exists path, (file0 :: rest). split; [done|].
        unfold md_get_string_at, md_get_strings, md_get_array.
        rewrite Hfiles, Hroot. split; [done|]. split; [done|].
        intros file. rewrite Hh. apply handle_skeleton_lookup.
      * destruct Hf as [-> _]. injection Hrun as <- <-. done.
    + erewrite compute_output_metadata_unopened in Hrun by done.
      injection Hrun as <- <-. done.
  - rewrite compute_output_metadata_unlocated in Hrun by done.
    injection Hrun as <- <-. done.
Qed.

Lemma metadata_phase_handle_map_witness :
  exists path files,
    data_set Sample.two_files (reader (Sample.start Sample.reader_2d))
    = Some (path, files)
    /\ md_get_strings "files" Sample.record_2d = Some files
    /\ md_get_string_at "root" 0 Sample.record_2d = Some path
    /\ forall file,
         handles (internals (reader Sample.after_metadata)) !! file
         = if decide (file ∈ files) then Some (Some Mutex, None) else None.
Proof.
  apply (metadata_phase_handle_map Sample.two_files [1; 0]%nat
           (Sample.start Sample.reader_2d)).
  split; [reflexivity|]. split; vm_compute; reflexivity.
Defined.

(** ** Runs of the phase that fail *)

(** X14.  When no file is located, or the first file cannot be opened, the
    phase hands back the empty record, logs one error and touches nothing
    else: no handle map is set up and no file is open that was not. *)
Theorem get_output_metadata_nothing_to_read env order s :
  md_nonempty (metadata (internals (reader s))) = false ->
  (data_set env (reader s) = None
   \/ exists path file0 rest,
        data_set env (reader s) = Some (path, file0 :: rest)
        /\ fs env (path +:+ PATH_SEP +:+ file0) = None) ->
  exists m,
    get_output_metadata env order s = (Next [], logged s m).
Proof.
  intros Hc Hcase. rewrite get_output_metadata_computes by done. unfold call.
  destruct Hcase as [Hds|(path & file0 & rest & Hds & Hfs)].
  - rewrite compute_output_metadata_unlocated by done. by eexists.
  - erewrite compute_output_metadata_unopened by done. by eexists.
Qed.

Lemma get_output_metadata_nothing_to_read_witness :
  exists m,
    get_output_metadata (Sample.env ["C.nc"] 0) []
      (Sample.start Sample.reader_2d)
    = (Next [], logged (Sample.start Sample.reader_2d) m).
Proof.
  apply (get_output_metadata_nothing_to_read (Sample.env ["C.nc"] 0) []
           (Sample.start Sample.reader_2d)).
  - reflexivity.
  - right. exists "/data", "C.nc", []. split; vm_compute; reflexivity.
Defined.

(** X15.  A failed read of the time axis is not forgotten.  When a run of
    the phase hands back the empty record and yet leaves the cache filled,
    the cache holds the schema of the first file and nothing else; the next
    call does not try again but hands back this partial record, in which
    there are no coordinates, no files and no step counts. *)
Theorem failed_phase_partial_record env env' order order' s s' :
  md_nonempty (metadata (internals (reader s))) = false ->
  get_output_metadata env order s = (Next [], s') ->
  md_nonempty (metadata (internals (reader s'))) = true ->
  exists atrs vars time_vars,
    let partial := schema_record atrs vars time_vars [] in
    get_output_metadata env' order' s' = (Next partial, s')
    /\ md_lookup "variables" partial = Some (md_strings vars)
    /\ md_lookup "coordinates" partial = None
    /\ md_lookup "files" partial = None
    /\ md_lookup "step_count" partial = None
    /\ md_lookup "number_of_time_steps" partial = None.
Proof.
  intros Hc Hrun Hfilled.
  assert (Hmd0 : metadata (internals (reader s)) = []).
  { by destruct (metadata (internals (reader s))). }
  rewrite get_output_metadata_computes in Hrun by done. unfold call in Hrun.
  assert (Hschema : exists atrs vars time_vars,
            metadata (internals (reader s'))
            = schema_record atrs vars time_vars []).
  { destruct (data_set env (reader s)) as [[path [|file0 rest]]|] eqn:Hds.
    - erewrite compute_output_metadata_no_file in Hrun by done. done.
    - destruct (fs env (path +:+ PATH_SEP +:+ file0)) as [f0|] eqn:Hfs.
      + pose proof (compute_output_metadata_keeps env order s path file0 rest
                      f0 Hds Hfs) as Hk.
        unfold wp in Hk.
        destruct (compute_output_metadata env order s) as [[md1|r| |e] s1];
          cbn [fst snd] in Hk; destruct Hk as (_ & _ & Hf); try done.
        * injection Hrun as -> <-. by destruct Hf as (_ & _ & Hfiles & _).
        * injection Hrun as -> <-.
          destruct Hf as (_ & _ & [[Hempty _]|[_ Hs]]).
          -- by rewrite Hempty in Hfilled.
          -- by rewrite Hmd0 in Hs.
      + erewrite compute_output_metadata_unopened in Hrun by done.
        injection Hrun as <-. cbn in Hfilled. by rewrite Hc in Hfilled.
    - rewrite compute_output_metadata_unlocated in Hrun by done.
      injection Hrun as <-. cbn in Hfilled. by rewrite Hc in Hfilled. }
  destruct Hschema as (atrs & vars & time_vars & Hs).
  exists atrs, vars, time_vars. cbv zeta. split.
  { unfold get_output_metadata, call, bind, get_metadata.
    rewrite Hfilled. by rewrite Hs. }
  unfold schema_record. cbn. done.
Qed.

Lemma failed_phase_partial_record_witness :
  let s := Sample.start (Sample.with_axes "lon" "lat" "" "label") in
  let s' := (get_output_metadata Sample.two_files [0; 1]%nat s).2 in
  exists atrs vars time_vars,
    let partial := schema_record atrs vars time_vars [] in
    get_output_metadata Sample.two_files [0; 1]%nat s' = (Next partial, s')
    /\ md_lookup "variables" partial = Some (md_strings vars)
    /\ md_lookup "coordinates" partial = None
    /\ md_lookup "files" partial = None
    /\ md_lookup "step_count" partial = None
    /\ md_lookup "number_of_time_steps" partial = None.
Proof.
  cbv zeta.
  apply (failed_phase_partial_record Sample.two_files Sample.two_files
           [0; 1]%nat [0; 1]%nat
           (Sample.start (Sample.with_axes "lon" "lat" "" "label"))).
  - reflexivity.
  - vm_compute; reflexivity.
  - vm_compute; reflexivity.
Defined.

(** ** What the execute phase keeps *)

Lemma read_time_vars_total {R} env file_id atrs starts time_vars s :
  wp (read_time_vars (R := R) env file_id atrs starts time_vars) s
     (fun f s' => (exists info_arrays, f = Next info_arrays)
                  /\ reader s' = reader s /\ lib s' = lib s).
Proof.
  unfold read_time_vars.
  apply (wp_for_loop (fun _ s' => reader s' = reader s /\ lib s' = lib s));
    [done| |by eauto].
  intros name acc s1 _ [Hr Hl].
  destruct (md_get_bag name atrs ≫= _) as [[type id]|]; [|by wp_steps].
  apply wp_bind.
  destruct (NC_DISPATCH type) as [t|]; [|by wp_steps].
  wp_step.
  destruct (nc_file_of (fs env) (lib s1) file_id ≫= _); by wp_steps.
Qed.

Lemma execute_frame_refl s log' :
  execute_frame s {| reader := reader s; lib := lib s; log := log' |}.
Proof.
  split; [done|]. split; [apply same_configuration_refl|].
  split; [by intros file; left|]. intros Hwf. split; [done|].
  by intros id p.
Qed.

Lemma execute_frame_same s s1 s2 :
  execute_frame s s1 -> reader s2 = reader s1 -> lib s2 = lib s1 ->
  execute_frame s s2.
Proof. unfold execute_frame. by intros H -> ->. Qed.

Lemma get_handle_frame {R} env path file s :
  wp (get_handle (R := R) env path file) s (fun f s' => execute_frame s s').
Proof.
  destruct (handles (internals (reader s)) !! file) as [[mu [hd|]]|] eqn:H.
  - eapply wp_of_eq; [by eapply get_handle_cached|].
    destruct s. apply execute_frame_refl.
  - destruct (fs env (path +:+ PATH_SEP +:+ file)) as [f|] eqn:Hfs.
    + eapply wp_of_eq; [by eapply get_handle_opens|].
      split; [done|]. split; [done|].
      unfold handles_added, files_kept_open.
      cbn [with_handles with_lib reader lib internals handles metadata
           with_internals nc_open_files].
      split.
      * intros file'. destruct (decide (file' = file)) as [->|Hne].
        -- right. exists mu, {| m_handle := nc_next_id (lib s) |}.
           split; [exact H|]. split; [apply lookup_insert_eq|].
           cbn [m_handle]. rewrite lookup_insert_eq. by eexists.
        -- left. by rewrite lookup_insert_ne.
      * intros Hwf. split; [by apply lib_wf_open|].
        intros id p Hid. cbn. rewrite lookup_insert_ne; [done|].
        intros <-. destruct Hwf as [_ Hfree].
        rewrite Hfree in Hid by lia. done.
    + eapply wp_of_eq; [by eapply get_handle_fails|].
      apply execute_frame_refl.
  - eapply wp_of_eq; [by eapply get_handle_absent|].
    destruct s. apply execute_frame_refl.
Qed.

(** Through the tests of [execute] that only look at the record and at the
    request. *)
Ltac wp_walk :=
  repeat match goal with
         | |- wp (match ?x with _ => _ end) _ _ => destruct x
         | |- match ?x with _ => _ end => destruct x
         | |- wp (let _ := _ in _) _ _ => cbv zeta
         | |- wp _ _ _ => wp_step
         end.

Lemma execute_keeps env request s :
  wp (execute env request) s (fun f s' => execute_frame s s').
Proof.
  unfold execute. apply wp_call. wp_walk;
    try apply execute_frame_refl; try (destruct s; apply execute_frame_refl).
  wp_use @get_handle_frame. intros f st1 Hfr.
  destruct f as [[ierr file_id]|r| |e]; try done.
  wp_walk; try (eapply execute_frame_same; [exact Hfr|done..]).
  all: wp_use @read_arrays_total; intros f st2 [[pa ->] [Hr2 Hl2]];
    wp_use @read_time_vars_total; intros f st3 [[ia ->] [Hr3 Hl3]];
    wp_steps; eapply execute_frame_same; [exact Hfr|congruence..].
Qed.

(** X16.  [execute] never changes the cached record or the configuration,
    never removes an entry of the handle map or a handle from it, and, with
    a library that hands out fresh identifiers, never closes a file: at
    most, entries without a handle get one, for a file that is open when
    [execute] is over. *)
Theorem execute_keeps_cache env request s :
  let s' := (execute env request s).2 in
  metadata (internals (reader s')) = metadata (internals (reader s))
  /\ same_configuration (reader s) (reader s')
  /\ (forall file,
        handles (internals (reader s')) !! file
        = handles (internals (reader s)) !! file
        \/ exists mu hd,
             handles (internals (reader s)) !! file = Some (mu, None)
             /\ handles (internals (reader s')) !! file = Some (mu, Some hd)
             /\ is_Some (nc_open_files (lib s') !! m_handle hd))
  /\ (lib_wf (lib s) ->
      lib_wf (lib s')
      /\ forall id p,
           nc_open_files (lib s) !! id = Some p ->
           nc_open_files (lib s') !! id = Some p).
Proof. exact (execute_keeps env request s). Qed.

Lemma execute_empty_cache env request s :
  md_nonempty (metadata (internals (reader s))) = false ->
  execute env request s = (Next None, logged s E_missing_coordinates).
Proof.
  intros Hc. unfold execute, call. unfold bind at 1. cbn [get_reader].
  unfold bind at 1. cbn [get_metadata].
  by destruct (metadata (internals (reader s))).
Qed.

(** X17.  Handles are held only while a record is cached: a reader that has
    no record and no open handle is again in such a state after
    [get_output_metadata], after [execute] and after [set_modified],
    whatever their outcome.  So the metadata phase always starts from a
    handle map without open handles. *)
Theorem cache_coherent_kept {A} env order request
    (teca_algorithm_set_modified : A -> A) (base : A) s :
  cache_coherent s ->
  cache_coherent (get_output_metadata env order s).2
  /\ cache_coherent (execute env request s).2
  /\ cache_coherent
       (set_modified (R := A) teca_algorithm_set_modified base s).2.
Proof.
  intros Hco. split; [|split].
  - destruct (md_nonempty (metadata (internals (reader s)))) eqn:Hc.
    { unfold get_output_metadata, call, bind, get_metadata. by rewrite Hc. }
    rewrite get_output_metadata_computes by done. unfold call.
    specialize (Hco Hc). intros _.
    destruct (data_set env (reader s)) as [[path [|file0 rest]]|] eqn:Hds.
    + by erewrite compute_output_metadata_no_file by done.
    + destruct (fs env (path +:+ PATH_SEP +:+ file0)) as [f0|] eqn:Hfs.
      * pose proof (compute_output_metadata_keeps env order s path file0 rest
                      f0 Hds Hfs) as Hk.
        unfold wp in Hk.
        destruct (compute_output_metadata env order s) as [f1 s1].
        cbn [fst snd] in Hk. destruct Hk as (_ & _ & Hf).
        assert (Hs1 : all_closed (handles (internals (reader s1)))).
        { destruct f1 as [md|r| |e].
          - destruct Hf as (_ & -> & _). apply all_closed_skeleton.
          - destruct Hf as (_ & _ & [[_ ->]|[-> _]]);
              [apply all_closed_empty|apply all_closed_skeleton].
          - rewrite Hf. apply all_closed_skeleton.
          - rewrite Hf. apply all_closed_skeleton. }
        by destruct f1.
      * by erewrite compute_output_metadata_unopened by done.
    + by rewrite compute_output_metadata_unlocated by done.
  - destruct (md_nonempty (metadata (internals (reader s)))) eqn:Hc.
    + intros Hc'. exfalso.
      destruct (execute_keeps env request s) as (Hm & _).
      rewrite Hm, Hc in Hc'. done.
    + rewrite execute_empty_cache by done. intros _. by apply Hco.
  - intros _. cbn. apply all_closed_empty.
Qed.

Lemma cache_coherent_kept_witness :
  cache_coherent
    (get_output_metadata Sample.two_files [1; 0]%nat
       (Sample.start Sample.reader_2d)).2
  /\ cache_coherent
       (execute Sample.two_files [] (Sample.start Sample.reader_2d)).2
  /\ cache_coherent
       (set_modified (R := unit) (fun b : unit => b) tt
          (Sample.start Sample.reader_2d)).2.
Proof.
  apply (cache_coherent_kept Sample.two_files [1; 0]%nat []
           (fun b : unit => b) tt (Sample.start Sample.reader_2d)).
  intros _. exact all_closed_empty.
Defined.

(** ** The order in which the pool hands over the results *)

Lemma bind_ext {R A B} (m : M R A) (k k' : A -> M R B) s :
  (forall a s1, k a s1 = k' a s1) -> bind m k s = bind m k' s.
Proof. intros H. unfold bind. destruct (m s) as [[a|r| |e] s1]; auto. Qed.

Lemma bind_cong {R A B} (m m' : M R A) (k : A -> M R B) s :
  m s = m' s -> bind m k s = bind m' k s.
Proof. intros H. unfold bind. by rewrite H. Qed.

Ltac ext_walk :=
  repeat lazymatch goal with
         | |- bind ?m _ _ = bind ?m _ _ => apply bind_ext; intros ? ?
         | |- (match ?x with _ => _ end) _ = _ => destruct x
         | |- ?x = ?x => reflexivity
         end.

Lemma compute_output_metadata_any_order env order path files s :
  data_set env (reader s) = Some (path, files) ->
  order ≡ₚ seq 0 (length files) ->
  compute_output_metadata env order s
  = compute_output_metadata env (seq 0 (length files)) s.
Proof.
  intros Hds Hperm. unfold compute_output_metadata.
  unfold bind at 1. symmetry. unfold bind at 1. symmetry. cbn [get_reader].
  assert (Hfiles :
    (if negb (String.eqb (file_name (reader s)) "")
     then ret (R := teca_metadata)
              (file_util_path env (file_name (reader s)),
               [file_util_filename env (file_name (reader s))])
     else match locate_files env (file_util_path env (files_regex (reader s)))
                  (file_util_filename env (files_regex (reader s))) with
          | Some files => ret (file_util_path env (files_regex (reader s)), files)
          | None => TECA_ERROR E_locate_files;; return_ []
          end) s = (Next (path, files), s)).
  { unfold data_set in Hds.
    destruct (negb (String.eqb (file_name (reader s)) "")).
    - by simplify_eq.
    - destruct (locate_files env _ _); by simplify_eq. }
  rewrite !(bind_next _ _ s _ _ Hfiles).
  ext_walk.
  apply bind_cong.
  destruct (negb (String.eqb (t_axis_variable (reader s)) ""));
    [by apply read_time_axis_any_order|done].
Qed.

(** X18.  The outcome of [get_output_metadata] (the record, the cache, the
    open files and the log) does not depend on the order in which the
    thread pool hands over the results of the tasks, as long as it hands
    over the result of every task once. *)
Theorem get_output_metadata_any_order env order order' path files s :
  data_set env (reader s) = Some (path, files) ->
  order ≡ₚ seq 0 (length files) ->
  order' ≡ₚ seq 0 (length files) ->
  get_output_metadata env order s = get_output_metadata env order' s.
Proof.
  intros Hds Hp Hp'. unfold get_output_metadata, call, bind, get_metadata.
  destruct (md_nonempty (metadata (internals (reader s)))); [done|].
  rewrite (compute_output_metadata_any_order env order path files s Hds Hp).
  rewrite (compute_output_metadata_any_order env order' path files s Hds Hp').
  done.
Qed.

Lemma get_output_metadata_any_order_witness :
  get_output_metadata Sample.two_files [1; 0]%nat
    (Sample.start Sample.reader_2d)
  = get_output_metadata Sample.two_files [0; 1]%nat
      (Sample.start Sample.reader_2d).
Proof.
  apply (get_output_metadata_any_order Sample.two_files [1; 0]%nat
           [0; 1]%nat "/data" ["A.nc"; "B.nc"]
           (Sample.start Sample.reader_2d)).
  - vm_compute; reflexivity.
  - simpl. apply Permutation_swap.
  - reflexivity.
Defined.


(** X20.  The schema in the record.  In the record of a phase run on a
    reader without open handles, [variables] lists the variables of the
    first file of the data set that are not scalars, in the order of that
    file, [time variables] those with the time dimension as their only
    dimension, and [attributes] holds one bag for each listed variable and
    for nothing else. *)
Theorem metadata_phase_schema env order s md s' path file0 rest f0 :
  metadata_phase env order s md s' ->
  lib_wf (lib s) ->
  all_closed (handles (internals (reader s))) ->
  data_set env (reader s) = Some (path, file0 :: rest) ->
  fs env (path +:+ PATH_SEP +:+ file0) = Some f0 ->
  exists atrs vars,
    md_get_strings "variables" md = Some vars
    /\ vars = var_name <$> List.filter is_array_variable (nc_vars f0)
    /\ md_get_strings "time variables" md
       = Some (var_name <$>
                 List.filter (is_time_variable f0 (t_axis_variable (reader s)))
                   (nc_vars f0))
    /\ md_get_bag "attributes" md = Some atrs
    /\ forall name, is_Some (md_lookup name atrs) <-> name ∈ vars.
Proof.
  intros (Hc & Hrun & Hmd) Hwf Hall Hds Hfs.
  rewrite get_output_metadata_computes in Hrun by done. unfold call in Hrun.
  pose proof (compute_output_metadata_keeps env order s path file0 rest f0
                Hds Hfs) as Hk.
  unfold wp in Hk.
  destruct (compute_output_metadata env order s) as [[md1|r| |e] s1];
    cbn [fst snd] in Hk; destruct Hk as (_ & _ & Hf); try done.
  - injection Hrun as <- <-.
    destruct Hf as (_ & _ & _ & _ & atrs & vars & time_vars
                    & Hv & Ht & Ha & Hschema).
    destruct (Hschema Hwf Hall) as (Hvars & Htv & Hatrs).
    exists atrs, vars.
    unfold md_get_strings, md_get_array, md_get_bag. rewrite Hv, Ht, Ha.
    by rewrite <- Htv.
  - destruct Hf as [-> _]. injection Hrun as <- <-. done.
Qed.

Lemma metadata_phase_schema_witness :
  exists atrs vars,
    md_get_strings "variables" Sample.record_2d = Some vars
    /\ vars = var_name <$> List.filter is_array_variable
                             (nc_vars (Sample.sample_file 0 3))
    /\ md_get_strings "time variables" Sample.record_2d
       = Some (var_name <$>
                 List.filter
                   (is_time_variable (Sample.sample_file 0 3)
                      (t_axis_variable
                         (reader (Sample.start Sample.reader_2d))))
                   (nc_vars (Sample.sample_file 0 3)))
    /\ md_get_bag "attributes" Sample.record_2d = Some atrs
    /\ forall name, is_Some (md_lookup name atrs) <-> name ∈ vars.
Proof.
  apply (metadata_phase_schema Sample.two_files [1; 0]%nat
           (Sample.start Sample.reader_2d) Sample.record_2d
           Sample.after_metadata "/data" "A.nc" ["B.nc"]
           (Sample.sample_file 0 3)).
  - split; [reflexivity|]. split; vm_compute; reflexivity.
  - split; [simpl; lia|]. intros id _. apply lookup_empty.
  - exact all_closed_empty.
  - vm_compute; reflexivity.
  - vm_compute; reflexivity.
Defined.

(** ** The record is what [execute] needs *)

Lemma metadata_phase_cached env order s md s' :
  metadata_phase env order s md s' ->
  metadata (internals (reader s')) = md.
Proof.
  intros (Hc & Hrun & Hmd).
  rewrite get_output_metadata_computes in Hrun by done. unfold call in Hrun.
  pose proof (compute_output_metadata_stores env order s) as Hst.
  pose proof (compute_output_metadata_spec env order s) as Hsp.
  unfold wp in Hst, Hsp.
  destruct (compute_output_metadata env order s) as [[md'|r| |e] s1];
    cbn [fst snd] in *; try done.
  - injection Hrun as <- <-. by apply Hst.
  - destruct Hsp as [_ ->]. injection Hrun as <- <-. done.
Qed.

Lemma metadata_phase_attributes env order s md s' :
  metadata_phase env order s md s' ->
  exists atrs, md_get_bag "attributes" md = Some atrs.
Proof.
  intros (Hc & Hrun & Hmd).
  rewrite get_output_metadata_computes in Hrun by done. unfold call in Hrun.
  destruct (data_set env (reader s)) as [[path [|file0 rest]]|] eqn:Hds.
  - erewrite compute_output_metadata_no_file in Hrun by done. done.
  - destruct (fs env (path +:+ PATH_SEP +:+ file0)) as [f0|] eqn:Hfs.
    + pose proof (compute_output_metadata_keeps env order s path file0 rest
                    f0 Hds Hfs) as Hk.
      unfold wp in Hk.
      destruct (compute_output_metadata env order s) as [[md1|r| |e] s1];
        cbn [fst snd] in Hk; destruct Hk as (_ & _ & Hf); try done.
      * injection Hrun as <- <-.
        destruct Hf as (_ & _ & _ & _ & atrs & vars & time_vars
                        & _ & _ & Ha & _).
        exists atrs. unfold md_get_bag. by rewrite Ha.
      * destruct Hf as [-> _]. injection Hrun as <- <-. done.
    + erewrite compute_output_metadata_unopened in Hrun by done.
      injection Hrun as <- <-. done.
  - rewrite compute_output_metadata_unlocated in Hrun by done.
    injection Hrun as <- <-. done.
Qed.

Lemma metadata_phase_handles env order s md s' :
  metadata_phase env order s md s' ->
  exists path files,
    data_set env (reader s) = Some (path, files)
    /\ md_lookup "files" md = Some (md_strings files)
    /\ md_lookup "root" md = Some (md_string path)
    /\ handles (internals (reader s')) = handle_skeleton files
    /\ files <> [].
Proof.
  intros (Hc & Hrun & Hmd).
  rewrite get_output_metadata_computes in Hrun by done. unfold call in Hrun.
  destruct (data_set env (reader s)) as [[path [|file0 rest]]|] eqn:Hds.
  - erewrite compute_output_metadata_no_file in Hrun by done. done.
  - destruct (fs env (path +:+ PATH_SEP +:+ file0)) as [f0|] eqn:Hfs.
    + pose proof (compute_output_metadata_keeps env order s path file0 rest
                    f0 Hds Hfs) as Hk.
      unfold wp in Hk.
      destruct (compute_output_metadata env order s) as [[md1|r| |e] s1];
        cbn [fst snd] in Hk; destruct Hk as (_ & _ & Hf); try done.
      * injection Hrun as <- <-. destruct Hf as (_ & Hh & Hfiles & Hroot & _).
        exists path, (file0 :: rest). by repeat split.
      * destruct Hf as [-> _]. injection Hrun as <- <-. done.
    + erewrite compute_output_metadata_unopened in Hrun by done.
      injection Hrun as <- <-. done.
  - rewrite compute_output_metadata_unlocated in Hrun by done.
    injection Hrun as <- <-. done.
Qed.

Lemma make_coordinates_arrays r x y z t :
  md_get_array "x" (make_coordinates r x y z t) = x
  /\ md_get_array "y" (make_coordinates r x y z t) = y
  /\ md_get_array "z" (make_coordinates r x y z t) = z
  /\ md_get_array "t" (make_coordinates r x y z t) = t.
Proof.
  unfold make_coordinates, md_get_array. repeat split; by md_lookup_solve.
Qed.

(** With fewer than [2^32] counts the scan ends, at an index within the
    counts (or at [0] when there is none). *)
Lemma locate_loop_index (step_count : list Z) (time_step : Z) :
  Z.of_nat (length step_count) < 2 ^ 32 ->
  forall fuel idx count,
    0 <= idx ->
    (idx < Z.of_nat (length step_count) \/ idx = 0) ->
    Z.of_nat (length step_count) <= Z.of_nat fuel + idx ->
    exists idx' count',
      locate_loop fuel step_count time_step (idx + 1) idx count
      = Some (idx', count')
      /\ 0 <= idx'
      /\ (idx' < Z.of_nat (length step_count) \/ idx' = 0).
Proof.
  intros Hlen. induction fuel as [|fuel IH]; intros idx count H0 Hidx Hfuel.
  - cbn [locate_loop].
    destruct (idx + 1 <? Z.of_nat (length step_count)) eqn:Hi;
      [apply Z.ltb_lt in Hi; lia|].
    cbn [andb]. by eexists _, _.
  - cbn [locate_loop].
    destruct (idx + 1 <? Z.of_nat (length step_count)) eqn:Hi; cbn [andb].
    2: by eexists _, _.
    apply Z.ltb_lt in Hi.
    destruct (wrap64 _ <=? time_step); [|by eexists _, _].
    assert (wrap32 (idx + 1 + 1) = idx + 1 + 1) as ->
      by (unfold wrap32; apply Z.mod_small; lia).
    assert (wrap64 (idx + 1) = idx + 1) as ->
      by (unfold wrap64; apply Z.mod_small; lia).
    apply IH; lia.
Qed.

Lemma locate_step_index (step_count : list Z) (time_step : Z) :
  Z.of_nat (length step_count) < 2 ^ 32 ->
  exists idx offs,
    locate_step step_count time_step = Some (idx, offs)
    /\ 0 <= idx
    /\ (idx < Z.of_nat (length step_count) \/ idx = 0).
Proof.
  intros Hlen. unfold locate_step.
  destruct (locate_loop_index step_count time_step Hlen (length step_count)
              0 0 ltac:(lia) ltac:(by right) ltac:(lia))
    as (idx & count & Hrun & H0 & Hidx).
  change (0 + 1) with 1 in Hrun. rewrite Hrun. by eexists _, _.
Qed.

(** X21.  The record of a phase that reported no error is all that the
    tests of [execute] ask for.  Run on it, with fewer than [2^32] files
    and whatever the request, [execute] passes every test it makes of the
    record and locates the file of the step in the handle map.  It hands
    back a mesh with the whole extent of the record and the requested step
    and extent; or the slice of the x, y or z axis of the record over the
    requested extent fails, and nothing has changed; or the file of the
    step cannot be opened, and the two errors of that are the only ones
    logged. *)
Theorem execute_after_metadata_phase env env' order request s md s1 :
  successful_metadata_phase env order s md s1 ->
  (forall files, md_get_strings "files" md = Some files ->
                 Z.of_nat (length files) < 2 ^ 32) ->
  exists x y z whole_extent,
    md_coordinate "x" md = Some x
    /\ md_coordinate "y" md = Some y
    /\ md_coordinate "z" md = Some z
    /\ md_get_nums "whole_extent" md = Some whole_extent
    /\ let time_step := default 0 (md_get_num_at "time_step" 0 request) in
       let extent :=
         default whole_extent (md_get_nums_n "extent" 6 request) in
       match execute env' request s1 with
       | (Next (Some mesh), s2) =>
           mesh_whole_extent mesh = whole_extent
           /\ mesh_extent mesh = extent
           /\ mesh_time_step mesh = time_step
       | (Next None, s2) =>
           exists step_count idx offs path file,
             md_get_nums "step_count" md = Some step_count
             /\ locate_step step_count time_step = Some (idx, offs)
             /\ md_get_string_at "root" 0 md = Some path
             /\ md_get_string_at "files" (Z.to_nat idx) md = Some file
             /\ fs env' (path +:+ PATH_SEP +:+ file) = None
             /\ reader s2 = reader s1 /\ lib s2 = lib s1
             /\ log s2 = log s1 ++ [E_failed_to_open file; E_get_handle]
       | (Raise e, s2) =>
           s2 = s1
           /\ (va_new_copy x (at_ extent 0) (at_ extent 1) = inl e
               \/ va_new_copy y (at_ extent 2) (at_ extent 3) = inl e
               \/ va_new_copy z (at_ extent 4) (at_ extent 5) = inl e)
       | (Fault, s2) => False
       | (Return _, s2) => False
       end.
Proof.
  intros [Hphase Hlog] Hbound.
  pose proof (metadata_phase_cached _ _ _ _ _ Hphase) as Hcached.
  destruct (metadata_phase_attributes _ _ _ _ _ Hphase) as [atrs Hatrs].
  destruct (metadata_phase_final_record _ _ _ _ _ Hphase)
    as (path & files & x_axis & y_axis & z_axis & t & step_count
        & n_x & n_y & n_z & md0 & Hmd & _ & Hlen & Hone & _ & _ & _ & Haxes).
  destruct (Haxes ltac:(by rewrite Hlog)) as (x & y & z & -> & -> & -> & _).
  clear Haxes.
  destruct (metadata_phase_handles _ _ _ _ _ Hphase)
    as (path' & files' & _ & Hfiles' & Hroot' & Hhandles & Hne).
  assert (Hsame : files = files').
  { pose proof (final_record_files (reader s) path files (Some x) (Some y)
                  (Some z) t step_count n_x n_y n_z md0) as Hf.
    rewrite <- Hmd in Hf.
    unfold md_get_strings, md_get_array in Hf. rewrite Hfiles' in Hf.
    by injection Hf as <-. }
  subst files'.
  assert (H1 : md_get_bag "coordinates" md
               = Some (make_coordinates (reader s) (Some x) (Some y) (Some z)
                         (Some t))).
  { rewrite Hmd. apply final_record_coordinates. }
  assert (H2 : md_get_nums_n "whole_extent" 6 md
               = Some [0; wrap64 (n_x - 1); 0; wrap64 (n_y - 1); 0;
                       wrap64 (n_z - 1)]).
  { unfold md_get_nums_n. rewrite Hmd, final_record_whole_extent. done. }
  assert (H2' : md_get_nums "whole_extent" md
               = Some [0; wrap64 (n_x - 1); 0; wrap64 (n_y - 1); 0;
                       wrap64 (n_z - 1)]).
  { rewrite Hmd. apply final_record_whole_extent. }
  assert (H3 : md_get_nums "step_count" md = Some step_count).
  { rewrite Hmd. apply final_record_step_count. }
  assert (H4 : md_get_string_at "root" 0 md = Some path').
  { unfold md_get_string_at, md_get_strings, md_get_array. by rewrite Hroot'. }
  assert (H5 : forall idx, md_get_string_at "files" idx md = files !! idx).
  { intros idx. unfold md_get_string_at, md_get_strings, md_get_array.
    by rewrite Hfiles'. }
  assert (H6 : md_get_strings "files" md = Some files).
  { unfold md_get_strings, md_get_array. by rewrite Hfiles'. }
  destruct (make_coordinates_arrays (reader s) (Some x) (Some y) (Some z)
              (Some t)) as (Hx & Hy & Hz & Ht).
  assert (Hsc : Z.of_nat (length step_count) < 2 ^ 32).
  { destruct (String.eqb_spec (t_axis_variable (reader s)) "") as [Ht0|Ht0].
    - rewrite (Hone Ht0). cbn. lia.
    - rewrite (Hlen Ht0). by apply Hbound. }
  assert (Hfile_at : forall idx,
            0 <= idx ->
            idx < Z.of_nat (length step_count) \/ idx = 0 ->
            is_Some (files !! Z.to_nat idx)).
  { intros idx H0 Hidx. apply lookup_lt_is_Some_2.
    destruct files as [|file0 rest]; [done|].
    destruct (String.eqb_spec (t_axis_variable (reader s)) "") as [Ht0|Ht0].
    - rewrite (Hone Ht0) in Hidx. cbn in *. lia.
    - rewrite (Hlen Ht0) in Hidx. cbn [length] in *. lia. }
  exists x, y, z, [0; wrap64 (n_x - 1); 0; wrap64 (n_y - 1); 0;
                   wrap64 (n_z - 1)].
  unfold md_coordinate. rewrite H1. cbn [mbind option_bind].
  split; [done|]. split; [done|]. split; [done|]. split; [done|].
  cbv zeta.
  clear Hmd Hfiles' Hroot' Hphase Hlen Hone Hbound Hne.
  cut (wp (execute env' request) s1 (fun f s2 =>
    match f with
    | Next (Some mesh) =>
        mesh_whole_extent mesh
        = [0; wrap64 (n_x - 1); 0; wrap64 (n_y - 1); 0; wrap64 (n_z - 1)]
        /\ mesh_extent mesh
           = default [0; wrap64 (n_x - 1); 0; wrap64 (n_y - 1); 0;
                      wrap64 (n_z - 1)]
               (md_get_nums_n "extent" 6 request)
        /\ mesh_time_step mesh
           = default 0 (md_get_num_at "time_step" 0 request)
    | Next None =>
        exists step_count idx offs path file,
          md_get_nums "step_count" md = Some step_count
          /\ locate_step step_count
               (default 0 (md_get_num_at "time_step" 0 request))
             = Some (idx, offs)
          /\ md_get_string_at "root" 0 md = Some path
          /\ md_get_string_at "files" (Z.to_nat idx) md = Some file
          /\ fs env' (path +:+ PATH_SEP +:+ file) = None
          /\ reader s2 = reader s1 /\ lib s2 = lib s1
          /\ log s2 = log s1 ++ [E_failed_to_open file; E_get_handle]
    | Raise e =>
        s2 = s1
        /\ (va_new_copy x
              (at_ (default [0; wrap64 (n_x - 1); 0; wrap64 (n_y - 1); 0;
                             wrap64 (n_z - 1)]
                      (md_get_nums_n "extent" 6 request)) 0)
              (at_ (default [0; wrap64 (n_x - 1); 0; wrap64 (n_y - 1); 0;
                             wrap64 (n_z - 1)]
                      (md_get_nums_n "extent" 6 request)) 1) = inl e
            \/ va_new_copy y
                 (at_ (default [0; wrap64 (n_x - 1); 0; wrap64 (n_y - 1); 0;
                                wrap64 (n_z - 1)]
                         (md_get_nums_n "extent" 6 request)) 2)
                 (at_ (default [0; wrap64 (n_x - 1); 0; wrap64 (n_y - 1); 0;
                                wrap64 (n_z - 1)]
                         (md_get_nums_n "extent" 6 request)) 3) = inl e
            \/ va_new_copy z
                 (at_ (default [0; wrap64 (n_x - 1); 0; wrap64 (n_y - 1); 0;
                                wrap64 (n_z - 1)]
                         (md_get_nums_n "extent" 6 request)) 4)
                 (at_ (default [0; wrap64 (n_x - 1); 0; wrap64 (n_y - 1); 0;
                                wrap64 (n_z - 1)]
                         (md_get_nums_n "extent" 6 request)) 5) = inl e)
    | Fault => False
    | Return _ => False
    end)).
  { unfold wp. by destruct (execute env' request s1) as [[[mesh|]|r| |e] s2]. }
  unfold execute. apply wp_call. wp_steps.
  rewrite Hcached, H1. cbv beta iota. rewrite Hx, Hy, Hz, Ht, H2.
  cbv beta iota zeta.
  apply wp_bind, wp_try.
  destruct (va_new_copy x _ _) as [e|out_x] eqn:Hox;
    [by split; [|left]|].
  apply wp_bind, wp_try.
  destruct (va_new_copy y _ _) as [e|out_y] eqn:Hoy;
    [by split; [|right; left]|].
  apply wp_bind, wp_try.
  destruct (va_new_copy z _ _) as [e|out_z] eqn:Hoz;
    [by split; [|right; right]|].
  rewrite H3.
  destruct (locate_step_index step_count
              (default 0 (md_get_num_at "time_step" 0 request)) Hsc)
    as (idx & offs & Hloc & Hidx0 & Hidx).
  rewrite Hloc. cbv beta iota. rewrite H4, H5.
  destruct (Hfile_at idx Hidx0 Hidx) as [file Hfile]. rewrite Hfile.
  assert (Hentry : handles (internals (reader s1)) !! file
                   = Some (Some Mutex, None)).
  { rewrite Hhandles, handle_skeleton_lookup. rewrite decide_True; [done|].
    by eapply list_elem_of_lookup_2. }
  destruct (fs env' (path' +:+ PATH_SEP +:+ file)) as [f|] eqn:Hfs.
  2: { wp_eq (get_handle_fails (R := option teca_cartesian_mesh) env' path'
                file s1 (Some Mutex) Hentry Hfs).
       change (negb (-1 =? 0)) with true. cbv iota. wp_steps.
       exists step_count, idx, offs, path', file.
       rewrite H5. cbn [reader lib log logged].
       repeat (split; [done|]). by rewrite <- app_assoc. }
  wp_eq (get_handle_opens (R := option teca_cartesian_mesh) env' path' file s1
           (Some Mutex) f Hentry Hfs).
  change (negb (0 =? 0)) with false. cbv iota.
  rewrite Hatrs.
  repeat match goal with
         | |- wp (match ?x with _ => _ end) _ _ => destruct x
         | |- wp (let _ := _ in _) _ _ => cbv zeta
         end.
  all: wp_use @read_arrays_total; intros fl st2 [[pa ->] _];
    wp_use @read_time_vars_total; intros fl st3 [[ia ->] _];
    by wp_steps.
Qed.

Lemma execute_after_metadata_phase_witness :
  exists x y z whole_extent,
    md_coordinate "x" Sample.record_2d = Some x
    /\ md_coordinate "y" Sample.record_2d = Some y
    /\ md_coordinate "z" Sample.record_2d = Some z
    /\ md_get_nums "whole_extent" Sample.record_2d = Some whole_extent
    /\ let request := [("time_step", md_nums T_unsigned_long [4])] in
       let time_step := default 0 (md_get_num_at "time_step" 0 request) in
       let extent :=
         default whole_extent (md_get_nums_n "extent" 6 request) in
       match execute Sample.two_files request Sample.after_metadata with
       | (Next (Some mesh), s2) =>
           mesh_whole_extent mesh = whole_extent
           /\ mesh_extent mesh = extent
           /\ mesh_time_step mesh = time_step
       | (Next None, s2) =>
           exists step_count idx offs path file,
             md_get_nums "step_count" Sample.record_2d = Some step_count
             /\ locate_step step_count time_step = Some (idx, offs)
             /\ md_get_string_at "root" 0 Sample.record_2d = Some path
             /\ md_get_string_at "files" (Z.to_nat idx) Sample.record_2d
                = Some file
             /\ fs Sample.two_files (path +:+ PATH_SEP +:+ file) = None
             /\ reader s2 = reader Sample.after_metadata
             /\ lib s2 = lib Sample.after_metadata
             /\ log s2 = log Sample.after_metadata
                         ++ [E_failed_to_open file; E_get_handle]
       | (Raise e, s2) =>
           s2 = Sample.after_metadata
           /\ (va_new_copy x (at_ extent 0) (at_ extent 1) = inl e
               \/ va_new_copy y (at_ extent 2) (at_ extent 3) = inl e
               \/ va_new_copy z (at_ extent 4) (at_ extent 5) = inl e)
       | (Fault, s2) => False
       | (Return _, s2) => False
       end.
Proof.
  apply (execute_after_metadata_phase Sample.two_files Sample.two_files
           [1; 0]%nat [("time_step", md_nums T_unsigned_long [4])]
           (Sample.start Sample.reader_2d) Sample.record_2d
           Sample.after_metadata).
  - split; [split; [reflexivity|split; vm_compute; reflexivity]|].
    vm_compute; reflexivity.
  - intros files Hfiles. vm_compute in Hfiles.
    injection Hfiles as <-. simpl. lia.
Defined.

(** ** The arrays of a mesh *)

Lemma read_arrays_sizes {R} env file_id atrs mesh_dim_names starts counts
    mesh_size arrays s :
  wp (read_arrays (R := R) env file_id atrs mesh_dim_names starts counts
        mesh_size arrays []) s
     (fun f s' =>
        exists point_arrays, f = Next point_arrays
        /\ sublist point_arrays.*1 arrays
        /\ Forall (fun e : string * p_teca_variant_array =>
             forall a, e.2 = Some a -> va_size a = Z.of_nat (Z.to_nat mesh_size))
             point_arrays).
Proof.
  unfold read_arrays.
  apply (wp_for_loop_pre (fun pre acc _ =>
    sublist acc.*1 pre
    /\ Forall (fun e : string * p_teca_variant_array =>
         forall a, e.2 = Some a -> va_size a = Z.of_nat (Z.to_nat mesh_size))
         acc)); [by split| |by eauto].
  intros pre name post acc s1 _ [Hsub Hall].
  assert (Hskip : sublist acc.*1 (pre ++ [name]))
    by by apply sublist_inserts_r.
  assert (Hadd : forall array,
            sublist (acc ++ [(name, array)]).*1 (pre ++ [name])).
  { intros array. rewrite fmap_app. by apply sublist_app. }
  destruct (array_metadata atrs name) as [[[type id] dim_names]|];
    [|by wp_steps].
  destruct (negb (is_mesh_variable dim_names mesh_dim_names)); [by wp_steps|].
  apply wp_bind.
  destruct (NC_DISPATCH type) as [t|].
  - wp_step.
    destruct (nc_file_of (fs env) (lib s1) file_id ≫= _) as [vals|];
      wp_steps; [|done].
    split; [done|]. apply Forall_app. split; [done|].
    constructor; [|done]. intros a Ha. cbn [snd] in Ha.
    assert (a = va_fill (va_new t mesh_size) vals) as -> by congruence.
    by rewrite va_size_fill, va_size_new.
  - wp_steps. split; [done|]. apply Forall_app. split; [done|].
    constructor; [|done]. by intros a [=].
Qed.

Lemma read_time_vars_sizes {R} env file_id atrs starts time_vars s :
  wp (read_time_vars (R := R) env file_id atrs starts time_vars) s
     (fun f s' =>
        exists info_arrays, f = Next info_arrays
        /\ sublist info_arrays.*1 time_vars
        /\ Forall (fun e : string * p_teca_variant_array =>
             forall a, e.2 = Some a -> va_size a = 1) info_arrays).
Proof.
  unfold read_time_vars.
  apply (wp_for_loop_pre (fun pre acc _ =>
    sublist acc.*1 pre
    /\ Forall (fun e : string * p_teca_variant_array =>
         forall a, e.2 = Some a -> va_size a = 1) acc));
    [by split| |by eauto].
  intros pre name post acc s1 _ [Hsub Hall].
  assert (Hskip : sublist acc.*1 (pre ++ [name]))
    by by apply sublist_inserts_r.
  assert (Hadd : forall array,
            sublist (acc ++ [(name, array)]).*1 (pre ++ [name])).
  { intros array. rewrite fmap_app. by apply sublist_app. }
  destruct (md_get_bag name atrs ≫= _) as [[type id]|]; [|by wp_steps].
  apply wp_bind.
  destruct (NC_DISPATCH type) as [t|].
  - wp_step.
    destruct (nc_file_of (fs env) (lib s1) file_id ≫= _) as [vals|];
      wp_steps; [|done].
    split; [done|]. apply Forall_app. split; [done|].
    constructor; [|done]. intros a Ha. cbn [snd] in Ha.
    assert (a = va_fill (va_new t 1) vals) as -> by congruence.
    by rewrite va_size_fill, va_size_new.
  - wp_steps. split; [done|]. apply Forall_app. split; [done|].
    constructor; [|done]. by intros a [=].
Qed.

Lemma wrap64_nonneg z : 0 <= wrap64 z.
Proof. unfold wrap64. apply Z.mod_pos_bound. lia. Qed.

Lemma mesh_points_nonneg this extent : 0 <= mesh_points this extent.
Proof.
  unfold mesh_points.
  destruct (negb (String.eqb (x_axis_variable this) ""));
    [apply wrap64_nonneg|].
  destruct (negb (String.eqb (y_axis_variable this) ""));
    [apply wrap64_nonneg|].
  destruct (negb (String.eqb (z_axis_variable this) ""));
    [apply wrap64_nonneg|lia].
Qed.

Lemma execute_arrays env request s :
  wp (execute env request) s (fun f s' =>
    forall mesh, f = Next (Some mesh) ->
      sublist (point_arrays mesh).*1
        (default [] (md_get_strings "arrays" request))
      /\ Forall (fun e : string * p_teca_variant_array =>
           forall a, e.2 = Some a ->
             va_size a = mesh_points (reader s) (mesh_extent mesh))
           (point_arrays mesh)
      /\ sublist (information_arrays mesh).*1
           (default [] (md_get_strings "time variables"
                          (metadata (internals (reader s)))))
      /\ Forall (fun e : string * p_teca_variant_array =>
           forall a, e.2 = Some a -> va_size a = 1)
           (information_arrays mesh)).
Proof.
  unfold execute. apply wp_call. wp_walk; try done.
  wp_use @get_handle_steady. intros fl st1 [_ Hfl].
  destruct fl as [[ierr file_id]|?| |?]; try done.
  destruct (negb (ierr =? 0)); [by wp_steps|].
  destruct (md_get_bag "attributes" _) as [atrs|]; [|by wp_steps].
  match goal with
  | |- wp (let '(_, _) := ?x in _) _ _ => destruct x as [calendar units]
  end.
  cbv zeta.
  match goal with
  | |- context [default ?we (md_get_nums_n "extent" 6 request)] =>
      set (extent := default we (md_get_nums_n "extent" 6 request))
  end.
  assert (Hpts : forall n, n = mesh_points (reader s) extent ->
                           Z.of_nat (Z.to_nat n) = mesh_points (reader s) extent).
  { intros n ->. apply Z2Nat.id, mesh_points_nonneg. }
  unfold mesh_points in Hpts |- *.
  destruct (negb (String.eqb (t_axis_variable (reader s)) ""));
    destruct (negb (String.eqb (z_axis_variable (reader s)) ""));
    destruct (negb (String.eqb (y_axis_variable (reader s)) ""));
    destruct (negb (String.eqb (x_axis_variable (reader s)) ""));
    cbv beta iota zeta in Hpts |- *.
  all: wp_use @read_arrays_sizes; intros fl st2 (pa & -> & Hsub & Hsz);
    wp_use @read_time_vars_sizes; intros fl st3 (ia & -> & Hsub' & Hsz');
    wp_steps; intros mesh [= <-];
    cbn [point_arrays information_arrays mesh_extent];
    (split; [done|]); (split; [|done]);
    (eapply Forall_impl; [exact Hsz|]); intros e He a Ha;
    rewrite (He a Ha); by apply Hpts.
Qed.

(** X22.  The arrays of a mesh.  The point arrays of the mesh are named
    after requested arrays, in the order of the request; each one that was
    read holds one value for each point of the extent of the mesh, counted
    over the axes that are configured.  The information arrays are named
    after time variables of the record, in their order, and each one that
    was read holds one value. *)
Theorem execute_array_sizes env request s mesh s' :
  execute env request s = (Next (Some mesh), s') ->
  sublist (point_arrays mesh).*1 (default [] (md_get_strings "arrays" request))
  /\ Forall (fun e : string * p_teca_variant_array =>
       forall a, e.2 = Some a ->
         va_size a = mesh_points (reader s) (mesh_extent mesh))
       (point_arrays mesh)
  /\ sublist (information_arrays mesh).*1
       (default [] (md_get_strings "time variables"
                      (metadata (internals (reader s)))))
  /\ Forall (fun e : string * p_teca_variant_array =>
       forall a, e.2 = Some a -> va_size a = 1)
       (information_arrays mesh).
Proof.
  intros Hrun. pose proof (execute_arrays env request s) as H.
  unfold wp in H. rewrite Hrun in H. by apply H.
Qed.

Lemma execute_array_sizes_witness :
  exists mesh,
    sublist (point_arrays mesh).*1
      (default [] (md_get_strings "arrays"
                     [("arrays", md_strings ["tas"; "label"])]))
    /\ Forall (fun e : string * p_teca_variant_array =>
         forall a, e.2 = Some a ->
           va_size a
           = mesh_points (reader Sample.after_metadata) (mesh_extent mesh))
         (point_arrays mesh)
    /\ sublist (information_arrays mesh).*1
         (default [] (md_get_strings "time variables"
                        (metadata (internals (reader Sample.after_metadata)))))
    /\ Forall (fun e : string * p_teca_variant_array =>
         forall a, e.2 = Some a -> va_size a = 1)
         (information_arrays mesh).
Proof.
  eexists.
  eapply (execute_array_sizes Sample.two_files
            [("arrays", md_strings ["tas"; "label"])] Sample.after_metadata).
  vm_compute; reflexivity.
Defined.

(** ** Failures are reported *)

Lemma execute_reports env request s :
  wp (execute env request) s (fun f s' => f = Next None -> log_lt s s').
Proof.
  unfold execute. apply wp_call. wp_walk; try done; try (intros _; log_solve).
  wp_use @get_handle_steady. intros fl st1 [Hle Hfl].
  destruct fl as [[ierr file_id]|?| |?]; try done.
  wp_walk; try (intros _; log_solve).
  all: wp_use @read_arrays_total; intros fl st2 [[pa ->] _];
    wp_use @read_time_vars_total; intros fl st3 [[ia ->] _];
    by wp_steps.
Qed.

(** X23.  [execute] does not fail in silence: when it hands back no mesh,
    it has logged an error. *)
Theorem execute_reports_failure env request s s' :
  execute env request s = (Next None, s') ->
  (length (log s) < length (log s'))%nat.
Proof.
  intros Hrun. pose proof (execute_reports env request s) as H.
  unfold wp in H. rewrite Hrun in H. by apply H.
Qed.

Lemma execute_reports_failure_witness :
  (length (log (Sample.start Sample.reader_2d))
   < length (log (logged (Sample.start Sample.reader_2d)
                    E_missing_coordinates)))%nat.
Proof.
  apply (execute_reports_failure Sample.two_files []
           (Sample.start Sample.reader_2d)).
  vm_compute; reflexivity.
Defined.

(** X24.  Neither does the metadata phase: when a run hands back the empty
    record, it has logged an error. *)
Theorem get_output_metadata_reports_failure env order s s' :
  md_nonempty (metadata (internals (reader s))) = false ->
  get_output_metadata env order s = (Next [], s') ->
  (length (log s) < length (log s'))%nat.
Proof.
  intros Hc Hrun.
  rewrite get_output_metadata_computes in Hrun by done. unfold call in Hrun.
  destruct (data_set env (reader s)) as [[path [|file0 rest]]|] eqn:Hds.
  - erewrite compute_output_metadata_no_file in Hrun by done. done.
  - destruct (fs env (path +:+ PATH_SEP +:+ file0)) as [f0|] eqn:Hfs.
    + pose proof (compute_output_metadata_keeps env order s path file0 rest
                    f0 Hds Hfs) as Hk.
      unfold wp in Hk.
      destruct (compute_output_metadata env order s) as [[md1|r| |e] s1];
        cbn [fst snd] in Hk; destruct Hk as (_ & _ & Hf); try done.
      * injection Hrun as -> <-. by destruct Hf as (_ & _ & Hfiles & _).
      * injection Hrun as -> <-. by destruct Hf as (_ & Hlt & _).
    + erewrite compute_output_metadata_unopened in Hrun by done.
      injection Hrun as <-. cbn. rewrite length_app. cbn. lia.
  - rewrite compute_output_metadata_unlocated in Hrun by done.
    injection Hrun as <-. cbn. rewrite length_app. cbn. lia.
Qed.

Lemma get_output_metadata_reports_failure_witness :
  (length (log (Sample.start (Sample.with_axes "lon" "lat" "" "label")))
   < length (log (get_output_metadata Sample.two_files [0; 1]%nat
                    (Sample.start
                       (Sample.with_axes "lon" "lat" "" "label"))).2))%nat.
Proof.
  apply (get_output_metadata_reports_failure Sample.two_files [0; 1]%nat
           (Sample.start (Sample.with_axes "lon" "lat" "" "label"))).
  - reflexivity.
  - vm_compute; reflexivity.
Defined.

(** ** Closing the handles and keeping the entries *)

(** X25.  [close_handles] closes the file of every valid handle of the map
    and keeps the entries: the keys and the mutexes are as before, no
    entry holds a handle, and the files that no handle of the map referred
    to are open as before. *)
Theorem close_handles_keeps_entries {R} s :
  map_Forall (fun _ e => valid_handle e) (handles (internals (reader s))) ->
  exists s',
    close_handles (R := R) s = (Next tt, s')
    /\ (forall file,
          handles (internals (reader s')) !! file
          = (fun e : handle_map_elem_t => (e.1, None))
              <$> handles (internals (reader s)) !! file)
    /\ all_closed (handles (internals (reader s')))
    /\ (forall file e hd,
          handles (internals (reader s)) !! file = Some (e, Some hd) ->
          nc_open_files (lib s') !! m_handle hd = None)
    /\ (forall id,
          (forall file e hd,
             handles (internals (reader s)) !! file = Some (e, Some hd) ->
             m_handle hd <> id) ->
          nc_open_files (lib s') !! id = nc_open_files (lib s) !! id)
    /\ metadata (internals (reader s')) = metadata (internals (reader s))
    /\ log s' = log s.
Proof.
  intros Hvalid. eexists. split; [reflexivity|].
  cbn [reader lib log internals metadata handles with_internals].
  destruct (close_all_spec (handles (internals (reader s))) (lib s))
    as (_ & Hclosed & Hframe).
  split; [by intros file; rewrite lookup_fmap|].
  split.
  { intros file e. rewrite lookup_fmap.
    destruct (handles (internals (reader s)) !! file); [|done].
    by intros [= <-]. }
  split; [|split; [exact Hframe|done]].
  intros file e hd Hin. apply (Hclosed file e hd Hin).
  apply (Hvalid file (e, Some hd) Hin).
Qed.

Lemma close_handles_keeps_entries_witness :
  exists s',
    close_handles (R := unit) Sample.in_use = (Next tt, s')
    /\ (forall file,
          handles (internals (reader s')) !! file
          = (fun e : handle_map_elem_t => (e.1, None))
              <$> handles (internals (reader Sample.in_use)) !! file)
    /\ all_closed (handles (internals (reader s')))
    /\ (forall file e hd,
          handles (internals (reader Sample.in_use)) !! file
          = Some (e, Some hd) ->
          nc_open_files (lib s') !! m_handle hd = None)
    /\ (forall id,
          (forall file e hd,
             handles (internals (reader Sample.in_use)) !! file
             = Some (e, Some hd) ->
             m_handle hd <> id) ->
          nc_open_files (lib s') !! id
          = nc_open_files (lib Sample.in_use) !! id)
    /\ metadata (internals (reader s'))
       = metadata (internals (reader Sample.in_use))
    /\ log s' = log Sample.in_use.
Proof.
  apply (close_handles_keeps_entries (R := unit) Sample.in_use).
  intros file e. simpl. intros H.
  apply lookup_insert_Some in H as [[_ <-]|[_ H]]; [done|].
  apply lookup_insert_Some in H as [[_ <-]|[_ H]]; [done|].
  by rewrite lookup_empty in H.
Defined.
